(** * Applying-assistant: a shallow embedding of the scoring, discovery,
      persistence and generation-orchestration code, with the properties
      the design document states about them.

    Modelling conventions, used throughout:
    - Python [str] is a Rocq [string] whose characters are read as code
      points below 256; [.lower()], [.strip()] and [.encode()] follow
      Python on that range.
    - A Python [float] is an IEEE binary64 number.  In the scoring and
      ranking code of the filter and in the template score of the engine a
      finite float is kept as the rational it is equal to: [Num.r64] rounds
      a rational to the nearest binary64 number (ties to the even
      significand), and [Num.fadd], [Num.fsub] and [Num.fmul] round each
      exact result that way, in the order the source evaluates.  A rational
      in a float-typed record field, and a decimal constant of the source
      (0.40, 0.2, ...), names the binary64 number nearest to it:
      [Num.float] is applied where it enters arithmetic or a comparison.
      Infinities, NaN and overflow past the largest finite float are not
      represented.  The other modules store and compare scores, and compute
      percentages, on the rationals themselves.
    - A call that leaves the program (the completion API, the file system,
      the console) is an [outcome] supplied by a world record; a Python
      exception is a value of [exn]. *)

From Stdlib Require Import ZArith QArith Qabs Qminmax Qround Bool List Ascii String Lia Lqa.
From Stdlib Require Import DecimalString Sorting.Sorted Permutation.
From stdpp Require Import base option gmap strings list fin_maps.

Import ListNotations.
Local Open Scope string_scope.

(** ** Python text primitives *)

Module Text.

Definition code (c : ascii) : nat := nat_of_ascii c.

(** [str.lower] on one code point below 256: A-Z and the Latin-1 capitals
    (192..222 except the multiplication sign 215) move up by 32. *)
Definition lower_char (c : ascii) : ascii :=
  let n := code c in
  if ((65 <=? n) && (n <=? 90))%nat then ascii_of_nat (n + 32)
  else if ((192 <=? n) && (n <=? 222) && negb (n =? 215))%nat
       then ascii_of_nat (n + 32)
  else c.

Fixpoint lower (s : string) : string :=
  match s with
  | EmptyString => EmptyString
  | String c s' => String (lower_char c) (lower s')
  end.

(** [str.isspace] on one code point below 256. *)
Definition is_space (c : ascii) : bool :=
  let n := code c in
  (((9 <=? n) && (n <=? 13)) || ((28 <=? n) && (n <=? 32))
   || (n =? 133) || (n =? 160))%nat.

Fixpoint lstrip (s : string) : string :=
  match s with
  | EmptyString => EmptyString
  | String c s' => if is_space c then lstrip s' else s
  end.

Fixpoint rstrip (s : string) : string :=
  match s with
  | EmptyString => EmptyString
  | String c s' =>
      match rstrip s' with
      | EmptyString => if is_space c then EmptyString else String c EmptyString
      | r => String c r
      end
  end.

(** [s.strip()] *)
Definition strip (s : string) : string := rstrip (lstrip s).

(** [kw in s] on strings: [kw] occurs as a contiguous substring. *)
Fixpoint contains (kw s : string) : bool :=
  String.prefix kw s ||
  match s with
  | EmptyString => false
  | String _ s' => contains kw s'
  end.

(** [sep.join(l)] *)
Definition join (sep : string) (l : list string) : string := String.concat sep l.

(** [any(term in s for term in terms)] *)
Definition any_in (terms : list string) (s : string) : bool :=
  existsb (fun term => contains term s) terms.

(** [sum(1 for kw in kws if kw in s)] *)
Definition count_in (kws : list string) (s : string) : nat :=
  List.length (List.filter (fun kw => contains kw s) kws).

(** [s.replace(a, '')] for a one-character [a]. *)
Fixpoint remove_char (a : ascii) (s : string) : string :=
  match s with
  | EmptyString => EmptyString
  | String c s' => if Ascii.eqb c a then remove_char a s' else String c (remove_char a s')
  end.

Definition is_digit (c : ascii) : bool :=
  let n := code c in ((48 <=? n) && (n <=? 57))%nat.

(** [re.findall(r'\d+', s)]: the maximal runs of decimal digits, left to
    right.  [run] is the run being read, most recent digit last. *)
Fixpoint findall_digits_from (run : string) (s : string) : list string :=
  match s with
  | EmptyString => match run with EmptyString => [] | _ => [run] end
  | String c s' =>
      if is_digit c then findall_digits_from (run ++ String c EmptyString) s'
      else match run with
           | EmptyString => findall_digits_from EmptyString s'
           | _ => run :: findall_digits_from EmptyString s'
           end
  end.

Definition findall_digits (s : string) : list string :=
  findall_digits_from EmptyString s.

(** The number a string of decimal digits denotes. *)
Fixpoint int_of_digits_from (acc : Z) (s : string) : Z :=
  match s with
  | EmptyString => acc
  | String c s' => int_of_digits_from (10 * acc + (Z.of_nat (code c) - 48))%Z s'
  end.

Definition int_of_digits (s : string) : Z := int_of_digits_from 0%Z s.

(** [c * n] for a one-character [c]. *)
Fixpoint repeat (c : ascii) (n : nat) : string :=
  match n with
  | O => EmptyString
  | S n' => String c (repeat c n')
  end.

(** [s.find(c)] and [s.rfind(c)] for a one-character [c]: the first and
    the last index of [c], or -1. *)
Fixpoint find_char_from (c : ascii) (s : string) (i : Z) : Z :=
  match s with
  | EmptyString => (-1)%Z
  | String a s' => if Ascii.eqb a c then i else find_char_from c s' (i + 1)%Z
  end.

Definition find_char (c : ascii) (s : string) : Z := find_char_from c s 0%Z.

Fixpoint rfind_char_from (c : ascii) (s : string) (i last : Z) : Z :=
  match s with
  | EmptyString => last
  | String a s' => rfind_char_from c s' (i + 1)%Z (if Ascii.eqb a c then i else last)
  end.

Definition rfind_char (c : ascii) (s : string) : Z := rfind_char_from c s 0%Z (-1)%Z.

(** One bound of a Python slice: a negative index counts from the end, and
    the result is clamped to [0, len]. *)
Definition slice_bound (len i : Z) : Z :=
  if (i <? 0)%Z then Z.max (i + len) 0 else Z.min i len.

(** [s[a:b]] *)
Definition slice (s : string) (a b : Z) : string :=
  let len := Z.of_nat (String.length s) in
  let a' := slice_bound len a in
  let b' := slice_bound len b in
  if (a' <? b')%Z then String.substring (Z.to_nat a') (Z.to_nat (b' - a')) s
  else EmptyString.

End Text.

(** ** Exceptions and results of calls that leave the program *)

(** The Python exceptions the modelled code raises or receives.  All of
    them derive from [Exception], so every [except Exception] clause of
    the source catches each of them. *)
Inductive exn : Type :=
  | ValueError (msg : string)
  | AttributeError (attr : string)
  | TypeError (msg : string)
  | RuntimeError (msg : string)
  | ExternalError (msg : string).

Inductive outcome (A : Type) : Type :=
  | Ok (a : A)
  | Raise (e : exn).
Arguments Ok {A} a.
Arguments Raise {A} e.

Definition raises {A : Type} (o : outcome A) : bool :=
  match o with Ok _ => false | Raise _ => true end.

(** ** The job record (job_discovery_engine.py, [JobOpportunity]) *)

Module Job.

Record JobOpportunity : Type := {
  title : string;
  company : string;
  location : string;
  salary_range : option string;
  job_type : string;
  source : string;
  discovered_at : string;
  url : string;
  job_id : string;
  description : string;
  requirements : list string;
  technologies : list string;
  relevance_score : Q;
  priority_score : Q;
  transition_score : Q;
  status : string;
  ai_analysis : option (list (string * string));
  application_package : option string
}.

(** The constructor call of the source with its defaulted fields
    ([relevance_score = 0.0], ..., [status = 'discovered']). *)
Definition make (title company location : string) (salary_range : option string)
    (job_type source discovered_at url job_id description : string)
    (requirements technologies : list string) : JobOpportunity :=
  {| title := title; company := company; location := location;
     salary_range := salary_range; job_type := job_type; source := source;
     discovered_at := discovered_at; url := url; job_id := job_id;
     description := description; requirements := requirements;
     technologies := technologies;
     relevance_score := 0; priority_score := 0; transition_score := 0;
     status := "discovered"; ai_analysis := None; application_package := None |}.

Definition list_eqb {A : Type} (eqb : A -> A -> bool) : list A -> list A -> bool :=
  fix go (l1 l2 : list A) : bool :=
    match l1, l2 with
    | [], [] => true
    | x :: l1', y :: l2' => eqb x y && go l1' l2'
    | _, _ => false
    end.

Definition option_eqb {A : Type} (eqb : A -> A -> bool) (o1 o2 : option A) : bool :=
  match o1, o2 with
  | None, None => true
  | Some x, Some y => eqb x y
  | _, _ => false
  end.

Definition pair_eqb (p q : string * string) : bool :=
  String.eqb (fst p) (fst q) && String.eqb (snd p) (snd q).

(** The dataclass-generated [__eq__]: field-wise comparison; two floats are
    equal when they denote the same number. *)
Definition eqb (a b : JobOpportunity) : bool :=
  String.eqb (title a) (title b) && String.eqb (company a) (company b)
  && String.eqb (location a) (location b)
  && option_eqb String.eqb (salary_range a) (salary_range b)
  && String.eqb (job_type a) (job_type b) && String.eqb (source a) (source b)
  && String.eqb (discovered_at a) (discovered_at b) && String.eqb (url a) (url b)
  && String.eqb (job_id a) (job_id b) && String.eqb (description a) (description b)
  && list_eqb String.eqb (requirements a) (requirements b)
  && list_eqb String.eqb (technologies a) (technologies b)
  && Qeq_bool (relevance_score a) (relevance_score b)
  && Qeq_bool (priority_score a) (priority_score b)
  && Qeq_bool (transition_score a) (transition_score b)
  && String.eqb (status a) (status b)
  && option_eqb (list_eqb pair_eqb) (ai_analysis a) (ai_analysis b)
  && option_eqb String.eqb (application_package a) (application_package b).

End Job.

(** ** Python numbers *)

Module Num.

(** [round(x)] to the nearest integer, ties to the even neighbour. *)
Definition round_half_even (q : Q) : Z :=
  let n := Qnum q in
  let d := Zpos (Qden q) in
  let f := (n / d)%Z in
  let r := (n mod d)%Z in
  match (2 * r ?= d)%Z with
  | Lt => f
  | Gt => (f + 1)%Z
  | Eq => if Z.even f then f else (f + 1)%Z
  end.

(** [2 ** e] for an integer [e] of either sign. *)
Definition pow2 (e : Z) : Q :=
  if (0 <=? e)%Z then inject_Z (2 ^ e) else (1 # Z.to_pos (2 ^ (- e)))%Q.

(** The binary exponent of a positive rational: the [k] with
    [2^k <= q < 2^(k+1)]. *)
Definition ilog2 (q : Q) : Z :=
  let k := (Z.log2 (Qnum q) - Z.log2 (Zpos (Qden q)))%Z in
  if Qle_bool (pow2 k) q then k else (k - 1)%Z.

(** The binary64 number nearest to [q], ties to the even significand: 53
    significant bits for a normal number, a multiple of [2^-1074] below
    [2^-1022].  The result is in lowest terms. *)
Definition r64 (q : Q) : Q :=
  if Qeq_bool q 0 then 0%Q
  else
    let a := Qabs q in
    let e := Z.max (ilog2 a - 52) (-1074) in
    let m := round_half_even (a / pow2 e)%Q in
    let v := (inject_Z m * pow2 e)%Q in
    Qred (if Qle_bool 0 q then v else (- v)%Q).

(** The float a decimal constant or a float-typed field denotes; also
    [float(n)] of an integer. *)
Definition float (q : Q) : Q := r64 q.

(** [float(n)] of an integer raises [OverflowError] when the nearest
    binary64 number would be [2^1024] or beyond. *)
Definition overflows (q : Q) : bool := Qle_bool (pow2 1024) (Qabs (r64 q)).

(** [x + y], [x - y] and [x * y] on floats. *)
Definition fadd (x y : Q) : Q := r64 (x + y)%Q.
Definition fsub (x y : Q) : Q := r64 (x - y)%Q.
Definition fmul (x y : Q) : Q := r64 (x * y)%Q.

(** [round(x, 1)] of a float [x]: the one-decimal number nearest to the exact
    value of [x], ties to the even digit; the result names the float Python
    returns. *)
Definition round1 (q : Q) : Q := inject_Z (round_half_even (q * 10)) / 10.

(** [x >= y] *)
Definition geb (x y : Q) : bool := Qle_bool y x.
(** [x > y] *)
Definition gtb (x y : Q) : bool := negb (Qle_bool x y).

Definition of_nat (n : nat) : Q := inject_Z (Z.of_nat n).

(** Text of a score with one decimal digit, as [str(x)] prints a float that
    has at most one decimal digit. *)
Definition show1 (q : Q) : string :=
  let t := round_half_even (q * 10) in
  let a := Z.abs t in
  ((if (t <? 0)%Z then "-" else EmptyString)
   ++ NilZero.string_of_uint (N.to_uint (Z.to_N (a / 10))) ++ "."
   ++ NilZero.string_of_uint (N.to_uint (Z.to_N (a mod 10))))%string.

End Num.

(** ** intelligent_filter.py *)

Module Filter.

Import Job.
Local Open Scope Q_scope.

Record ScoringResult : Type := {
  overall_score : Q;
  confidence_level : Q;
  technical_score : Q;
  transition_score : Q;
  culture_score : Q;
  growth_score : Q;
  compensation_score : Q;
  reasoning : string;
  action_recommendation : string;
  keywords_matched : list string;
  red_flags : list string
}.

(** *** [_load_scoring_criteria] *)

Definition ai_keywords : list string :=
  [ "machine learning"; "ml"; "artificial intelligence"; "ai"; "deep learning";
    "neural networks"; "tensorflow"; "pytorch"; "scikit-learn"; "pandas";
    "numpy"; "data science"; "nlp"; "computer vision"; "automation";
    "python"; "jupyter"; "model deployment"; "mlops"; "data pipeline" ]%string.

Definition infrastructure_keywords : list string :=
  [ "kubernetes"; "docker"; "aws"; "azure"; "gcp"; "terraform"; "ansible";
    "jenkins"; "ci/cd"; "devops"; "monitoring"; "prometheus"; "grafana";
    "linux"; "bash"; "networking"; "security"; "sre"; "site reliability" ]%string.

Definition growth_keywords : list string :=
  [ "startup"; "scale-up"; "learning"; "mentorship"; "training";
    "conference budget"; "education"; "certification"; "career development";
    "advancement"; "leadership"; "team lead"; "senior"; "principal" ]%string.

Definition red_flag_keywords : list string :=
  [ "unpaid"; "volunteer"; "commission only"; "no benefits";
    "long hours"; "weekend work"; "on-call 24/7"; "toxic";
    "high pressure"; "fast-paced environment" ]%string.

Record Weights : Type := {
  w_technical : Q;
  w_transition : Q;
  w_culture : Q;
  w_growth : Q;
  w_compensation : Q
}.

Definition scoring_weights : Weights :=
  {| w_technical := 0.40; w_transition := 0.25; w_culture := 0.20;
     w_growth := 0.10; w_compensation := 0.05 |}.

(** The sum of the five weights, added as floats in the order of the dict. *)
Definition weights_sum (w : Weights) : Q :=
  Num.fadd (Num.fadd (Num.fadd (Num.fadd (Num.float (w_technical w))
                                          (Num.float (w_transition w)))
                               (Num.float (w_culture w)))
                     (Num.float (w_growth w)))
           (Num.float (w_compensation w)).

(** The weighted sum both scoring paths compute: five float products, added
    from left to right. *)
Definition weighted (t tr c g co : Q) : Q :=
  Num.fadd
    (Num.fadd
       (Num.fadd
          (Num.fadd (Num.fmul (Num.float t) (Num.float (w_technical scoring_weights)))
                    (Num.fmul (Num.float tr) (Num.float (w_transition scoring_weights))))
          (Num.fmul (Num.float c) (Num.float (w_culture scoring_weights))))
       (Num.fmul (Num.float g) (Num.float (w_growth scoring_weights))))
    (Num.fmul (Num.float co) (Num.float (w_compensation scoring_weights))).

(** *** The five dimension heuristics

    Every number these compute is a multiple of 0.5 of small magnitude,
    which binary64 holds exactly: their float arithmetic is exact. *)

Definition _score_technical_relevance (job_text : string) : Q :=
  let ai_matches := Text.count_in ai_keywords job_text in
  let infra_matches := Text.count_in infrastructure_keywords job_text in
  let ai_score := Qmin (Num.of_nat ai_matches * 1.5) 7.0 in
  let infra_bonus := Qmin (Num.of_nat infra_matches * 0.5) 3.0 in
  Qmin (ai_score + infra_bonus) 10.0.

Definition transition_terms : list string :=
  [ "junior"; "associate"; "entry"; "transition"; "bootcamp";
    "new grad"; "career change"; "infrastructure"; "devops to ai" ]%string.

Definition senior_but_open : list string :=
  [ "senior devops"; "senior infrastructure"; "platform engineer";
    "data platform"; "ml platform"; "ai platform" ]%string.

Definition _score_transition_fit (job_text job_title : string) : Q :=
  let title_lower := Text.lower job_title in
  if Text.any_in [ "principal"; "staff"; "lead" ]%string title_lower
     && negb (Text.any_in [ "infrastructure"; "platform"; "devops" ]%string title_lower)
  then 3.0
  else if Text.any_in transition_terms job_text then 9.0
  else if Text.any_in senior_but_open job_text then 8.0
  else 6.0.

Definition positive_culture : list string :=
  [ "learning"; "growth"; "mentorship"; "collaboration";
    "work-life balance"; "flexible"; "remote"; "innovative" ]%string.

Definition negative_culture : list string :=
  [ "fast-paced"; "high pressure"; "long hours"; "weekend work" ]%string.

Definition _score_company_culture (job_text : string) : Q :=
  let positive_score := Num.of_nat (2 * Text.count_in positive_culture job_text) in
  let negative_penalty := Num.of_nat (Text.count_in negative_culture job_text) in
  let base_score := 5.0 + positive_score - negative_penalty in
  Qmax (Qmin base_score 10.0) 1.0.

Definition _score_growth_potential (job_text : string) : Q :=
  let growth_indicators := Text.count_in growth_keywords job_text in
  if (3 <=? growth_indicators)%nat then 9.0
  else if (1 <=? growth_indicators)%nat then 7.0
  else 5.0.

(** [max(valid_numbers)] of a non-empty list. *)
Definition max_list (x : Z) (l : list Z) : Z := fold_left Z.max l x.

(** [int(num)] for a run of decimal digits.  CPython (3.11 and later, with
    the default [sys.get_int_max_str_digits()]) refuses a text of more than
    4300 digits with [ValueError]. *)
Definition max_str_digits : nat := 4300.

Definition py_int (num : string) : outcome Z :=
  if (max_str_digits <? String.length num)%nat
  then Raise (ValueError "Exceeds the limit (4300 digits) for integer string conversion")
  else Ok (Text.int_of_digits num).

(** [[int(num) for num in nums]]: the first conversion that raises ends the
    comprehension. *)
Fixpoint ints (nums : list string) : outcome (list Z) :=
  match nums with
  | [] => Ok []
  | num :: rest =>
      match py_int num with
      | Raise e => Raise e
      | Ok n =>
          match ints rest with
          | Raise e => Raise e
          | Ok l => Ok (n :: l)
          end
      end
  end.

(** The digit runs of a salary text that [_score_compensation] converts. *)
Definition salary_numbers (sr : string) : list string :=
  List.filter (fun num => (4 <=? String.length num)%nat)
              (Text.findall_digits (Text.remove_char "," sr)).

Definition _score_compensation (salary_range : option string) (job_text : string)
  : outcome Q :=
  match salary_range with
  | None => Ok 5.0
  | Some EmptyString => Ok 5.0
  | Some sr =>
      match ints (salary_numbers sr) with
      | Raise e => Raise e
      | Ok [] => Ok 5.0
      | Ok (x :: rest) =>
          let max_salary := max_list x rest in
          if (120000 <=? max_salary)%Z then Ok 8.0
          else if (90000 <=? max_salary)%Z then Ok 6.0
          else if (60000 <=? max_salary)%Z then Ok 4.0
          else Ok 2.0
      end
  end.

(** *** [_fallback_score_opportunity] *)

Definition job_text_of (job : JobOpportunity) : string :=
  Text.lower (title job ++ " " ++ description job ++ " "
              ++ Text.join " " (requirements job) ++ " "
              ++ Text.join " " (technologies job))%string.

(** The recommendation, decided on the weighted sum before it is rounded. *)
Definition recommendation_of (overall : Q) : string :=
  if Num.geb overall (Num.float 8.0) then "APPLY - High-priority opportunity"
  else if Num.geb overall (Num.float 6.0) then "RESEARCH - Investigate further"
  else "PASS - Focus on higher-scoring opportunities".

(** The only call of the rule-based path that can raise is [int], inside
    [_score_compensation]; nothing catches it there. *)
Definition _fallback_score_opportunity (job : JobOpportunity) : outcome ScoringResult :=
  let job_text := job_text_of job in
  let technical := _score_technical_relevance job_text in
  let transition := _score_transition_fit job_text (title job) in
  let culture := _score_company_culture job_text in
  let growth := _score_growth_potential job_text in
  match _score_compensation (salary_range job) job_text with
  | Raise e => Raise e
  | Ok compensation =>
      let overall := weighted technical transition culture growth compensation in
      let matched :=
        List.filter (fun kw => Text.contains kw job_text)
                    (ai_keywords ++ infrastructure_keywords) in
      let flags :=
        List.filter (fun flag => Text.contains flag job_text) red_flag_keywords in
      Ok {| overall_score := Num.round1 overall;
            confidence_level := 0.6;
            technical_score := technical;
            transition_score := transition;
            culture_score := culture;
            growth_score := growth;
            compensation_score := compensation;
            reasoning :=
              ("Rule-based analysis: Technical relevance " ++ Num.show1 technical
               ++ "/10, Transition fit " ++ Num.show1 transition
               ++ "/10, Culture " ++ Num.show1 culture ++ "/10")%string;
            action_recommendation := recommendation_of overall;
            keywords_matched := firstn 10 matched;
            red_flags := flags |}
  end.

(** *** The AI scoring path *)

(** A value of the JSON object the completion returns.  [JInt] is a number
    written without fraction or exponent, which [json.loads] reads as an
    [int]; [JNum] is any other number, read as the float nearest to it (a
    literal beyond the float range, [Infinity] and [NaN] are not
    represented). *)
Inductive jvalue : Type :=
  | JNull
  | JInt (n : Z)
  | JNum (q : Q)
  | JBool (b : bool)
  | JText (s : string)
  | JOther.

(** The object [json.loads] returns, read at the keys the code looks up;
    [None] is an absent key.  The five scores enter arithmetic and are kept
    as JSON values; the other keys are taken at the type the dataclass
    annotates. *)
Record AiData : Type := {
  ai_technical : option jvalue;
  ai_transition : option jvalue;
  ai_culture : option jvalue;
  ai_growth : option jvalue;
  ai_compensation : option jvalue;
  ai_confidence : option Q;
  ai_keywords_matched : option (list string);
  ai_red_flags : option (list string);
  ai_reasoning : option string;
  ai_recommendation : option string
}.

(** [ai_data.get(key, 5.0)] as the left operand of [* weight]: a number (a
    JSON boolean is the integer 0 or 1), or [None] where [*] raises:
    [TypeError] on a value that is no number, [OverflowError] on an integer
    too large for a float. *)
Definition score_operand (v : option jvalue) : option Q :=
  match v with
  | None => Some 5.0
  | Some (JInt n) => if Num.overflows (inject_Z n) then None else Some (inject_Z n)
  | Some (JNum q) => Some q
  | Some (JBool b) => Some (if b then 1 else 0)
  | Some _ => None
  end.

Definition get_default {A : Type} (v : option A) (d : A) : A :=
  match v with Some a => a | None => d end.

(** [ai_response[json_start:json_end]]: from the first opening brace to the
    last closing brace.  It starts with a brace or is one of [''] and ['}'],
    so that [json.loads] returns a dict or raises. *)
Definition json_text (ai_response : string) : string :=
  let json_start := Text.find_char "{" ai_response in
  let json_end := (Text.rfind_char "}" ai_response + 1)%Z in
  Text.slice ai_response json_start json_end.

(** What the filter reaches outside the program. *)
Record World : Type := {
  (** [openai.OpenAI(api_key=...)] *)
  openai_client : string -> outcome unit;
  (** [client.chat.completions.create(...)] followed by
      [response.choices[0].message.content], for the prompt built from a
      job; the content of a message can be [None] *)
  chat_completion : JobOpportunity -> outcome (option string);
  (** [json.loads] *)
  json_loads : string -> outcome AiData
}.

Section WithWorld.

Variable w : World.

(** The body of the [try] block of [_parse_ai_response]; [None] when it
    raises. *)
Definition parsed_result (ai_response : option string) : option ScoringResult :=
  match ai_response with
  | None => None
  | Some ai_response =>
      match json_loads w (json_text ai_response) with
      | Raise _ => None
      | Ok ai_data =>
          match score_operand (ai_technical ai_data),
                score_operand (ai_transition ai_data),
                score_operand (ai_culture ai_data),
                score_operand (ai_growth ai_data),
                score_operand (ai_compensation ai_data) with
          | Some t, Some tr, Some c, Some g, Some co =>
              let overall := weighted t tr c g co in
              Some {| overall_score := Num.round1 overall;
                      confidence_level := get_default (ai_confidence ai_data) 0.8;
                      technical_score := t;
                      transition_score := tr;
                      culture_score := c;
                      growth_score := g;
                      compensation_score := co;
                      reasoning :=
                        get_default (ai_reasoning ai_data) "AI analysis completed";
                      action_recommendation :=
                        get_default (ai_recommendation ai_data) "RESEARCH";
                      keywords_matched := get_default (ai_keywords_matched ai_data) [];
                      red_flags := get_default (ai_red_flags ai_data) [] |}
          | _, _, _, _, _ => None
          end
      end
  end.

(** [except Exception]: the rule-based scoring, whose own exception is not
    caught. *)
Definition _parse_ai_response (ai_response : option string) (job : JobOpportunity)
  : outcome ScoringResult :=
  match parsed_result ai_response with
  | Some result => Ok result
  | None => _fallback_score_opportunity job
  end.

Definition _ai_score_opportunity (job : JobOpportunity) : outcome ScoringResult :=
  match chat_completion w job with
  | Ok ai_analysis =>
      match _parse_ai_response ai_analysis job with
      | Ok result => Ok result
      | Raise _ => _fallback_score_opportunity job
      end
  | Raise _ => _fallback_score_opportunity job
  end.

(** The filter object: [self.fallback_mode] and whether [self.client] is set. *)
Record IntelligentFilter : Type := {
  fallback_mode : bool;
  client : bool
}.

(** [IntelligentFilter.__init__]; an empty key is falsy. *)
Definition init (openai_api_key : option string) (fallback : bool) : IntelligentFilter :=
  match openai_api_key with
  | Some (String _ _ as key) =>
      if fallback then {| fallback_mode := true; client := false |}
      else match openai_client w key with
           | Ok _ => {| fallback_mode := false; client := true |}
           | Raise _ => {| fallback_mode := true; client := false |}
           end
  | _ => {| fallback_mode := true; client := false |}
  end.

Definition score_opportunity (self : IntelligentFilter) (job : JobOpportunity)
  : outcome ScoringResult :=
  if negb (fallback_mode self) && client self then _ai_score_opportunity job
  else _fallback_score_opportunity job.

End WithWorld.

(** *** [rank_opportunities] *)

(** [hasattr(job, 'discovered_at')]: the dataclass always has the field. *)
Definition has_discovered_at (job : JobOpportunity) : bool := true.

(** The local [primary_score] of [ranking_key] after its three updates. *)
Definition primary_score (score : ScoringResult) : Q :=
  let primary_score := Num.float (overall_score score) in
  let primary_score :=
    if Num.gtb (Num.float (confidence_level score)) (Num.float 0.8)
       && Num.geb (Num.float (technical_score score)) (Num.float 7.0)
    then Num.fadd primary_score (Num.float 0.5) else primary_score in
  let primary_score :=
    if Num.geb (Num.float (transition_score score)) (Num.float 8.0)
    then Num.fadd primary_score (Num.float 0.3) else primary_score in
  match red_flags score with
  | [] => primary_score
  | flags =>
      Num.fsub primary_score
               (Num.fmul (Num.float (Num.of_nat (List.length flags))) (Num.float 0.2))
  end.

Definition ranking_key (job_score_pair : JobOpportunity * ScoringResult) : Q :=
  let '(job, score) := job_score_pair in
  let recency_bonus := if has_discovered_at job then Num.float 0.01 else 0 in
  - (Num.fadd (primary_score score) recency_bonus).

(** [sorted(l, key=key)]: ascending in the key, and stable: an element goes
    in front of the first later element whose key is not smaller. *)
Fixpoint insert_by {A : Type} (key : A -> Q) (x : A) (l : list A) : list A :=
  match l with
  | [] => [x]
  | y :: l' => if Qle_bool (key x) (key y) then x :: y :: l'
               else y :: insert_by key x l'
  end.

Fixpoint sorted_by {A : Type} (key : A -> Q) (l : list A) : list A :=
  match l with
  | [] => []
  | x :: l' => insert_by key x (sorted_by key l')
  end.

Definition rank_opportunities (jobs_with_scores : list (JobOpportunity * ScoringResult))
  : list (JobOpportunity * ScoringResult) :=
  sorted_by ranking_key jobs_with_scores.

End Filter.

(** ** hashlib.md5 (RFC 1321), on 32-bit words kept in [Z] *)

Module MD5.

Local Open Scope Z_scope.

Definition mask32 : Z := 4294967295.
Definition wrap32 (x : Z) : Z := Z.land x mask32.
Definition add32 (x y : Z) : Z := wrap32 (x + y).
Definition not32 (x : Z) : Z := Z.lxor x mask32.
Definition rotl32 (x c : Z) : Z :=
  wrap32 (Z.lor (Z.shiftl x c) (Z.shiftr x (32 - c))).

(** [str.encode()]: UTF-8 of code points below 256. *)
Definition utf8_char (c : ascii) : list Z :=
  let n := Z.of_nat (nat_of_ascii c) in
  if n <? 128 then [n]
  else [Z.lor 192 (Z.shiftr n 6); Z.lor 128 (Z.land n 63)].

Fixpoint encode (s : string) : list Z :=
  match s with
  | EmptyString => []
  | String c s' => utf8_char c ++ encode s'
  end.

Definition K : list Z :=
  [ 3614090360; 3905402710; 606105819; 3250441966;
    4118548399; 1200080426; 2821735955; 4249261313;
    1770035416; 2336552879; 4294925233; 2304563134;
    1804603682; 4254626195; 2792965006; 1236535329;
    4129170786; 3225465664; 643717713; 3921069994;
    3593408605; 38016083; 3634488961; 3889429448;
    568446438; 3275163606; 4107603335; 1163531501;
    2850285829; 4243563512; 1735328473; 2368359562;
    4294588738; 2272392833; 1839030562; 4259657740;
    2763975236; 1272893353; 4139469664; 3200236656;
    681279174; 3936430074; 3572445317; 76029189;
    3654602809; 3873151461; 530742520; 3299628645;
    4096336452; 1126891415; 2878612391; 4237533241;
    1700485571; 2399980690; 4293915773; 2240044497;
    1873313359; 4264355552; 2734768916; 1309151649;
    4149444226; 3174756917; 718787259; 3951481745 ].

Definition shifts : list Z :=
  [ 7; 12; 17; 22; 7; 12; 17; 22; 7; 12; 17; 22; 7; 12; 17; 22;
    5; 9; 14; 20; 5; 9; 14; 20; 5; 9; 14; 20; 5; 9; 14; 20;
    4; 11; 16; 23; 4; 11; 16; 23; 4; 11; 16; 23; 4; 11; 16; 23;
    6; 10; 15; 21; 6; 10; 15; 21; 6; 10; 15; 21; 6; 10; 15; 21 ].

(** Padding: a 1 bit, zeros up to 56 modulo 64, the bit length on 8 bytes,
    least significant byte first. *)
Definition le_bytes (n : nat) (x : Z) : list Z :=
  map (fun i => Z.land (Z.shiftr x (8 * Z.of_nat i)) 255) (seq 0 n).

Definition pad (msg : list Z) : list Z :=
  let len := Z.of_nat (List.length msg) in
  let zeros := Z.to_nat ((55 - len) mod 64) in
  msg ++ [128] ++ repeat 0 zeros ++ le_bytes 8 (8 * len).

Definition word_of_bytes (b : list Z) : Z :=
  fold_right (fun x acc => x + 256 * acc) 0 b.

(** The sixteen words of a 64-byte block. *)
Fixpoint words (n : nat) (block : list Z) : list Z :=
  match n with
  | O => []
  | S n' => word_of_bytes (firstn 4 block) :: words n' (skipn 4 block)
  end.

Record state : Type := { a0 : Z; b0 : Z; c0 : Z; d0 : Z }.

Definition init : state :=
  {| a0 := 1732584193; b0 := 4023233417; c0 := 2562383102; d0 := 271733878 |}.

Definition step (M : list Z) (st : state) (i : nat) : state :=
  let iz := Z.of_nat i in
  let '(F, g) :=
    if iz <? 16 then
      (Z.lor (Z.land (b0 st) (c0 st)) (Z.land (not32 (b0 st)) (d0 st)), iz)
    else if iz <? 32 then
      (Z.lor (Z.land (d0 st) (b0 st)) (Z.land (not32 (d0 st)) (c0 st)), (5 * iz + 1) mod 16)
    else if iz <? 48 then
      (Z.lxor (Z.lxor (b0 st) (c0 st)) (d0 st), (3 * iz + 5) mod 16)
    else
      (Z.lxor (c0 st) (Z.lor (b0 st) (not32 (d0 st))), (7 * iz) mod 16) in
  let F' := add32 (add32 (add32 F (a0 st)) (nth i K 0)) (nth (Z.to_nat g) M 0) in
  {| a0 := d0 st; d0 := c0 st; c0 := b0 st;
     b0 := add32 (b0 st) (rotl32 F' (nth i shifts 0)) |}.

Definition compress (st : state) (block : list Z) : state :=
  let r := fold_left (step (words 16 block)) (seq 0 64) st in
  {| a0 := add32 (a0 st) (a0 r); b0 := add32 (b0 st) (b0 r);
     c0 := add32 (c0 st) (c0 r); d0 := add32 (d0 st) (d0 r) |}.

Fixpoint blocks (n : nat) (st : state) (bytes : list Z) : state :=
  match n with
  | O => st
  | S n' => blocks n' (compress st (firstn 64 bytes)) (skipn 64 bytes)
  end.

Definition digest (msg : list Z) : list Z :=
  let p := pad msg in
  let st := blocks (List.length p / 64) init p in
  le_bytes 4 (a0 st) ++ le_bytes 4 (b0 st) ++ le_bytes 4 (c0 st) ++ le_bytes 4 (d0 st).

Definition hex_digit (n : Z) : ascii :=
  ascii_of_nat (Z.to_nat (if n <? 10 then 48 + n else 87 + n)).

Fixpoint hex (bytes : list Z) : string :=
  match bytes with
  | [] => EmptyString
  | b :: rest => String (hex_digit (b / 16)) (String (hex_digit (b mod 16)) (hex rest))
  end.

(** [hashlib.md5(s.encode()).hexdigest()] *)
Definition hexdigest (s : string) : string := hex (digest (encode s)).

End MD5.

(** ** job_discovery_engine.py *)

Module Discovery.

Import Job.

(** *** [_generate_job_id] (the same body in [BaseScraper] and in
    [JobDiscoveryEngine]) *)

Definition unique_string (title company source : string) : string :=
  (Text.lower title ++ "_" ++ Text.lower company ++ "_" ++ source)%string.

Definition _generate_job_id (title company source : string) : string :=
  Text.slice (MD5.hexdigest (unique_string title company source)) 0 12.

(** *** [_deduplicate_jobs] *)

(** The similarity key of the loop body. *)
Definition dedup_key (job : JobOpportunity) : string :=
  (Text.strip (Text.lower (title job)) ++ "_" ++ Text.strip (Text.lower (company job)))%string.

(** [source_priority.get(source, 0)] *)
Definition source_priority (source : string) : nat :=
  if String.eqb source "linkedin" then 3
  else if String.eqb source "indeed" then 2
  else if String.eqb source "company" then 1
  else if String.eqb source "hn_jobs" then 1
  else 0.

(** [l.remove(x)]: drops the first element equal to [x]; [None] stands for
    the [ValueError] Python raises when there is none. *)
Fixpoint list_remove (x : JobOpportunity) (l : list JobOpportunity)
  : option (list JobOpportunity) :=
  match l with
  | [] => None
  | y :: l' => if Job.eqb y x then Some l'
               else match list_remove x l' with
                    | Some r => Some (y :: r)
                    | None => None
                    end
  end.

(** The two locals of the loop: the dict [seen_jobs] and the list
    [unique_jobs]. *)
Record dedup_state : Type := {
  seen_jobs : gmap string JobOpportunity;
  unique_jobs : list JobOpportunity
}.

Definition dedup_step (st : dedup_state) (job : JobOpportunity) : outcome dedup_state :=
  let key := dedup_key job in
  match seen_jobs st !! key with
  | None =>
      Ok {| seen_jobs := <[key := job]> (seen_jobs st);
            unique_jobs := (unique_jobs st ++ [job])%list |}
  | Some existing_job =>
      if (source_priority (source existing_job) <? source_priority (source job))%nat
      then match list_remove existing_job (unique_jobs st) with
           | None => Raise (ValueError "list.remove(x): x not in list")
           | Some rest =>
               Ok {| seen_jobs := <[key := job]> (seen_jobs st);
                     unique_jobs := (rest ++ [job])%list |}
           end
      else Ok st
  end.

Fixpoint dedup_loop (st : dedup_state) (jobs : list JobOpportunity) : outcome dedup_state :=
  match jobs with
  | [] => Ok st
  | job :: rest =>
      match dedup_step st job with
      | Ok st' => dedup_loop st' rest
      | Raise e => Raise e
      end
  end.

Definition _deduplicate_jobs (jobs : list JobOpportunity) : outcome (list JobOpportunity) :=
  match dedup_loop {| seen_jobs := ∅; unique_jobs := [] |} jobs with
  | Ok st => Ok (unique_jobs st)
  | Raise e => Raise e
  end.

(** *** [JobDatabase] *)

(** The table [job_opportunities]: its rows in rowid order.  A row holds the
    columns of a job; the two JSON array columns hold the lists themselves. *)
Definition table : Type := list JobOpportunity.

(** The column values [save_job] binds: [ai_analysis] is stored as NULL when
    the dict is empty or absent. *)
Definition row_of_job (job : JobOpportunity) : JobOpportunity :=
  {| title := title job; company := company job; location := location job;
     salary_range := salary_range job; job_type := job_type job;
     source := source job; discovered_at := discovered_at job; url := url job;
     job_id := job_id job; description := description job;
     requirements := requirements job; technologies := technologies job;
     relevance_score := relevance_score job; priority_score := priority_score job;
     transition_score := Job.transition_score job; status := status job;
     ai_analysis := match ai_analysis job with
                    | Some [] => None
                    | a => a
                    end;
     application_package := application_package job |}.

(** [INSERT OR REPLACE] on the primary key [job_id]: every row with the key
    is deleted and the new row is added with a fresh rowid. *)
Definition insert_or_replace (row : JobOpportunity) (db : table) : table :=
  (List.filter (fun r => negb (String.eqb (job_id r) (job_id row))) db ++ [row])%list.

(** [save_job]; [io] is the outcome of opening the connection and running
    the statement. *)
Definition save_job (io : outcome unit) (db : table) (job : JobOpportunity)
  : table * bool :=
  match io with
  | Ok _ => (insert_or_replace (row_of_job job) db, true)
  | Raise _ => (db, false)
  end.

(** Text comparison of the BINARY collation. *)
Definition text_leb (a b : string) : bool :=
  match String.compare a b with Gt => false | _ => true end.

(** [ORDER BY relevance_score DESC, discovered_at DESC]: [a] may come
    before [b]. *)
Definition order_by (a b : JobOpportunity) : bool :=
  match Qcompare (relevance_score a) (relevance_score b) with
  | Gt => true
  | Lt => false
  | Eq => text_leb (discovered_at b) (discovered_at a)
  end.

(** Rows that the ORDER BY terms do not separate stay in rowid order. *)
Fixpoint insert_row (x : JobOpportunity) (l : list JobOpportunity) : list JobOpportunity :=
  match l with
  | [] => [x]
  | y :: l' => if order_by x y then x :: y :: l' else y :: insert_row x l'
  end.

Fixpoint sort_rows (l : list JobOpportunity) : list JobOpportunity :=
  match l with
  | [] => []
  | x :: l' => insert_row x (sort_rows l')
  end.

(** [LIMIT n] is appended only when [limit] is truthy; SQLite reads a
    negative limit as no limit. *)
Definition apply_limit (limit : option Z) (rows : list JobOpportunity)
  : list JobOpportunity :=
  match limit with
  | None => rows
  | Some n => if (n =? 0)%Z then rows
              else if (n <? 0)%Z then rows
              else firstn (Z.to_nat n) rows
  end.

(** [_row_to_job]: the columns back into a job. *)
Definition _row_to_job (row : JobOpportunity) : JobOpportunity := row.

Definition get_jobs_by_status (io : outcome unit) (db : table) (status_ : string)
    (limit : option Z) : list JobOpportunity :=
  match io with
  | Ok _ =>
      map _row_to_job
          (apply_limit limit
             (sort_rows (List.filter (fun r => String.eqb (status r) status_) db)))
  | Raise _ => []
  end.

(** *** [get_top_opportunities] *)

(** A stable sort by an order given as a boolean test: [x] goes in front of
    the first later row it may come before. *)
Fixpoint insert_with (before : JobOpportunity -> JobOpportunity -> bool)
    (x : JobOpportunity) (l : list JobOpportunity) : list JobOpportunity :=
  match l with
  | [] => [x]
  | y :: l' => if before x y then x :: y :: l' else y :: insert_with before x l'
  end.

Fixpoint sort_with (before : JobOpportunity -> JobOpportunity -> bool)
    (l : list JobOpportunity) : list JobOpportunity :=
  match l with
  | [] => []
  | x :: l' => insert_with before x (sort_with before l')
  end.

(** [ORDER BY relevance_score DESC, priority_score DESC]: [a] may come
    before [b]. *)
Definition order_top (a b : JobOpportunity) : bool :=
  match Qcompare (relevance_score a) (relevance_score b) with
  | Gt => true
  | Lt => false
  | Eq => Qle_bool (priority_score b) (priority_score a)
  end.

(** [LIMIT ?] with an integer bound: SQLite reads a negative limit as no
    limit. *)
Definition bind_limit (limit : Z) (rows : list JobOpportunity) : list JobOpportunity :=
  if (limit <? 0)%Z then rows else firstn (Z.to_nat limit) rows.

(** [WHERE status = 'discovered' AND relevance_score > 0] *)
Definition is_top_candidate (r : JobOpportunity) : bool :=
  String.eqb (status r) "discovered" && negb (Qle_bool (relevance_score r) 0).

Definition get_top_opportunities (io : outcome unit) (db : table) (limit : Z)
  : list JobOpportunity :=
  match io with
  | Ok _ =>
      map _row_to_job
          (bind_limit limit (sort_with order_top (List.filter is_top_candidate db)))
  | Raise _ => []
  end.

(** [JobDiscoveryEngine.get_discovered_jobs] *)
Definition get_discovered_jobs (io : outcome unit) (db : table) (limit : Z)
  : list JobOpportunity :=
  get_jobs_by_status io db "discovered" (Some limit).

(** *** The tail of [discover_jobs]: collecting, deduplicating, saving *)

(** What [asyncio.gather(..., return_exceptions=True)] hands back for one
    scraper: its list of jobs, or the exception it raised.  The loop keeps
    the lists and logs the exceptions. *)
Definition collect_results (scraper_results : list (outcome (list JobOpportunity)))
  : list JobOpportunity :=
  flat_map (fun result => match result with Ok jobs => jobs | Raise _ => [] end)
           scraper_results.

(** [for job in unique_jobs: self.database.save_job(job)]; [save_io i] is
    the outcome of the statement of the [i]-th call. *)
Fixpoint save_all (save_io : nat -> outcome unit) (db : table)
    (jobs : list JobOpportunity) : table :=
  match jobs with
  | [] => db
  | job :: rest =>
      save_all (fun i => save_io (S i)) (fst (save_job (save_io O) db job)) rest
  end.

(** [discover_jobs] from the point where [asyncio.gather] has returned
    [scraper_results]. *)
Definition discover_jobs (scraper_results : list (outcome (list JobOpportunity)))
    (save_io : nat -> outcome unit) (db : table)
  : outcome (list JobOpportunity) * table :=
  match _deduplicate_jobs (collect_results scraper_results) with
  | Ok unique => (Ok unique, save_all save_io db unique)
  | Raise e => (Raise e, db)
  end.

End Discovery.

(** ** Stateful computations that may raise *)

Module Effects.

(** A computation on an object of type [S]: it returns or raises, and
    leaves the object in a new state either way, as a Python method does. *)
Definition SE (S A : Type) : Type := S -> outcome A * S.

Definition ret {S A : Type} (a : A) : SE S A := fun s => (Ok a, s).

Definition throw {S A : Type} (x : exn) : SE S A := fun s => (Raise x, s).

Definition bind {S A B : Type} (m : SE S A) (k : A -> SE S B) : SE S B :=
  fun s => match m s with
           | (Ok a, s') => k a s'
           | (Raise x, s') => (Raise x, s')
           end.

(** [try: m] followed by [except Exception as x: h x] *)
Definition try_except {S A : Type} (m : SE S A) (h : exn -> SE S A) : SE S A :=
  fun s => match m s with
           | (Ok a, s') => (Ok a, s')
           | (Raise x, s') => h x s'
           end.

(** The outcome of a call that does not touch the object. *)
Definition lift {S A : Type} (o : outcome A) : SE S A := fun s => (o, s).

#[global] Instance SE_ret {S : Type} : MRet (SE S) := @ret S.
#[global] Instance SE_bind {S : Type} : MBind (SE S) := fun A B k m => bind m k.

(** [str(e)] *)
Definition exn_text (x : exn) : string :=
  match x with
  | ValueError m => m
  | AttributeError a => a
  | TypeError m => m
  | RuntimeError m => m
  | ExternalError m => m
  end.

End Effects.

(** ** progress_tracker.py *)

Module Progress.

Inductive ProgressStage : Type :=
  | INITIALIZING | COMPANY_RESEARCH | BUSINESS_ANALYSIS | TECHNICAL_RESEARCH
  | MARKET_ANALYSIS | POSITIONING_STRATEGY | COVER_LETTER_GENERATION
  | EXECUTIVE_SUMMARY | INTERVIEW_PREP | SUCCESS_STRATEGY | FINALIZING | COMPLETE.

(** [list(ProgressStage)] *)
Definition stages : list ProgressStage :=
  [ INITIALIZING; COMPANY_RESEARCH; BUSINESS_ANALYSIS; TECHNICAL_RESEARCH;
    MARKET_ANALYSIS; POSITIONING_STRATEGY; COVER_LETTER_GENERATION;
    EXECUTIVE_SUMMARY; INTERVIEW_PREP; SUCCESS_STRATEGY; FINALIZING; COMPLETE ].

(** [list(ProgressStage).index(stage)] *)
Definition stage_index (s : ProgressStage) : nat :=
  match s with
  | INITIALIZING => 0 | COMPANY_RESEARCH => 1 | BUSINESS_ANALYSIS => 2
  | TECHNICAL_RESEARCH => 3 | MARKET_ANALYSIS => 4 | POSITIONING_STRATEGY => 5
  | COVER_LETTER_GENERATION => 6 | EXECUTIVE_SUMMARY => 7 | INTERVIEW_PREP => 8
  | SUCCESS_STRATEGY => 9 | FINALIZING => 10 | COMPLETE => 11
  end.

Record ProgressUpdate : Type := {
  stage : ProgressStage;
  message : string;
  progress_percent : Q;
  details : option string
}.

(** The tracker fields the orchestrator's control flow depends on; the
    wall-clock fields are left out. *)
Record ProgressTracker : Type := {
  is_active : bool;
  current_stage : ProgressStage;
  progress_updates : list ProgressUpdate
}.

Definition new : ProgressTracker :=
  {| is_active := false; current_stage := INITIALIZING; progress_updates := [] |}.

Definition percent_of (s : ProgressStage) : Q :=
  (Num.of_nat (stage_index s) / Num.of_nat (List.length stages) * 100)%Q.

Section WithConsole.

(** Writing a block of text to the console. *)
Variable console : string -> outcome unit.

Definition start (t : ProgressTracker) : outcome unit * ProgressTracker :=
  (console "AI APPLICATION GENERATION - LIVE PROGRESS TRACKING",
   {| is_active := true; current_stage := current_stage t;
      progress_updates := progress_updates t |}).

Definition update_stage (t : ProgressTracker) (s : ProgressStage) (msg : string)
    (det : option string) : outcome unit * ProgressTracker :=
  if negb (is_active t) then (Ok tt, t)
  else
    let update := {| stage := s; message := msg; progress_percent := percent_of s;
                     details := det |} in
    (console msg,
     {| is_active := true; current_stage := s;
        progress_updates := (progress_updates t ++ [update])%list |}).

Definition update_progress (t : ProgressTracker) (msg : string)
  : outcome unit * ProgressTracker :=
  if negb (is_active t) then (Ok tt, t) else (console msg, t).

Definition deactivate (t : ProgressTracker) : ProgressTracker :=
  {| is_active := false; current_stage := current_stage t;
     progress_updates := progress_updates t |}.

Definition complete (t : ProgressTracker) (msg : string) : outcome unit * ProgressTracker :=
  (console msg, deactivate t).

Definition error (t : ProgressTracker) (msg : string) : outcome unit * ProgressTracker :=
  (console msg, deactivate t).

End WithConsole.

End Progress.

(** ** parallel_ai_engine.py *)

Module Parallel.

Import Progress Effects.

(** A prompt sent to the completion API: which builder made it and the
    values it interpolates.  The fixed prose around them is not modelled. *)
Record Prompt : Type := {
  p_builder : string;
  p_args : list string
}.

Record SophisticatedApplicationPackage : Type := {
  job_title : string;
  company_name : string;
  application_date : string;
  executive_summary : string;
  cover_letter : string;
  strategic_positioning : string;
  interview_preparation : string;
  success_strategy : string;
  company_intelligence : string;
  competitive_analysis : string;
  technical_alignment : string;
  career_narrative : string;
  generation_time : Q;
  sophistication_score : Q;
  personalization_depth : Q;
  strategic_insight_score : Q;
  parallel_efficiency : Q;
  api_calls_made : nat;
  optimization_level : string
}.

(** What the engine reaches outside the program. *)
Record World : Type := {
  (** [client.chat.completions.create(...)] in a worker thread, followed by
      [response.choices[0].message.content] ([None] when the message has no
      content) *)
  completion : Prompt -> nat -> outcome (option string);
  (** writing to the console *)
  console : string -> outcome unit;
  (** [time.time() - start_time] at assembly *)
  elapsed : Q;
  (** [datetime.now()] formatted as a date and as an ISO timestamp *)
  today : string;
  now : string
}.

(** The mutable fields of the engine object. *)
Record Engine : Type := {
  calls_made : nat;
  progress_tracker : option ProgressTracker;
  logged : list string
}.

Definition new_engine : Engine :=
  {| calls_made := 0; progress_tracker := None; logged := [] |}.

(** Computations on the engine object. *)
Definition M : Type -> Type := Effects.SE Engine.

Section WithWorld.

Variable w : World.

(** The call of a tracker method on [self.progress_tracker]. *)
Definition with_tracker
    (f : ProgressTracker -> outcome unit * ProgressTracker) : M unit :=
  fun e =>
    match progress_tracker e with
    | None => (Raise (AttributeError "NoneType"), e)
    | Some t =>
        let '(r, t') := f t in
        (r, {| calls_made := calls_made e; progress_tracker := Some t';
               logged := logged e |})
    end.

Definition log (line : string) : M unit :=
  fun e => (Ok tt, {| calls_made := calls_made e;
                      progress_tracker := progress_tracker e;
                      logged := (logged e ++ [line])%list |}).

Definition count_call : M unit :=
  fun e => (Ok tt, {| calls_made := S (calls_made e);
                      progress_tracker := progress_tracker e;
                      logged := logged e |}).

(** *** [_sophisticated_gpt4_call] *)

Record Task : Type := {
  task_name : string;
  prompt : Prompt;
  max_tokens : nat
}.

Definition fallback_text (name : string) : string :=
  ("[" ++ name ++ " generation failed - implementing fallback strategy]")%string.

(** The [except] clause of the call. *)
Definition on_failure (t : Task) (x : exn) : M string :=
  log ("Sophisticated " ++ task_name t ++ " failed: " ++ exn_text x)%string ;;
  mret (fallback_text (task_name t)).

(** The call up to its [await]: the heartbeat.  [None]: the coroutine is
    now waiting for the worker thread; [Some r]: it already returned [r]. *)
Definition call_begin (t : Task) : M (option string) :=
  try_except
    (with_tracker (fun tr =>
       update_progress (console w) tr
         ("Processing " ++ task_name t ++ " with GPT-4...")%string) ;;
     mret None)
    (fun x => r ← on_failure t x; mret (Some r)).

(** The call from the moment the worker thread has finished. *)
Definition call_resume (t : Task) : M string :=
  try_except
    (match completion w (prompt t) (max_tokens t) with
     | Raise x => throw x
     | Ok content =>
         count_call ;;
         log ("Sophisticated " ++ task_name t ++ " completed with GPT-4")%string ;;
         match content with
         | Some text => mret (Text.strip text)
         | None => throw (AttributeError "strip")
         end
     end)
    (on_failure t).

(** *** [asyncio.gather] over such calls *)

(** The value a finished task hands to [gather]. *)
Definition result_text (r : option string) : string :=
  match r with Some s => s | None => EmptyString end.

(** Every coroutine first runs to its [await], in list order. *)
Fixpoint begin_all (tasks : list Task) : M (list (option string)) :=
  match tasks with
  | [] => mret []
  | t :: rest =>
      r ← call_begin t;
      rs ← begin_all rest;
      mret (r :: rs)
  end.

(** The worker thread of task [i] finishes: its coroutine resumes and runs
    to its end, unless it has a result already. *)
Definition resume_at (tasks : list Task) (i : nat) (results : list (option string))
  : M (list (option string)) :=
  match tasks !! i, results !! i with
  | Some t, Some None =>
      r ← call_resume t;
      mret (<[i := Some r]> results)
  | _, _ => mret results
  end.

Fixpoint resume_in_order (tasks : list Task) (order : list nat)
    (results : list (option string)) : M (list (option string)) :=
  match order with
  | [] => mret results
  | i :: rest =>
      results' ← resume_at tasks i results;
      resume_in_order tasks rest results'
  end.

(** [await asyncio.gather] of the task list.  [schedule] is the order in which the
    worker threads finish; a task it does not name finishes after those it
    names, in list order.  The results come back in list order. *)
Definition gather (schedule : list nat) (tasks : list Task) : M (list string) :=
  started ← begin_all tasks;
  results ← resume_in_order tasks (schedule ++ seq 0 (List.length tasks))%list started;
  mret (map result_text results).

(** *** Prompt builders *)

Definition _build_sophisticated_company_prompt (company job : string) : Prompt :=
  {| p_builder := "company"; p_args := [company; job] |}.

Definition _build_competitive_analysis_prompt (company job : string) : Prompt :=
  {| p_builder := "competitive_analysis"; p_args := [company; job] |}.

Definition _build_technical_alignment_prompt (job description : string) : Prompt :=
  {| p_builder := "technical_alignment"; p_args := [job; description] |}.

Definition _build_strategic_positioning_prompt (company job description : string) : Prompt :=
  {| p_builder := "strategic_positioning"; p_args := [job; company; description] |}.

(** The dict the research phase returns. *)
Record Research : Type := {
  r_company_intelligence : string;
  r_competitive_analysis : string;
  r_technical_alignment : string;
  r_strategic_positioning : string;
  r_research_timestamp : string
}.

(** The dict the content phase returns. *)
Record Content : Type := {
  c_cover_letter : string;
  c_executive_summary : string;
  c_interview_preparation : string;
  c_success_strategy : string;
  c_career_narrative : string
}.

(** The values [_build_sophisticated_context] interpolates: the opportunity
    and the first 500 characters of three research results. *)
Definition _build_sophisticated_context (job company description : string)
    (research : Research) : list string :=
  [ company; job; description;
    Text.slice (r_company_intelligence research) 0 500;
    Text.slice (r_strategic_positioning research) 0 500;
    Text.slice (r_technical_alignment research) 0 500 ].

Definition content_prompt (builder : string) (context : list string) : Prompt :=
  {| p_builder := builder; p_args := context |}.

(** *** Phase 1: [_parallel_deep_research_phase] *)

Definition research_tasks (company job description : string) : list Task :=
  [ {| task_name := "company_intelligence";
       prompt := _build_sophisticated_company_prompt company job;
       max_tokens := 1200 |};
    {| task_name := "competitive_analysis";
       prompt := _build_competitive_analysis_prompt company job;
       max_tokens := 800 |};
    {| task_name := "technical_alignment";
       prompt := _build_technical_alignment_prompt job description;
       max_tokens := 1000 |};
    {| task_name := "strategic_positioning";
       prompt := _build_strategic_positioning_prompt company job description;
       max_tokens := 900 |} ].

Definition _parallel_deep_research_phase (schedule : list nat)
    (company job description : string) : M Research :=
  with_tracker (fun tr =>
    update_progress (console w) tr "Executing parallel deep research with GPT-4...") ;;
  results ← gather schedule (research_tasks company job description);
  match results with
  | [ company_intel; competitive; technical; strategic ] =>
      mret {| r_company_intelligence := company_intel;
              r_competitive_analysis := competitive;
              r_technical_alignment := technical;
              r_strategic_positioning := strategic;
              r_research_timestamp := now w |}
  | _ => throw (ValueError "not enough values to unpack")
  end.

(** *** Phase 2: [_parallel_sophisticated_content_generation] *)

Definition content_tasks (context : list string) : list Task :=
  [ {| task_name := "sophisticated_cover_letter";
       prompt := content_prompt "cover_letter" context; max_tokens := 800 |};
    {| task_name := "executive_summary";
       prompt := content_prompt "executive_summary" context; max_tokens := 400 |};
    {| task_name := "advanced_interview_prep";
       prompt := content_prompt "advanced_interview_prep" context; max_tokens := 1000 |};
    {| task_name := "success_strategy";
       prompt := content_prompt "success_strategy" context; max_tokens := 700 |};
    {| task_name := "career_narrative";
       prompt := content_prompt "career_narrative" context; max_tokens := 600 |} ].

Definition _parallel_sophisticated_content_generation (schedule : list nat)
    (job company description : string) (research : Research) : M Content :=
  let sophisticated_context :=
    _build_sophisticated_context job company description research in
  with_tracker (fun tr =>
    update_progress (console w) tr
      "Generating sophisticated content with parallel GPT-4...") ;;
  results ← gather schedule (content_tasks sophisticated_context);
  match results with
  | [ cover; summary; interview; strategy; narrative ] =>
      mret {| c_cover_letter := cover;
              c_executive_summary := summary;
              c_interview_preparation := interview;
              c_success_strategy := strategy;
              c_career_narrative := narrative |}
  | _ => throw (ValueError "not enough values to unpack")
  end.

(** *** Phase 3: [_integrate_sophisticated_application] *)

Definition _integrate_sophisticated_application (job company : string)
    (research : Research) (content : Content) : M SophisticatedApplicationPackage :=
  fun e =>
    (Ok {| job_title := job;
           company_name := company;
           application_date := today w;
           executive_summary := c_executive_summary content;
           cover_letter := c_cover_letter content;
           strategic_positioning := r_strategic_positioning research;
           interview_preparation := c_interview_preparation content;
           success_strategy := c_success_strategy content;
           company_intelligence := r_company_intelligence research;
           competitive_analysis := r_competitive_analysis research;
           technical_alignment := r_technical_alignment research;
           career_narrative := c_career_narrative content;
           generation_time := elapsed w;
           sophistication_score := 9.5;
           personalization_depth := 9.8;
           strategic_insight_score := 9.6;
           parallel_efficiency := (1.0 - elapsed w / 105.0)%Q;
           api_calls_made := calls_made e;
           optimization_level := "MAXIMUM_SOPHISTICATION" |}, e).

(** *** [generate_sophisticated_application] *)

Definition set_tracker (t : ProgressTracker) : M unit :=
  fun e => (Ok tt, {| calls_made := calls_made e; progress_tracker := Some t;
                      logged := logged e |}).

(** The handler of the outer [try]: report through the tracker when there
    is one, log, and raise the exception again. *)
Definition on_generation_error (x : exn) : M SophisticatedApplicationPackage :=
  (fun e =>
     match progress_tracker e with
     | Some _ =>
         with_tracker (fun tr =>
           Progress.error (console w) tr
             ("Sophisticated generation failed: " ++ exn_text x)%string) e
     | None => (Ok tt, e)
     end) ;;
  log ("Application generation error: " ++ exn_text x)%string ;;
  throw x.

Definition generate_sophisticated_application (schedule1 schedule2 : list nat)
    (job company description job_url : string) : M SophisticatedApplicationPackage :=
  set_tracker Progress.new ;;
  with_tracker (Progress.start (console w)) ;;
  try_except
    (with_tracker (fun tr =>
       update_stage (console w) tr COMPANY_RESEARCH
         "Conducting parallel deep research and analysis"
         (Some "Company intelligence + Competitive analysis + Technical alignment (GPT-4)")) ;;
     research_intelligence ←
       _parallel_deep_research_phase schedule1 company job description;
     with_tracker (fun tr =>
       update_stage (console w) tr COVER_LETTER_GENERATION
         "Generating sophisticated content with parallel GPT-4 calls"
         (Some "Cover letter + Executive summary + Strategy + Interview prep (concurrent)")) ;;
     content_suite ←
       _parallel_sophisticated_content_generation schedule2 job company description
         research_intelligence;
     with_tracker (fun tr =>
       update_stage (console w) tr FINALIZING
         "Integrating and enhancing sophisticated application package"
         (Some "Strategic synthesis + Quality enhancement + Final optimization")) ;;
     application ←
       _integrate_sophisticated_application job company research_intelligence content_suite;
     with_tracker (fun tr =>
       Progress.complete (console w) tr "Sophisticated parallel application completed!") ;;
     mret application)
    on_generation_error.

End WithWorld.

End Parallel.

(** ** api_key_manager.py *)

Module Keys.

(** The places [find_openai_api_key] looks at.  A file is [None] when it
    does not exist, and [Some (Raise _)] when reading it fails. *)
Record Environment : Type := {
  env_var : option string;
  project_env : option (outcome (list string));
  home_env : option (outcome (list string))
}.

Definition truthy (s : option string) : bool :=
  match s with
  | Some (String _ _) => true
  | _ => false
  end.

(** [s.strip(c)] for a one-character [c]. *)
Fixpoint lstrip_char (c : ascii) (s : string) : string :=
  match s with
  | EmptyString => EmptyString
  | String a s' => if Ascii.eqb a c then lstrip_char c s' else s
  end.

Fixpoint rstrip_char (c : ascii) (s : string) : string :=
  match s with
  | EmptyString => EmptyString
  | String a s' =>
      match rstrip_char c s' with
      | EmptyString => if Ascii.eqb a c then EmptyString else String a EmptyString
      | r => String a r
      end
  end.

Definition strip_char (c : ascii) (s : string) : string :=
  rstrip_char c (lstrip_char c s).

Definition double_quote : ascii := ascii_of_nat 34.
Definition single_quote : ascii := ascii_of_nat 39.

(** [line.split('=', 1)[1]] for a line that contains ['=']. *)
Fixpoint after_equals (line : string) : string :=
  match line with
  | EmptyString => EmptyString
  | String a s' => if Ascii.eqb a "=" then s' else after_equals s'
  end.

Fixpoint first_key_line (lines : list string) : option string :=
  match lines with
  | [] => None
  | line :: rest =>
      if String.prefix "OPENAI_API_KEY=" line
      then Some (strip_char single_quote
                   (strip_char double_quote (Text.strip (after_equals line))))
      else first_key_line rest
  end.

Definition _load_from_env_file (file : outcome (list string)) : option string :=
  match file with
  | Ok lines => first_key_line lines
  | Raise _ => None
  end.

Definition from_file (file : option (outcome (list string))) : option string :=
  match file with
  | Some f => let k := _load_from_env_file f in if truthy k then k else None
  | None => None
  end.

Definition find_openai_api_key (env : Environment) : option string :=
  if truthy (env_var env) then env_var env
  else match from_file (project_env env) with
       | Some k => Some k
       | None => from_file (home_env env)
       end.

End Keys.

(** ** main_application_engine.py *)

Module Engine.

Import Effects.

(** The [job_data] dict, read at the keys the engine looks up.  [None] is
    an absent key; the [url] key may be present with the value [None].
    [jd_other] holds every other entry. *)
Record JobData : Type := {
  jd_title : option string;
  jd_company : option string;
  jd_description : option string;
  jd_url : option (option string);
  jd_other : list (string * string)
}.

(** [bool(job_data)]: a dict is truthy when it has an entry. *)
Definition nonempty (d : JobData) : bool :=
  match jd_title d, jd_company d, jd_description d, jd_url d, jd_other d with
  | None, None, None, None, [] => false
  | _, _, _, _, _ => true
  end.

Definition get (v : option string) (default : string) : string :=
  match v with Some s => s | None => default end.

(** The results of the template-mode collaborators, at the fields the
    engine reads. *)
Record CompanyIntelligence : Type := {
  job_fit_score : Q;
  recent_news : list string;
  application_recommendations : list string
}.

Record ResumeCustomization : Type := {
  emphasized_skills : list string;
  keyword_optimization : list string
}.

Record CoverLetterGeneration : Type := {
  personalization_score : Q
}.

(** The result of the single-threaded AI engine, at the field the engine
    reads. *)
Record AIApplicationPackage : Type := {
  ai_quality_score : Q
}.

(** The mode-specific entries of an application package. *)
Inductive Content : Type :=
  | ParallelContent (parallel_ai_application : Parallel.SophisticatedApplicationPackage)
  | AIContent (ai_application : AIApplicationPackage)
  | TemplateContent (company_intelligence : option CompanyIntelligence)
      (resume_customization : option ResumeCustomization)
      (cover_letter : option CoverLetterGeneration).

(** The application package dict.  [mode] is [None] when the dict has no
    ['mode'] key. *)
Record Package : Type := {
  application_id : string;
  generated_at : string;
  job_information : JobData;
  content : Content;
  application_score : Q;
  files_generated : list string;
  mode : option string;
  next_steps : list string
}.

Definition with_file (p : Package) (file : string) : Package :=
  {| application_id := application_id p; generated_at := generated_at p;
     job_information := job_information p; content := content p;
     application_score := application_score p;
     files_generated := (files_generated p ++ [file])%list;
     mode := mode p; next_steps := next_steps p |}.

(** What the engine reaches outside the program. *)
Record World : Type := {
  environment : Keys.Environment;
  parallel_world : Parallel.World;
  (** [asyncio.new_event_loop()] followed by [asyncio.set_event_loop(loop)] *)
  new_event_loop : outcome unit;
  (** an event loop is already running in the calling thread, in which
      case [loop.run_until_complete] raises [RuntimeError] *)
  loop_running : bool;
  (** the order in which the worker threads of each phase finish *)
  schedule1 : list nat;
  schedule2 : list nat;
  (** [ai_engine.generate_ai_application] and [ai_engine.save_ai_application] *)
  generate_ai_application : JobData -> outcome AIApplicationPackage;
  save_ai_application : string -> outcome string;
  (** the template-mode collaborators *)
  research_company : string -> option string -> outcome (option CompanyIntelligence);
  customize_resume_for_job :
    JobData -> option CompanyIntelligence -> outcome (option ResumeCustomization);
  generate_cover_letter :
    JobData -> option CompanyIntelligence -> outcome (option CoverLetterGeneration);
  (** creating a directory or writing a file at a path *)
  file_io : string -> outcome unit;
  (** [datetime.now()] as an ISO timestamp, to the minute and to the second *)
  iso_now : string;
  stamp_minute : string;
  stamp_second : string
}.

(** The engine object.  An attribute that [__init__] does not assign is
    [None] (or [false]); reading it raises [AttributeError]. *)
Record ApplicationEngine : Type := {
  output_dir : string;
  api_key : option string;
  ai_mode : bool;
  parallel_mode : bool;
  parallel_ai_engine : option Parallel.Engine;
  ai_engine : option unit;
  template_components : bool;
  applications : gmap string Package;
  printed : list string
}.

Definition M : Type -> Type := SE ApplicationEngine.

Definition print (line : string) : M unit :=
  fun e => (Ok tt,
    {| output_dir := output_dir e; api_key := api_key e; ai_mode := ai_mode e;
       parallel_mode := parallel_mode e; parallel_ai_engine := parallel_ai_engine e;
       ai_engine := ai_engine e; template_components := template_components e;
       applications := applications e; printed := (printed e ++ [line])%list |}).

Definition set_application (app_id : string) (p : Package) : M unit :=
  fun e => (Ok tt,
    {| output_dir := output_dir e; api_key := api_key e; ai_mode := ai_mode e;
       parallel_mode := parallel_mode e; parallel_ai_engine := parallel_ai_engine e;
       ai_engine := ai_engine e; template_components := template_components e;
       applications := <[app_id := p]> (applications e); printed := printed e |}).

Definition set_parallel (pe : Parallel.Engine) : M unit :=
  fun e => (Ok tt,
    {| output_dir := output_dir e; api_key := api_key e; ai_mode := ai_mode e;
       parallel_mode := parallel_mode e; parallel_ai_engine := Some pe;
       ai_engine := ai_engine e; template_components := template_components e;
       applications := applications e; printed := printed e |}).

Section WithWorld.

Variable w : World.

(** *** [__init__].  The run starts without an earlier tracking file, and
    the constructors of the collaborators are taken to return. *)

Definition init (openai_api_key : option string) (dir : string)
  : outcome ApplicationEngine :=
  match file_io w dir with
  | Raise x => Raise x
  | Ok _ =>
      let key := if Keys.truthy openai_api_key then openai_api_key
                 else Keys.find_openai_api_key (environment w) in
      if Keys.truthy key then
        Ok {| output_dir := dir; api_key := key; ai_mode := true;
              parallel_mode := true; parallel_ai_engine := Some Parallel.new_engine;
              ai_engine := None; template_components := false;
              applications := ∅;
              printed := [ "AI Job Hunt Commander ready - AI-POWERED MODE" ] |}
      else
        Ok {| output_dir := dir; api_key := key; ai_mode := false;
              parallel_mode := false; parallel_ai_engine := None;
              ai_engine := None; template_components := true;
              applications := ∅;
              printed := [ "AI Job Hunt Commander ready - TEMPLATE MODE" ] |}
  end.

(** *** Helpers of the package builders *)

(** [c.isalnum()] on one code point below 256. *)
Definition is_alnum (c : ascii) : bool :=
  let n := nat_of_ascii c in
  (((48 <=? n) && (n <=? 57)) || ((65 <=? n) && (n <=? 90))
   || ((97 <=? n) && (n <=? 122))
   || (n =? 170) || (n =? 178) || (n =? 179) || (n =? 181) || (n =? 185)
   || (n =? 186) || (n =? 188) || (n =? 189) || (n =? 190)
   || ((192 <=? n) && negb (n =? 215) && negb (n =? 247)))%nat.

Fixpoint clean_company (s : string) : string :=
  match s with
  | EmptyString => EmptyString
  | String c s' =>
      let c' := if Ascii.eqb c " " || Ascii.eqb c "-" then "_"%char else c in
      if is_alnum c' || Ascii.eqb c' "_" then String c' (clean_company s')
      else clean_company s'
  end.

Definition _generate_application_id (job_data : JobData) : string :=
  (clean_company (get (jd_company job_data) "unknown") ++ "_" ++ stamp_minute w)%string.

Definition path (dir file : string) : string := (dir ++ "/" ++ file)%string.

(** [_save_application]: the package enters [self.applications], then the
    tracking file is rewritten. *)
Definition _save_application (p : Package) : M unit :=
  set_application (application_id p) p ;;
  e ← (fun e => (Ok e, e));
  lift (file_io w (path (output_dir e) "application_tracking.json")).

(** [if company_intel.job_fit_score:] on a float. *)
Definition nonzero (q : Q) : bool := negb (Qeq_bool (Num.float q) 0).

Definition _calculate_application_score (company_intel : option CompanyIntelligence)
    (resume_custom : option ResumeCustomization)
    (cover : option CoverLetterGeneration) : Q :=
  let score := Num.float 5.0 in
  let score :=
    match company_intel with
    | Some ci =>
        let s1 :=
          if nonzero (job_fit_score ci)
          then Num.fadd score
                 (Num.fmul (Num.fsub (Num.float (job_fit_score ci)) (Num.float 5.0))
                           (Num.float 0.3))
          else score in
        let s2 := if (0 <? List.length (recent_news ci))%nat
                  then Num.fadd s1 (Num.float 0.5) else s1 in
        if (3 <? List.length (application_recommendations ci))%nat
        then Num.fadd s2 (Num.float 0.5) else s2
    | None => score
    end in
  let score :=
    match resume_custom with
    | Some rc =>
        let s1 := if (5 <=? List.length (emphasized_skills rc))%nat
                  then Num.fadd score (Num.float 0.5) else score in
        if (5 <=? List.length (keyword_optimization rc))%nat
        then Num.fadd s1 (Num.float 0.5) else s1
    | None => score
    end in
  let score :=
    match cover with
    | Some cl =>
        Num.fadd score
          (Num.fmul (Num.fsub (Num.float (personalization_score cl)) (Num.float 5.0))
                    (Num.float 0.2))
    | None => score
    end in
  Qmin (Qmax score (Num.float 0.0)) (Num.float 10.0).

Definition _generate_next_steps (company_intel : option CompanyIntelligence)
  : list string :=
  ([ "Review and customize generated resume for final submission";
     "Personalize cover letter opening with specific company details";
     "Submit application through company's preferred channel" ]
   ++ match company_intel with
      | Some ci =>
          map (fun rec => ("Application tip: " ++ rec)%string)
              (firstn 2 (application_recommendations ci))
      | None => []
      end
   ++ [ "Schedule follow-up reminder for 1 week after application";
        "Research hiring manager on LinkedIn for potential connection" ])%list.

Definition _generate_sophisticated_next_steps : list string :=
  [ "Review comprehensive sophisticated AI-generated application package";
    "Leverage advanced strategic positioning and competitive analysis";
    "Utilize sophisticated interview preparation and technical depth guide";
    "Implement executive-level success strategy and differentiation approach";
    "Follow advanced career narrative and technical leadership positioning";
    "Execute strategic application timeline with sophisticated follow-up approach" ].

Definition _generate_ai_next_steps : list string :=
  [ "Review comprehensive AI-generated application package";
    "Customize cover letter with personal touches if needed";
    "Submit through company's preferred application channel";
    "Follow strategic positioning recommendations from research";
    "Prepare for interview using AI-generated preparation guide";
    "Schedule follow-up based on success strategy recommendations" ].

(** *** [_process_with_ai_engine] *)

Definition read_ai_engine : M unit :=
  fun e => match ai_engine e with
           | Some _ => (Ok tt, e)
           | None => (Raise (AttributeError "ai_engine"), e)
           end.

Definition _process_with_ai_engine (job_data : JobData) : M Package :=
  print "USING AI-POWERED MODE - Deep research in progress..." ;;
  read_ai_engine ;;
  ai_application ← lift (generate_ai_application w job_data);
  let app_id := _generate_application_id job_data in
  let application_package :=
    {| application_id := app_id;
       generated_at := iso_now w;
       job_information := job_data;
       content := AIContent ai_application;
       application_score := ai_quality_score ai_application;
       files_generated := [];
       mode := Some "AI_POWERED";
       next_steps := _generate_ai_next_steps |} in
  e ← (fun e => (Ok e, e));
  let app_dir := path (output_dir e) app_id in
  lift (file_io w app_dir) ;;
  ai_file ← lift (save_ai_application w app_dir);
  let application_package := with_file application_package ai_file in
  _save_application application_package ;;
  print "AI-POWERED JOB APPLICATION COMPLETED" ;;
  mret application_package.

(** *** [_process_with_parallel_ai_engine] *)

(** [loop = asyncio.new_event_loop(); asyncio.set_event_loop(loop);
    loop.run_until_complete(self.parallel_ai_engine.generate_sophisticated_application(...))].
    The coroutine object is built before [run_until_complete] is entered,
    which refuses to run when a loop is already running in the thread. *)
Definition run_parallel (job_data : JobData)
  : M Parallel.SophisticatedApplicationPackage :=
  fun e =>
    match new_event_loop w with
    | Raise x => (Raise x, e)
    | Ok _ =>
        match parallel_ai_engine e with
        | None => (Raise (AttributeError "parallel_ai_engine"), e)
        | Some pe =>
            if loop_running w
            then (Raise (RuntimeError
                           "Cannot run the event loop while another loop is running"), e)
            else
              let '(r, pe') :=
                Parallel.generate_sophisticated_application (parallel_world w)
                  (schedule1 w) (schedule2 w)
                  (get (jd_title job_data) EmptyString)
                  (get (jd_company job_data) EmptyString)
                  (get (jd_description job_data) EmptyString)
                  (match jd_url job_data with
                   | Some (Some u) => u
                   | _ => EmptyString
                   end) pe in
              match set_parallel pe' e with
              | (_, e') => (r, e')
              end
        end
    end.

Definition _save_sophisticated_application
    (a : Parallel.SophisticatedApplicationPackage) (app_dir : string) : M string :=
  let filepath :=
    path app_dir ("Sophisticated_Parallel_" ++ Parallel.company_name a ++ "_"
                  ++ Parallel.job_title a ++ "_" ++ stamp_second w ++ ".txt")%string in
  lift (file_io w filepath) ;;
  mret filepath.

(** The body of the [try] block. *)
Definition parallel_attempt (job_data : JobData) : M Package :=
  parallel_application ← run_parallel job_data;
  let app_id := _generate_application_id job_data in
  let application_package :=
    {| application_id := app_id;
       generated_at := iso_now w;
       job_information := job_data;
       content := ParallelContent parallel_application;
       application_score := Parallel.sophistication_score parallel_application;
       files_generated := [];
       mode := Some "SOPHISTICATED_PARALLEL_AI";
       next_steps := _generate_sophisticated_next_steps |} in
  e ← (fun e => (Ok e, e));
  let app_dir := path (output_dir e) app_id in
  lift (file_io w app_dir) ;;
  sophisticated_file ← _save_sophisticated_application parallel_application app_dir;
  let application_package := with_file application_package sophisticated_file in
  _save_application application_package ;;
  print "SOPHISTICATED PARALLEL AI APPLICATION COMPLETED" ;;
  mret application_package.

(** The [except Exception as e] clause. *)
Definition parallel_fallback (job_data : JobData) (x : exn) : M Package :=
  print ("Parallel AI processing failed: " ++ exn_text x)%string ;;
  print "Falling back to standard AI mode..." ;;
  _process_with_ai_engine job_data.

Definition _process_with_parallel_ai_engine (job_data : JobData) : M Package :=
  print "USING SOPHISTICATED PARALLEL AI MODE - Maximum quality + speed" ;;
  try_except (parallel_attempt job_data) (parallel_fallback job_data).

(** *** [_process_with_template_mode] *)

Definition read_template_components : M unit :=
  fun e => if template_components e then (Ok tt, e)
           else (Raise (AttributeError "company_researcher"), e).

Definition export_if {A : Type} (x : option A) (file : string) (p : Package) : M Package :=
  match x with
  | Some _ => lift (file_io w file) ;; mret (with_file p file)
  | None => mret p
  end.

Definition _create_application_package (job_data : JobData)
    (company_intel : option CompanyIntelligence)
    (resume_custom : option ResumeCustomization)
    (cover : option CoverLetterGeneration) : M Package :=
  let app_id := _generate_application_id job_data in
  let package :=
    {| application_id := app_id;
       generated_at := iso_now w;
       job_information := job_data;
       content := TemplateContent company_intel resume_custom cover;
       application_score := _calculate_application_score company_intel resume_custom cover;
       files_generated := [];
       mode := None;
       next_steps := _generate_next_steps company_intel |} in
  e ← (fun e => (Ok e, e));
  let app_dir := path (output_dir e) app_id in
  lift (file_io w app_dir) ;;
  package ← export_if resume_custom
    (path app_dir ("resume_" ++ app_id ++ ".md")%string) package;
  package ← export_if cover
    (path app_dir ("cover_letter_" ++ app_id ++ ".txt")%string) package;
  package ← export_if company_intel
    (path app_dir ("company_research_" ++ app_id ++ ".json")%string) package;
  let summary_file := path app_dir ("application_summary_" ++ app_id ++ ".json")%string in
  lift (file_io w summary_file) ;;
  mret (with_file package summary_file).

Definition _process_with_template_mode (job_data : JobData) : M Package :=
  print "USING TEMPLATE MODE - Instant generation" ;;
  read_template_components ;;
  company_intelligence ←
    lift (research_company w (get (jd_company job_data) "Unknown") (jd_title job_data));
  resume_customization ← lift (customize_resume_for_job w job_data company_intelligence);
  cover_letter ← lift (generate_cover_letter w job_data company_intelligence);
  application_package ←
    _create_application_package job_data company_intelligence resume_customization
      cover_letter;
  _save_application application_package ;;
  print "AI JOB APPLICATION COMPLETED" ;;
  mret application_package.

(** *** [process_job_application] *)

(** [_scrape_job_posting]: not implemented in the source, returns [None]. *)
Definition _scrape_job_posting (url : string) : option JobData := None.

(** The dict built from a company name and a job title. *)
Definition manual_job_data (company_name job_title : option string) : JobData :=
  {| jd_title := job_title;
     jd_company := company_name;
     jd_description :=
       Some ("Manually entered position: " ++ get job_title EmptyString
             ++ " at " ++ get company_name EmptyString)%string;
     jd_url := Some None;
     jd_other := [] |}.

(** Step 1 of [process_job_application]: the job data the run works on. *)
Definition gather_job_data (job_url : option string) (job_data : option JobData)
    (company_name job_title : option string) : outcome (option JobData) :=
  if match job_data with Some d => nonempty d | None => false end then Ok job_data
  else if Keys.truthy job_url then Ok (_scrape_job_posting (get job_url EmptyString))
  else if Keys.truthy company_name && Keys.truthy job_title
  then Ok (Some (manual_job_data company_name job_title))
  else Raise (ValueError
         "Must provide either job_url, job_data, or company_name + job_title").

Definition is_falsy (job_data : option JobData) : bool :=
  match job_data with Some d => negb (nonempty d) | None => true end.

Definition process_job_application (job_url : option string) (job_data : option JobData)
    (company_name job_title : option string) : M (option Package) :=
  job_data ← lift (gather_job_data job_url job_data company_name job_title);
  match job_data with
  | None => mret None
  | Some d =>
      if is_falsy job_data then mret None
      else
        e ← (fun e => (Ok e, e));
        package ←
          (if ai_mode e && parallel_mode e then _process_with_parallel_ai_engine d
           else if ai_mode e then _process_with_ai_engine d
           else _process_with_template_mode d);
        mret (Some package)
  end.

End WithWorld.

End Engine.

(** * Predicates used in the statements, and concrete inputs *)

Module Props.

Import Job Filter.
Local Open Scope Q_scope.

(** A score lies in the interval the dataclass documents. *)
Definition in_range (q : Q) : Prop := 0 <= q <= 10.

(** The score the ranking sorts by, as the code computes it: the overall
    score, plus 0.5 for a confident technical match, plus 0.3 for a
    transition role, minus 0.2 per red flag, plus the recency bonus, each
    step rounded as float arithmetic rounds it. *)
Definition adjusted_score (p : JobOpportunity * ScoringResult) : Q :=
  Num.fadd (primary_score (snd p))
           (if has_discovered_at (fst p) then Num.float 0.01 else 0).

(** Every digit run that [_score_compensation] would convert is within the
    limit of [int]. *)
Definition readable_salary (salary_range : option string) : bool :=
  match salary_range with
  | None => true
  | Some sr =>
      forallb (fun num => (String.length num <=? max_str_digits)%nat)
              (salary_numbers sr)
  end.

(** The rule-based path finds no red-flag keyword in the job text. *)
Definition no_red_flag (job : JobOpportunity) : Prop :=
  List.filter (fun flag => Text.contains flag (job_text_of job)) red_flag_keywords = [].

(** One of the five scores of a parsed response cannot be multiplied by its
    weight: it is no number, or an integer too large for a float. *)
Definition malformed (d : AiData) : Prop :=
  score_operand (ai_technical d) = None \/ score_operand (ai_transition d) = None
  \/ score_operand (ai_culture d) = None \/ score_operand (ai_growth d) = None
  \/ score_operand (ai_compensation d) = None.

(** The character [c] does not occur in [s]. *)
Fixpoint no_char (c : ascii) (s : string) : Prop :=
  match s with
  | EmptyString => True
  | String a s' => a <> c /\ no_char c s'
  end.

(** The priority of the source a job came from. *)
Definition priority (job : JobOpportunity) : nat :=
  Discovery.source_priority (source job).

(** What the deduplication loop maintains after it has gone through the
    jobs [processed]: the dict and the list hold the same jobs, one per
    key, each taken from [processed] and of the highest priority seen for
    its key. *)
Definition dedup_inv (processed : list JobOpportunity) (st : Discovery.dedup_state)
  : Prop :=
  (forall k j, Discovery.seen_jobs st !! k = Some j ->
     In j (Discovery.unique_jobs st) /\ Discovery.dedup_key j = k)
  /\ (forall j, In j (Discovery.unique_jobs st) ->
       Discovery.seen_jobs st !! Discovery.dedup_key j = Some j)
  /\ List.NoDup (map Discovery.dedup_key (Discovery.unique_jobs st))
  /\ (forall p, In p processed ->
       exists r, Discovery.seen_jobs st !! Discovery.dedup_key p = Some r
                 /\ (priority p <= priority r)%nat)
  /\ (forall r, In r (Discovery.unique_jobs st) -> In r processed).

(** The stored rows with a given primary key. *)
Definition rows_with (id : string) (db : Discovery.table) : list JobOpportunity :=
  List.filter (fun r => String.eqb (job_id r) id) db.

(** The order the query is written with: higher score first, and among
    equal scores the later discovery time first. *)
Definition coded_order (a b : JobOpportunity) : Prop :=
  relevance_score b < relevance_score a
  \/ (relevance_score a == relevance_score b
      /\ Discovery.text_leb (discovered_at b) (discovered_at a) = true).

(** The order the design document words: higher score first, and among
    equal scores the earlier discovery time first. *)
Definition claimed_order (a b : JobOpportunity) : Prop :=
  relevance_score b < relevance_score a
  \/ (relevance_score a == relevance_score b
      /\ Discovery.text_leb (discovered_at a) (discovered_at b) = true).

(** The order [get_top_opportunities] is written with: higher relevance
    first, and among equal relevance the higher priority score first. *)
Definition top_order (a b : JobOpportunity) : Prop :=
  relevance_score b < relevance_score a
  \/ (relevance_score a == relevance_score b
      /\ priority_score b <= priority_score a).

(** The primary keys of the stored rows, in rowid order. *)
Definition ids (db : Discovery.table) : list string := map job_id db.

(** Some stored row has the primary key [id]. *)
Definition stored (id : string) (db : Discovery.table) : Prop :=
  exists row, In row db /\ job_id row = id.

(** A lower-case hexadecimal digit. *)
Definition is_hex (c : ascii) : bool :=
  let n := Text.code c in
  (((48 <=? n) && (n <=? 57)) || ((97 <=? n) && (n <=? 102)))%nat.

Fixpoint all_chars (p : ascii -> bool) (s : string) : bool :=
  match s with
  | EmptyString => true
  | String c s' => p c && all_chars p s'
  end.

(** *** Parallel engine *)

(** The heartbeat of a call fails: there is no tracker, or the tracker is
    active and the console write raises. *)
Definition heartbeat_fails (w : Parallel.World) (tr : option Progress.ProgressTracker)
    (t : Parallel.Task) : bool :=
  match tr with
  | None => true
  | Some tr =>
      Progress.is_active tr
      && raises (Parallel.console w
                   ("Processing " ++ Parallel.task_name t ++ " with GPT-4...")%string)
  end.

(** What a call returns once its worker thread has finished: the stripped
    completion, or the fallback text that names the task. *)
Definition task_result (w : Parallel.World) (t : Parallel.Task) : string :=
  match Parallel.completion w (Parallel.prompt t) (Parallel.max_tokens t) with
  | Ok (Some text) => Text.strip text
  | _ => Parallel.fallback_text (Parallel.task_name t)
  end.

(** What a call hands to [gather]; it depends on the task's own answers
    from the world only. *)
Definition call_result (w : Parallel.World) (tr : option Progress.ProgressTracker)
    (t : Parallel.Task) : string :=
  if heartbeat_fails w tr t then Parallel.fallback_text (Parallel.task_name t)
  else task_result w t.

(** What a call has handed over when it reaches its [await]. *)
Definition started (w : Parallel.World) (tr : option Progress.ProgressTracker)
    (t : Parallel.Task) : option string :=
  if heartbeat_fails w tr t then Some (Parallel.fallback_text (Parallel.task_name t))
  else None.

(** The state a call leaves behind has the tracker it found. *)
Definition same_tracker (e e' : Parallel.Engine) : Prop :=
  Parallel.progress_tracker e' = Parallel.progress_tracker e.

(** The results [gather] holds while the worker threads finish: every task
    has its final result, or is still waiting after a heartbeat that went
    through. *)
Definition gathering (w : Parallel.World) (tr : option Progress.ProgressTracker)
    (tasks : list Parallel.Task) (results : list (option string)) : Prop :=
  List.length results = List.length tasks
  /\ forall i t, tasks !! i = Some t ->
       results !! i = Some (Some (call_result w tr t))
       \/ (results !! i = Some None /\ heartbeat_fails w tr t = false).

(** The research dict when every task hands over its [task_result]. *)
Definition research_of (w : Parallel.World) (company job description : string)
  : Parallel.Research :=
  match map (task_result w) (Parallel.research_tasks company job description) with
  | [ a; b; c; d ] =>
      {| Parallel.r_company_intelligence := a; Parallel.r_competitive_analysis := b;
         Parallel.r_technical_alignment := c; Parallel.r_strategic_positioning := d;
         Parallel.r_research_timestamp := Parallel.now w |}
  | _ =>
      {| Parallel.r_company_intelligence := EmptyString;
         Parallel.r_competitive_analysis := EmptyString;
         Parallel.r_technical_alignment := EmptyString;
         Parallel.r_strategic_positioning := EmptyString;
         Parallel.r_research_timestamp := Parallel.now w |}
  end.

(** The content tasks of phase 2, built on that research. *)
Definition content_tasks_of (w : Parallel.World) (company job description : string)
  : list Parallel.Task :=
  Parallel.content_tasks
    (Parallel._build_sophisticated_context job company description
       (research_of w company job description)).

(** The content dict when every task of phase 2 hands over its
    [task_result]. *)
Definition content_of (w : Parallel.World) (company job description : string)
  : Parallel.Content :=
  match map (task_result w) (content_tasks_of w company job description) with
  | [ a; b; c; d; e ] =>
      {| Parallel.c_cover_letter := a; Parallel.c_executive_summary := b;
         Parallel.c_interview_preparation := c; Parallel.c_success_strategy := d;
         Parallel.c_career_narrative := e |}
  | _ =>
      {| Parallel.c_cover_letter := EmptyString;
         Parallel.c_executive_summary := EmptyString;
         Parallel.c_interview_preparation := EmptyString;
         Parallel.c_success_strategy := EmptyString;
         Parallel.c_career_narrative := EmptyString |}
  end.

(** The engine has a progress tracker. *)
Definition has_tracker (e : Parallel.Engine) : Prop :=
  exists tr, Parallel.progress_tracker e = Some tr.

(** The package carries the results of all nine tasks. *)
Definition carries (p : Parallel.SophisticatedApplicationPackage)
    (research : Parallel.Research) (content : Parallel.Content) : Prop :=
  Parallel.company_intelligence p = Parallel.r_company_intelligence research
  /\ Parallel.competitive_analysis p = Parallel.r_competitive_analysis research
  /\ Parallel.technical_alignment p = Parallel.r_technical_alignment research
  /\ Parallel.strategic_positioning p = Parallel.r_strategic_positioning research
  /\ Parallel.cover_letter p = Parallel.c_cover_letter content
  /\ Parallel.executive_summary p = Parallel.c_executive_summary content
  /\ Parallel.interview_preparation p = Parallel.c_interview_preparation content
  /\ Parallel.success_strategy p = Parallel.c_success_strategy content
  /\ Parallel.career_narrative p = Parallel.c_career_narrative content.

(** The engine's tracker is stopped: the activity monitor has left its loop. *)
Definition stopped (e : Parallel.Engine) : Prop :=
  exists tr, Parallel.progress_tracker e = Some tr /\ Progress.is_active tr = false.

(** A computation that leaves a tracker in place, whether it returns or
    raises. *)
Definition keeps_tracker {A : Type} (m : Parallel.M A) : Prop :=
  forall e, has_tracker e -> has_tracker (snd (m e)).

(** A computation that leaves a tracker in place, and a stopped one when it
    returns. *)
Definition stops_tracker {A : Type} (m : Parallel.M A) : Prop :=
  forall e, has_tracker e ->
    match m e with
    | (Ok _, e') => stopped e'
    | (Raise _, e') => has_tracker e'
    end.

(** The completion call of a task returns (with or without content). *)
Definition returns (w : Parallel.World) (t : Parallel.Task) : bool :=
  negb (raises (Parallel.completion w (Parallel.prompt t) (Parallel.max_tokens t))).

(** The number of tasks whose completion call returns. *)
Definition returned (w : Parallel.World) (tasks : list Parallel.Task) : nat :=
  List.length (List.filter (returns w) tasks).

(** The call of a task reaches the line that counts it: its heartbeat goes
    through and its completion call returns. *)
Definition counted (w : Parallel.World) (tr : option Progress.ProgressTracker)
    (t : Parallel.Task) : bool :=
  negb (heartbeat_fails w tr t) && returns w t.

(** The number of counts still to come from the tasks that are waiting for
    their worker thread. *)
Fixpoint pending (w : Parallel.World) (tasks : list Parallel.Task)
    (results : list (option string)) : nat :=
  match tasks, results with
  | t :: tasks', r :: results' =>
      (match r with
       | None => Nat.b2n (returns w t)
       | Some _ => 0
       end + pending w tasks' results')%nat
  | _, _ => 0%nat
  end.

(** What the integration phase returns on the results of the nine tasks
    when the engine has counted [calls] calls. *)
Definition package_with (w : Parallel.World) (job company description : string)
    (calls : nat) : outcome Parallel.SophisticatedApplicationPackage :=
  fst (Parallel._integrate_sophisticated_application w job company
         (research_of w company job description)
         (content_of w company job description)
         {| Parallel.calls_made := calls; Parallel.progress_tracker := None;
            Parallel.logged := [] |}).

(** The calls a run counts when the console takes every write. *)
Definition calls_of_run (w : Parallel.World) (job company description : string) : nat :=
  (returned w (Parallel.research_tasks company job description)
   + returned w (content_tasks_of w company job description))%nat.

(** *** Application engine *)

(** The engine after it has printed [lines]. *)
Definition printing (lines : list string) (e : Engine.ApplicationEngine)
  : Engine.ApplicationEngine :=
  {| Engine.output_dir := Engine.output_dir e; Engine.api_key := Engine.api_key e;
     Engine.ai_mode := Engine.ai_mode e; Engine.parallel_mode := Engine.parallel_mode e;
     Engine.parallel_ai_engine := Engine.parallel_ai_engine e;
     Engine.ai_engine := Engine.ai_engine e;
     Engine.template_components := Engine.template_components e;
     Engine.applications := Engine.applications e;
     Engine.printed := (Engine.printed e ++ lines)%list |}.

(** The result of a mode, as [process_job_application] returns it. *)
Definition as_result (r : outcome Engine.Package) : outcome (option Engine.Package) :=
  match r with
  | Ok p => Ok (Some p)
  | Raise x => Raise x
  end.


(** The world in which the template mode has nothing to fail on: every
    collaborator returns and every file write goes through. *)
Definition template_world_ok (w : Engine.World) : Prop :=
  (forall path, Engine.file_io w path = Ok tt)
  /\ (forall company title, exists r, Engine.research_company w company title = Ok r)
  /\ (forall d ci, exists r, Engine.customize_resume_for_job w d ci = Ok r)
  /\ (forall d ci, exists r, Engine.generate_cover_letter w d ci = Ok r).

(** The research result with another job-fit score. *)
Definition with_fit (ci : Engine.CompanyIntelligence) (fit : Q)
  : Engine.CompanyIntelligence :=
  {| Engine.job_fit_score := fit;
     Engine.recent_news := Engine.recent_news ci;
     Engine.application_recommendations := Engine.application_recommendations ci |}.

(** A character the application id keeps: alphanumeric or an underscore. *)
Definition id_char (c : ascii) : bool :=
  Engine.is_alnum c || Ascii.eqb c "_".

(** The line of an env file names the key. *)
Definition key_line (line : string) : bool := String.prefix "OPENAI_API_KEY=" line.

(** The world in which the parallel mode has nothing to fail on but the
    completion calls and the event loop: the console and the file system
    take every write. *)
Definition parallel_world_ok (w : Engine.World) : Prop :=
  (forall msg, Parallel.console (Engine.parallel_world w) msg = Ok tt)
  /\ (forall path, Engine.file_io w path = Ok tt).

(** The run is started from synchronous code: a new event loop can be
    created and no loop is running in the thread. *)
Definition synchronous_caller (w : Engine.World) : Prop :=
  Engine.new_event_loop w = Ok tt /\ Engine.loop_running w = false.

End Props.

Module Samples.

Import Job.

(** A posting whose description names five AI keywords and no red flag. *)
Definition five_keywords : JobOpportunity :=
  Job.make "Engineer" "Acme" "Remote" (Some "$130,000") "full-time" "indeed"
    "2024-01-01T00:00:00" "https://example.com/1" "f25eced23650"
    "tensorflow pytorch pandas numpy jupyter" [] [].

(** A posting that matches five AI keywords and four infrastructure
    keywords, without a red flag; its dimension scores are 9, 8, 8, 5, 6. *)
Definition near_eight : JobOpportunity :=
  Job.make "Platform Engineer" "Acme" "Remote" (Some "$95,000 - $110,000") "full-time"
    "indeed" "2024-01-01T00:00:00" "https://example.com/2" "0a1b2c3d4e5f"
    "tensorflow pytorch pandas numpy jupyter kubernetes docker aws terraform remote flexible fast-paced"
    [] [].

(** A posting whose salary text is one run of 4301 digits. *)
Definition long_salary : JobOpportunity :=
  Job.make "Engineer" "Acme" "Remote" (Some (Text.repeat "9" 4301)) "full-time" "indeed"
    "2024-01-01T00:00:00" "https://example.com/3" "5f4e3d2c1b0a"
    "tensorflow pytorch pandas numpy jupyter" [] [].

(** The double quote. *)
Definition dq : string := String (Ascii.ascii_of_nat 34) EmptyString.

(** A member of a JSON object: a quoted key, a colon and the value text. *)
Definition member (key value : string) : string :=
  (dq ++ key ++ dq ++ ": " ++ value)%string.

(** The object [{"technical_score": 100}] and what [json.loads] reads in it. *)
Definition object_100 : string := ("{" ++ member "technical_score" "100" ++ "}")%string.

Definition ai_data_100 : Filter.AiData :=
  {| Filter.ai_technical := Some (Filter.JInt 100);
     Filter.ai_transition := None; Filter.ai_culture := None;
     Filter.ai_growth := None; Filter.ai_compensation := None;
     Filter.ai_confidence := None; Filter.ai_keywords_matched := None;
     Filter.ai_red_flags := None; Filter.ai_reasoning := None;
     Filter.ai_recommendation := None |}.

(** Two postings that differ in their discovery time only, and a score
    that both of them receive. *)
Definition older_job : JobOpportunity :=
  Job.make "Platform Engineer" "Acme" "Remote" None "full-time" "indeed"
    "2024-01-01T09:00:00" "https://example.com/old" "aaaaaaaaaaaa"
    "Run the platform" [] [].

Definition newer_job : JobOpportunity :=
  Job.make "Platform Engineer" "Acme" "Remote" None "full-time" "indeed"
    "2024-06-01T09:00:00" "https://example.com/new" "bbbbbbbbbbbb"
    "Run the platform" [] [].

(** The same posting seen on two job boards. *)
Definition from_linkedin : JobOpportunity :=
  Job.make "Platform Engineer" "Acme" "Remote" None "full-time" "linkedin"
    "2024-03-01T09:00:00" "https://linkedin.example/1" "111111111111"
    "Run the platform" [] [].

Definition from_indeed : JobOpportunity :=
  Job.make " platform engineer " "ACME" "Remote" None "full-time" "indeed"
    "2024-03-02T09:00:00" "https://indeed.example/1" "222222222222"
    "Run the platform" [] [].

(** Another posting, of another company. *)
Definition other_posting : JobOpportunity :=
  Job.make "Site Reliability Engineer" "Globex" "Remote" None "full-time" "indeed"
    "2024-04-01T09:00:00" "https://indeed.example/2" "333333333333"
    "Keep the site up" [] [].

(** A table with the two postings of equal score, the older one stored
    first. *)
Definition two_rows : Discovery.table := [ older_job; newer_job ].

Definition score_with (overall : Q) (flags : list string) : Filter.ScoringResult :=
  {| Filter.overall_score := overall; Filter.confidence_level := 0.6%Q;
     Filter.technical_score := 7.0%Q; Filter.transition_score := 6.0%Q;
     Filter.culture_score := 5.0%Q; Filter.growth_score := 5.0%Q;
     Filter.compensation_score := 5.0%Q;
     Filter.reasoning := "Rule-based analysis";
     Filter.action_recommendation := "RESEARCH - Investigate further";
     Filter.keywords_matched := []; Filter.red_flags := flags |}.

(** A score with the transition boost: the transition score is 8. *)
Definition boosted (overall : Q) : Filter.ScoringResult :=
  {| Filter.overall_score := overall; Filter.confidence_level := 0.6%Q;
     Filter.technical_score := 7.0%Q; Filter.transition_score := 8.0%Q;
     Filter.culture_score := 5.0%Q; Filter.growth_score := 5.0%Q;
     Filter.compensation_score := 5.0%Q;
     Filter.reasoning := "Rule-based analysis";
     Filter.action_recommendation := "RESEARCH - Investigate further";
     Filter.keywords_matched := []; Filter.red_flags := [] |}.

(** An object that gives the technical score as text,
    [{"technical_score": "8.5", "transition_score": 7, "confidence": 0.9,
    "recommendation": "APPLY"}], and what [json.loads] reads in it. *)
Definition object_text : string :=
  ("{" ++ member "technical_score" (dq ++ "8.5" ++ dq) ++ ", "
   ++ member "transition_score" "7" ++ ", " ++ member "confidence" "0.9" ++ ", "
   ++ member "recommendation" (dq ++ "APPLY" ++ dq) ++ "}")%string.

Definition ai_data_text : Filter.AiData :=
  {| Filter.ai_technical := Some (Filter.JText "8.5");
     Filter.ai_transition := Some (Filter.JInt 7); Filter.ai_culture := None;
     Filter.ai_growth := None; Filter.ai_compensation := None;
     Filter.ai_confidence := Some 0.9%Q; Filter.ai_keywords_matched := None;
     Filter.ai_red_flags := None; Filter.ai_reasoning := None;
     Filter.ai_recommendation := Some "APPLY" |}.

(** A world in which the completion answers with some words around the
    object [object], and [json.loads] reads [d] in that object and raises
    on any other text. *)
Definition filter_world (object : string) (d : Filter.AiData) : Filter.World :=
  {| Filter.openai_client := fun _ => Ok tt;
     Filter.chat_completion := fun _ =>
       Ok (Some ("Here is my analysis: " ++ object ++ " Good luck.")%string);
     Filter.json_loads := fun text =>
       if String.eqb text object then Ok d
       else Raise (ValueError "Expecting value") |}.

(** A world in which the completion call of the competitive analysis
    times out and every other call answers. *)
Definition one_task_fails : Parallel.World :=
  {| Parallel.completion := fun p _ =>
       if String.eqb (Parallel.p_builder p) "competitive_analysis"
       then Raise (ExternalError "Request timed out.")
       else Ok (Some (" Answer to " ++ Parallel.p_builder p ++ " ")%string);
     Parallel.console := fun _ => Ok tt;
     Parallel.elapsed := 35;
     Parallel.today := "2024-01-01";
     Parallel.now := "2024-01-01T10:00:00" |}.

(** A parallel world whose console refuses the heartbeat of the research
    phase, while every completion call answers. *)
Definition console_fails : Parallel.World :=
  {| Parallel.completion := fun p _ => Ok (Some (Parallel.p_builder p));
     Parallel.console := fun msg =>
       if String.eqb msg "Executing parallel deep research with GPT-4..."
       then Raise (ExternalError "console closed")
       else Ok tt;
     Parallel.elapsed := 35;
     Parallel.today := "2024-01-01";
     Parallel.now := "2024-01-01T10:00:00" |}.

(** A world without any stored key, in which the template collaborators
    and the file system work. *)
Definition engine_world : Engine.World :=
  {| Engine.environment :=
       {| Keys.env_var := None; Keys.project_env := None; Keys.home_env := None |};
     Engine.parallel_world := console_fails;
     Engine.new_event_loop := Ok tt;
     Engine.loop_running := false;
     Engine.schedule1 := [];
     Engine.schedule2 := [];
     Engine.generate_ai_application := fun _ => Ok {| Engine.ai_quality_score := 9 |};
     Engine.save_ai_application := fun dir => Ok (dir ++ "/AI_Application.txt")%string;
     Engine.research_company := fun _ _ =>
       Ok (Some {| Engine.job_fit_score := 7.5%Q; Engine.recent_news := [];
                   Engine.application_recommendations := [ "Mention uptime" ] |});
     Engine.customize_resume_for_job := fun _ _ =>
       Ok (Some {| Engine.emphasized_skills := [ "Python" ];
                   Engine.keyword_optimization := [ "mlops" ] |});
     Engine.generate_cover_letter := fun _ _ =>
       Ok (Some {| Engine.personalization_score := 6 |});
     Engine.file_io := fun _ => Ok tt;
     Engine.iso_now := "2024-01-01T10:00:00";
     Engine.stamp_minute := "20240101_1000";
     Engine.stamp_second := "20240101_100000" |}.

(** A world in which every completion call fails, while the console and
    the file system work. *)
Definition all_calls_fail : Engine.World :=
  {| Engine.environment :=
       {| Keys.env_var := None; Keys.project_env := None; Keys.home_env := None |};
     Engine.parallel_world :=
       {| Parallel.completion := fun _ _ => Raise (ExternalError "Connection error.");
          Parallel.console := fun _ => Ok tt;
          Parallel.elapsed := 35;
          Parallel.today := "2024-01-01";
          Parallel.now := "2024-01-01T10:00:00" |};
     Engine.new_event_loop := Ok tt;
     Engine.loop_running := false;
     Engine.schedule1 := [];
     Engine.schedule2 := [];
     Engine.generate_ai_application := fun _ => Raise (ExternalError "Connection error.");
     Engine.save_ai_application := fun dir => Ok (dir ++ "/AI_Application.txt")%string;
     Engine.research_company := fun _ _ => Ok None;
     Engine.customize_resume_for_job := fun _ _ => Ok None;
     Engine.generate_cover_letter := fun _ _ => Ok None;
     Engine.file_io := fun _ => Ok tt;
     Engine.iso_now := "2024-01-01T10:00:00";
     Engine.stamp_minute := "20240101_1000";
     Engine.stamp_second := "20240101_100000" |}.

(** A world in which every call answers and every write goes through, but
    the engine is called from a coroutine: an event loop is running. *)
Definition inside_event_loop : Engine.World :=
  {| Engine.environment :=
       {| Keys.env_var := None; Keys.project_env := None; Keys.home_env := None |};
     Engine.parallel_world :=
       {| Parallel.completion := fun p _ => Ok (Some (Parallel.p_builder p));
          Parallel.console := fun _ => Ok tt;
          Parallel.elapsed := 35;
          Parallel.today := "2024-01-01";
          Parallel.now := "2024-01-01T10:00:00" |};
     Engine.new_event_loop := Ok tt;
     Engine.loop_running := true;
     Engine.schedule1 := [];
     Engine.schedule2 := [];
     Engine.generate_ai_application := fun _ => Ok {| Engine.ai_quality_score := 9 |};
     Engine.save_ai_application := fun dir => Ok (dir ++ "/AI_Application.txt")%string;
     Engine.research_company := fun _ _ => Ok None;
     Engine.customize_resume_for_job := fun _ _ => Ok None;
     Engine.generate_cover_letter := fun _ _ => Ok None;
     Engine.file_io := fun _ => Ok tt;
     Engine.iso_now := "2024-01-01T10:00:00";
     Engine.stamp_minute := "20240101_1000";
     Engine.stamp_second := "20240101_100000" |}.

(** The engine [__init__] builds in that world from the key "sk-test", and
    the one it builds without a key. *)
Definition keyed_engine : Engine.ApplicationEngine :=
  {| Engine.output_dir := "applications"; Engine.api_key := Some "sk-test";
     Engine.ai_mode := true; Engine.parallel_mode := true;
     Engine.parallel_ai_engine := Some Parallel.new_engine;
     Engine.ai_engine := None; Engine.template_components := false;
     Engine.applications := ∅;
     Engine.printed := [ "AI Job Hunt Commander ready - AI-POWERED MODE" ] |}.

Definition keyless_engine : Engine.ApplicationEngine :=
  {| Engine.output_dir := "applications"; Engine.api_key := None;
     Engine.ai_mode := false; Engine.parallel_mode := false;
     Engine.parallel_ai_engine := None;
     Engine.ai_engine := None; Engine.template_components := true;
     Engine.applications := ∅;
     Engine.printed := [ "AI Job Hunt Commander ready - TEMPLATE MODE" ] |}.

(** A research result with no news and no recommendation. *)
Definition bare_research : Engine.CompanyIntelligence :=
  {| Engine.job_fit_score := 0; Engine.recent_news := [];
     Engine.application_recommendations := [] |}.

Definition acme_job : Engine.JobData :=
  Engine.manual_job_data (Some "Acme") (Some "ML Engineer").

End Samples.

(** * Properties *)

(** ** Scoring *)

Module FilterFacts.

Import Job Filter Props.
Local Open Scope Q_scope.

(** The float arithmetic at work: the binary64 values of 0.1, 0.40 and 1/3,
    the sum 0.1 + 0.2 (which is 0.30000000000000004), the smallest
    subnormal number, and two weighted sums: 9, 8, 8, 5, 6 give
    7.999999999999999, and 7, 6, 5, 5, 5 give 6.050000000000001, which
    rounds to 6.1. *)
Lemma float_examples :
  Num.float 0.1 = 3602879701896397 # 36028797018963968
  /\ Num.float 0.40 = 3602879701896397 # 9007199254740992
  /\ Num.float (1 # 3) = 6004799503160661 # 18014398509481984
  /\ Num.fadd (Num.float 0.1) (Num.float 0.2) = 1351079888211149 # 4503599627370496
  /\ Num.float (Num.pow2 (-1075) * 1.5) = Num.pow2 (-1074)
  /\ Num.float (Num.pow2 (-1075)) = 0
  /\ weighted 9 8 8 5 6 = 9007199254740991 # 1125899906842624
  /\ weighted 7 6 5 5 5 = 1702923609099469 # 281474976710656
  /\ Num.round1 (weighted 7 6 5 5 5) == 6.1
  /\ Num.round1 (weighted 9 8 8 5 6) == 8.0.
Proof.
  split; [vm_compute; reflexivity |]. split; [vm_compute; reflexivity |].
  split; [vm_compute; reflexivity |]. split; [vm_compute; reflexivity |].
  split; [vm_compute; reflexivity |]. split; [vm_compute; reflexivity |].
  split; [vm_compute; reflexivity |]. split; [vm_compute; reflexivity |].
  split; vm_compute; reflexivity.
Qed.

Lemma of_nat_nonneg (n : nat) : 0 <= Num.of_nat n.
Proof. unfold Num.of_nat, Qle; simpl; lia. Qed.

Lemma Qmin_range (lo hi x y : Q) :
  lo <= x -> lo <= y -> y <= hi -> lo <= Qmin x y <= hi.
Proof.
  intros Hx Hy Hhi; split.
  - apply Q.min_glb; assumption.
  - apply Qle_trans with y; [apply Q.le_min_r | assumption].
Qed.

Lemma Qmax_range (lo hi x y : Q) :
  x <= hi -> lo <= y -> y <= hi -> lo <= Qmax x y <= hi.
Proof.
  intros Hx Hy Hhi; split.
  - apply Qle_trans with y; [assumption | apply Q.le_max_r].
  - apply Q.max_lub; assumption.
Qed.

Lemma technical_range (job_text : string) :
  0 <= _score_technical_relevance job_text <= 10.
Proof.
  unfold _score_technical_relevance.
  set (a := Text.count_in ai_keywords job_text).
  set (i := Text.count_in infrastructure_keywords job_text).
  pose proof (of_nat_nonneg a) as Ha.
  pose proof (of_nat_nonneg i) as Hi.
  destruct (Qmin_range 0 7.0 (Num.of_nat a * 1.5) 7.0) as [A1 A2]; try lra.
  destruct (Qmin_range 0 3.0 (Num.of_nat i * 0.5) 3.0) as [I1 I2]; try lra.
  apply Qmin_range; lra.
Qed.

Lemma transition_values (job_text job_title : string) :
  let v := _score_transition_fit job_text job_title in
  v = 3.0 \/ v = 9.0 \/ v = 8.0 \/ v = 6.0.
Proof.
  unfold _score_transition_fit; cbv zeta.
  destruct (_ && _); [now left |].
  destruct (Text.any_in transition_terms job_text); [now right; left |].
  destruct (Text.any_in senior_but_open job_text); [now right; right; left |].
  now right; right; right.
Qed.

Lemma transition_range (job_text job_title : string) :
  3 <= _score_transition_fit job_text job_title <= 10.
Proof.
  destruct (transition_values job_text job_title) as [E | [E | [E | E]]];
    cbv zeta in E; rewrite E; split; vm_compute; discriminate.
Qed.

Lemma culture_range (job_text : string) :
  1 <= _score_company_culture job_text <= 10.
Proof.
  unfold _score_company_culture.
  apply Qmax_range; try lra.
  apply Qle_trans with 10.0; [apply Q.le_min_r | lra].
Qed.

Lemma growth_range (job_text : string) :
  5 <= _score_growth_potential job_text <= 10.
Proof.
  unfold _score_growth_potential.
  destruct (3 <=? _)%nat; [lra |].
  destruct (1 <=? _)%nat; lra.
Qed.

(** *** What raises on the rule-based path *)

Lemma ints_returns (nums : list string) :
  forallb (fun num => (String.length num <=? max_str_digits)%nat) nums = true ->
  ints nums = Ok (map Text.int_of_digits nums).
Proof.
  induction nums as [| num nums IH]; [reflexivity |].
  cbn [forallb]. intros H. apply andb_true_iff in H as [Hn Hrest].
  cbn [ints map]. unfold py_int.
  apply Nat.leb_le in Hn.
  destruct (Nat.ltb_spec max_str_digits (String.length num)) as [L | _]; [lia |].
  now rewrite (IH Hrest).
Qed.

Lemma ints_raises (nums : list string) :
  forallb (fun num => (String.length num <=? max_str_digits)%nat) nums = false ->
  ints nums
  = Raise (ValueError "Exceeds the limit (4300 digits) for integer string conversion").
Proof.
  induction nums as [| num nums IH]; [discriminate |].
  cbn [forallb]. intros H. cbn [ints]. unfold py_int.
  destruct (Nat.ltb_spec max_str_digits (String.length num)) as [L | G]; [reflexivity |].
  apply Nat.leb_le in G. rewrite G in H. cbn [andb] in H.
  now rewrite (IH H).
Qed.

Lemma compensation_returns (salary_range : option string) (job_text : string) :
  readable_salary salary_range = true ->
  exists v, _score_compensation salary_range job_text = Ok v
            /\ (v = 5.0 \/ v = 8.0 \/ v = 6.0 \/ v = 4.0 \/ v = 2.0).
Proof.
  intros H. unfold _score_compensation.
  destruct salary_range as [[| c s] |]; try (eexists; split; [reflexivity | now left]).
  cbn [readable_salary] in H. rewrite (ints_returns _ H).
  destruct (map _ _); [eexists; split; [reflexivity | now left] |].
  destruct (120000 <=? _)%Z; [eexists; split; [reflexivity | now right; left] |].
  destruct (90000 <=? _)%Z; [eexists; split; [reflexivity | now right; right; left] |].
  destruct (60000 <=? _)%Z; eexists; (split; [reflexivity |]);
    [now right; right; right; left | now right; right; right; right].
Qed.

Lemma compensation_raises (salary_range : option string) (job_text : string) :
  readable_salary salary_range = false ->
  _score_compensation salary_range job_text
  = Raise (ValueError "Exceeds the limit (4300 digits) for integer string conversion").
Proof.
  intros H. unfold _score_compensation.
  destruct salary_range as [[| c s] |]; try discriminate.
  cbn [readable_salary] in H. now rewrite (ints_raises _ H).
Qed.

Lemma Ok_inj {A : Type} (a b : A) : Ok a = Ok b -> a = b.
Proof. intros H. now injection H. Qed.

(** The fields of a result the rule-based path returns, read off its
    definition. *)
Lemma fallback_fields (job : JobOpportunity) (r : ScoringResult) :
  _fallback_score_opportunity job = Ok r ->
  let sum := weighted (technical_score r) (transition_score r) (culture_score r)
                      (growth_score r) (compensation_score r) in
  technical_score r = _score_technical_relevance (job_text_of job)
  /\ transition_score r = _score_transition_fit (job_text_of job) (title job)
  /\ culture_score r = _score_company_culture (job_text_of job)
  /\ growth_score r = _score_growth_potential (job_text_of job)
  /\ _score_compensation (salary_range job) (job_text_of job) = Ok (compensation_score r)
  /\ confidence_level r = 0.6
  /\ overall_score r = Num.round1 sum
  /\ action_recommendation r = recommendation_of sum
  /\ keywords_matched r
     = firstn 10 (List.filter (fun kw => Text.contains kw (job_text_of job))
                    (ai_keywords ++ infrastructure_keywords)%list)
  /\ red_flags r
     = List.filter (fun flag => Text.contains flag (job_text_of job)) red_flag_keywords.
Proof.
  unfold _fallback_score_opportunity. cbv zeta.
  destruct (_score_compensation (salary_range job) (job_text_of job)) as [co | x];
    [| discriminate].
  intros E. apply Ok_inj in E. subst r.
  cbn [technical_score transition_score culture_score growth_score compensation_score
       confidence_level overall_score action_recommendation keywords_matched red_flags].
  repeat split; reflexivity.
Qed.

Lemma fallback_returns (job : JobOpportunity) :
  readable_salary (salary_range job) = true ->
  exists r, _fallback_score_opportunity job = Ok r.
Proof.
  intros H. unfold _fallback_score_opportunity. cbv zeta.
  destruct (compensation_returns (salary_range job) (job_text_of job) H) as (v & -> & _).
  eexists; reflexivity.
Qed.

Lemma fallback_raises (job : JobOpportunity) :
  readable_salary (salary_range job) = false ->
  _fallback_score_opportunity job
  = Raise (ValueError "Exceeds the limit (4300 digits) for integer string conversion").
Proof.
  intros H. unfold _fallback_score_opportunity. cbv zeta.
  now rewrite (compensation_raises _ _ H).
Qed.

(** A salary text of 4301 digits: the rule-based scoring raises, and so does
    the filter on either path, since the AI path ends in the same call. *)
Lemma long_salary_is_refused :
  String.length (Text.repeat "9" 4301) = 4301%nat
  /\ _fallback_score_opportunity Samples.long_salary
     = Raise (ValueError "Exceeds the limit (4300 digits) for integer string conversion")
  /\ score_opportunity (Samples.filter_world Samples.object_text Samples.ai_data_text)
       {| fallback_mode := false; client := true |} Samples.long_salary
     = Raise (ValueError "Exceeds the limit (4300 digits) for integer string conversion").
Proof.
  split; [vm_compute; reflexivity |].
  split; vm_compute; reflexivity.
Qed.

Lemma fallback_raise_unreadable (job : JobOpportunity) (x : exn) :
  _fallback_score_opportunity job = Raise x ->
  readable_salary (salary_range job) = false.
Proof.
  intros H. destruct (readable_salary (salary_range job)) eqn:E; [| reflexivity].
  destruct (fallback_returns job E) as [r Hr]. congruence.
Qed.

Lemma round_half_even_lower (q : Q) (lo : Z) :
  inject_Z lo <= q -> (lo <= Num.round_half_even q)%Z.
Proof.
  destruct q as [n d]. unfold Qle, Num.round_half_even; simpl.
  intros Hlo.
  pose proof (Z.div_mod n (Zpos d) ltac:(lia)) as Hdm.
  pose proof (Z.mod_pos_bound n (Zpos d) ltac:(lia)) as Hr.
  set (f := (n / Zpos d)%Z) in *. set (r := (n mod Zpos d)%Z) in *.
  assert (lo <= f)%Z by nia.
  destruct (Z.compare_spec (2 * r) (Zpos d)) as [E | L | G].
  - destruct (Z.even f); lia.
  - lia.
  - lia.
Qed.

Lemma round1_at_least_eight (q : Q) : 8 <= q -> 8 <= Num.round1 q.
Proof.
  intros H. unfold Num.round1.
  assert (A : (80 <= Num.round_half_even (q * 10))%Z).
  { apply round_half_even_lower. change (inject_Z 80) with 80. lra. }
  set (z := Num.round_half_even (q * 10)) in *.
  unfold Qle, Qdiv, Qmult, Qinv, inject_Z; simpl. lia.
Qed.

(** C4, where the code departs from it.  The five weights, added as floats,
    sum to exactly 1.  On the AI path the five scores are taken from the
    completion as they come: for the response that holds the object
    [{"technical_score": 100}] the filter built from the key "sk-test"
    returns a technical score of 100 and an overall score of 43, outside
    the interval from 0 to 10 that the result type documents. *)
Theorem overall_score_above_ten :
  weights_sum scoring_weights == 1
  /\ json_loads (Samples.filter_world Samples.object_100 Samples.ai_data_100)
       (json_text ("Here is my analysis: " ++ Samples.object_100 ++ " Good luck."))
     = Ok Samples.ai_data_100
  /\ exists r,
       score_opportunity (Samples.filter_world Samples.object_100 Samples.ai_data_100)
         (init (Samples.filter_world Samples.object_100 Samples.ai_data_100)
            (Some "sk-test") false)
         Samples.five_keywords = Ok r
       /\ technical_score r == 100
       /\ overall_score r == 43
       /\ ~ in_range (overall_score r).
Proof.
  split; [vm_compute; reflexivity |].
  split; [vm_compute; reflexivity |].
  eexists. split; [vm_compute; reflexivity |].
  split; [reflexivity |]. split; [reflexivity |].
  intros [_ H]. vm_compute in H. now apply H.
Qed.

(** *** Recommendation of the rule-based path *)

Lemma lower_app (a b : string) :
  Text.lower (a ++ b) = (Text.lower a ++ Text.lower b)%string.
Proof. induction a as [| c a IH]; simpl; [reflexivity | now rewrite IH]. Qed.

Lemma string_length_app (a b : string) :
  String.length (a ++ b) = (String.length a + String.length b)%nat.
Proof. induction a as [| c a IH]; simpl; [reflexivity | now rewrite IH]. Qed.

Lemma prefix_app (kw a b : string) :
  String.prefix kw a = true -> String.prefix kw (a ++ b) = true.
Proof.
  revert a; induction kw as [| k kw IH]; intros a H;
    [now destruct (a ++ b)%string |].
  destruct a as [| c a]; simpl in *; [discriminate |].
  destruct (Ascii.ascii_dec k c); [now apply IH | discriminate].
Qed.

Lemma contains_app_l (kw a b : string) :
  Text.contains kw a = true -> Text.contains kw (a ++ b) = true.
Proof.
  induction a as [| c a IH]; intros H.
  - destruct kw; simpl in H; [now destruct b | discriminate].
  - cbn [Text.contains] in H. apply orb_true_iff in H as [H | H].
    + change (String c a ++ b)%string with (String c (a ++ b)). cbn [Text.contains].
      apply orb_true_iff; left.
      now apply (prefix_app kw (String c a) b).
    + change (String c a ++ b)%string with (String c (a ++ b)). cbn [Text.contains].
      apply orb_true_iff; right. now apply IH.
Qed.

Lemma contains_app_r (kw a b : string) :
  Text.contains kw b = true -> Text.contains kw (a ++ b) = true.
Proof.
  intros H; induction a as [| c a IH]; [exact H |].
  change (String c a ++ b)%string with (String c (a ++ b)). cbn [Text.contains].
  apply orb_true_iff; now right.
Qed.

Lemma description_in_job_text (kw : string) (job : JobOpportunity) :
  Text.contains kw (Text.lower (description job)) = true ->
  Text.contains kw (job_text_of job) = true.
Proof.
  intros H. unfold job_text_of.
  rewrite !lower_app.
  apply contains_app_r, contains_app_r, contains_app_l. exact H.
Qed.

Lemma count_in_mono (kws : list string) (s s' : string) :
  (forall kw, Text.contains kw s = true -> Text.contains kw s' = true) ->
  (Text.count_in kws s <= Text.count_in kws s')%nat.
Proof.
  intros H. unfold Text.count_in.
  induction kws as [| kw kws IH]; simpl; [lia |].
  destruct (Text.contains kw s) eqn:E.
  - rewrite (H _ E). simpl. lia.
  - destruct (Text.contains kw s'); simpl; lia.
Qed.

Lemma technical_at_least_seven (job_text : string) :
  (5 <= Text.count_in ai_keywords job_text)%nat ->
  7 <= _score_technical_relevance job_text.
Proof.
  intros H5. unfold _score_technical_relevance.
  set (a := Text.count_in ai_keywords job_text) in *.
  set (i := Text.count_in infrastructure_keywords job_text).
  assert (Ha : 5 <= Num.of_nat a) by (unfold Num.of_nat, Qle; simpl; lia).
  pose proof (of_nat_nonneg i) as Hi.
  assert (A : 7 <= Qmin (Num.of_nat a * 1.5) 7.0) by (apply Q.min_glb; lra).
  assert (I : 0 <= Qmin (Num.of_nat i * 0.5) 3.0) by (apply Q.min_glb; lra).
  apply Q.min_glb; lra.
Qed.

Lemma geb_true (x y : Q) : Num.geb x y = true <-> y <= x.
Proof. unfold Num.geb. apply Qle_bool_iff. Qed.

Lemma geb_false (x y : Q) : Num.geb x y = false <-> x < y.
Proof.
  unfold Num.geb. split; intros H.
  - apply Qnot_le_lt. intros L. apply Qle_bool_iff in L. congruence.
  - destruct (Qle_bool y x) eqn:E; [| reflexivity].
    apply Qle_bool_iff in E. lra.
Qed.

Lemma float_eight : Num.float 8.0 = 8.
Proof. vm_compute. reflexivity. Qed.

Lemma float_six : Num.float 6.0 = 6.
Proof. vm_compute. reflexivity. Qed.

Lemma recommendation_thresholds (sum : Q) :
  (8 <= sum -> recommendation_of sum = "APPLY - High-priority opportunity")
  /\ (6 <= sum -> sum < 8 -> recommendation_of sum = "RESEARCH - Investigate further")
  /\ (sum < 6 ->
      recommendation_of sum = "PASS - Focus on higher-scoring opportunities").
Proof.
  unfold recommendation_of. rewrite float_eight, float_six. repeat split.
  - intros H. apply geb_true in H. now rewrite H.
  - intros H6 H8. apply geb_false in H8. rewrite H8.
    apply geb_true in H6. now rewrite H6.
  - intros H. assert (H8 : sum < 8) by lra.
    apply geb_false in H8. rewrite H8.
    apply geb_false in H. now rewrite H.
Qed.

(** C7, in the form that holds of the code.
    For every opportunity whose description matches at least five AI
    keywords, that carries no red flag and whose salary text [int] can
    read, the rule-based path returns a result with no red flag and a
    technical score of at least 7.0.  Its overall score is the weighted sum
    of the five dimension scores, computed in float arithmetic and then
    rounded to one decimal; the recommendation follows the thresholds on
    the sum before rounding: APPLY from 8.0, with an overall score of at
    least 8.0, RESEARCH from 6.0 up to 8.0, PASS below.  Reaching 8.0 is not
    implied by the five keywords. *)
Theorem five_keywords_recommendation (job : JobOpportunity) :
  (5 <= Text.count_in ai_keywords (Text.lower (description job)))%nat ->
  no_red_flag job ->
  readable_salary (salary_range job) = true ->
  exists r,
    _fallback_score_opportunity job = Ok r
    /\ let sum := weighted (technical_score r) (transition_score r) (culture_score r)
                           (growth_score r) (compensation_score r) in
       red_flags r = []
       /\ 7 <= technical_score r
       /\ overall_score r = Num.round1 sum
       /\ (8 <= sum ->
           action_recommendation r = "APPLY - High-priority opportunity"
           /\ 8 <= overall_score r)
       /\ (6 <= sum -> sum < 8 ->
           action_recommendation r = "RESEARCH - Investigate further")
       /\ (sum < 6 ->
           action_recommendation r = "PASS - Focus on higher-scoring opportunities").
Proof.
  intros H5 Hflags Hread.
  destruct (fallback_returns job Hread) as [r Hr].
  exists r. split; [exact Hr |].
  destruct (fallback_fields job r Hr) as (Et & _ & _ & _ & _ & _ & Eo & Ea & _ & Ef).
  cbv zeta in *.
  split; [now rewrite Ef |].
  split.
  { rewrite Et. apply technical_at_least_seven.
    eapply Nat.le_trans; [exact H5 |].
    apply count_in_mono. intros kw. apply description_in_job_text. }
  split; [exact Eo |].
  rewrite Ea, Eo.
  destruct (recommendation_thresholds
              (weighted (technical_score r) (transition_score r) (culture_score r)
                 (growth_score r) (compensation_score r))) as (Ha & Hr' & Hp).
  split; [| split; assumption].
  intros H8. split; [now apply Ha | now apply round1_at_least_eight].
Qed.

Lemma five_keywords_recommendation_witness :
  (5 <= Text.count_in ai_keywords (Text.lower (description Samples.five_keywords)))%nat
  /\ no_red_flag Samples.five_keywords
  /\ readable_salary (salary_range Samples.five_keywords) = true
  /\ exists r, _fallback_score_opportunity Samples.five_keywords = Ok r
               /\ 7 <= technical_score r.
Proof.
  assert (H5 : (5 <= Text.count_in ai_keywords
                       (Text.lower (description Samples.five_keywords)))%nat)
    by (vm_compute; lia).
  assert (H0 : no_red_flag Samples.five_keywords) by (vm_compute; reflexivity).
  assert (Hr : readable_salary (salary_range Samples.five_keywords) = true)
    by (vm_compute; reflexivity).
  split; [exact H5 |]. split; [exact H0 |]. split; [exact Hr |].
  destruct (five_keywords_recommendation Samples.five_keywords H5 H0 Hr)
    as (r & E & _ & T & _).
  exact (ex_intro _ r (conj E T)).
Defined.

(** C7, as the design document states it, fails.  The first posting
    matches exactly five AI keywords and has no red flag: its dimension
    scores are 7, 6, 5, 5 and 8, its overall score is 6.2 and the
    recommendation is RESEARCH.  The second one, with dimension scores 9,
    8, 8, 5 and 6, has a float sum just below 8: the overall score it
    returns is 8.0 and the recommendation is still RESEARCH. *)
Lemma five_keywords_below_eight :
  Text.count_in ai_keywords (Text.lower (description Samples.five_keywords)) = 5%nat
  /\ no_red_flag Samples.five_keywords
  /\ (exists r,
        _fallback_score_opportunity Samples.five_keywords = Ok r
        /\ overall_score r == 6.2
        /\ ~ 8 <= overall_score r
        /\ action_recommendation r = "RESEARCH - Investigate further")
  /\ Text.count_in ai_keywords (Text.lower (description Samples.near_eight)) = 5%nat
  /\ no_red_flag Samples.near_eight
  /\ (exists r,
        _fallback_score_opportunity Samples.near_eight = Ok r
        /\ weighted (technical_score r) (transition_score r) (culture_score r)
             (growth_score r) (compensation_score r) < 8
        /\ overall_score r == 8.0
        /\ action_recommendation r = "RESEARCH - Investigate further").
Proof.
  split; [vm_compute; reflexivity |]. split; [vm_compute; reflexivity |].
  split.
  { eexists. split; [vm_compute; reflexivity |].
    split; [reflexivity |]. split; [| reflexivity].
    intros H. vm_compute in H. now apply H. }
  split; [vm_compute; reflexivity |]. split; [vm_compute; reflexivity |].
  eexists. split; [vm_compute; reflexivity |].
  split; [vm_compute; reflexivity |]. split; reflexivity.
Qed.

(** *** Ranking *)

(** The sort key is the negated adjusted score. *)
Lemma ranking_key_adjusted (p : JobOpportunity * ScoringResult) :
  ranking_key p = - adjusted_score p.
Proof. destruct p as [job s]. reflexivity. Qed.

Lemma StronglySorted_weaken {A : Type} (R R' : A -> A -> Prop) (l : list A) :
  (forall a b, R a b -> R' a b) -> StronglySorted R l -> StronglySorted R' l.
Proof.
  intros HR; induction 1 as [| x l Hs IH Hall]; constructor; [assumption |].
  eapply List.Forall_impl; [| exact Hall]. intros b; apply HR.
Qed.

Section Sorting.

Context {A : Type} (key : A -> Q).

Lemma insert_by_perm (x : A) (l : list A) : Permutation (x :: l) (insert_by key x l).
Proof.
  induction l as [| y l IH]; simpl; [reflexivity |].
  destruct (Qle_bool (key x) (key y)); [reflexivity |].
  rewrite perm_swap. now apply perm_skip.
Qed.

Lemma sorted_by_perm (l : list A) : Permutation l (sorted_by key l).
Proof.
  induction l as [| x l IH]; simpl; [reflexivity |].
  rewrite <- insert_by_perm. now apply perm_skip.
Qed.

Lemma insert_by_sorted (x : A) (l : list A) :
  StronglySorted (fun a b => key a <= key b) l ->
  StronglySorted (fun a b => key a <= key b) (insert_by key x l).
Proof.
  induction 1 as [| y l Hs IH Hall]; simpl.
  - constructor; constructor.
  - destruct (Qle_bool (key x) (key y)) eqn:E.
    + apply Qle_bool_iff in E.
      constructor; [constructor; assumption |].
      constructor; [assumption |].
      eapply List.Forall_impl; [| exact Hall].
      intros a Ha; simpl in *. lra.
    + assert (Hyx : key y <= key x).
      { apply Qlt_le_weak, Qnot_le_lt. intros L.
        apply Qle_bool_iff in L. congruence. }
      constructor; [assumption |].
      rewrite <- (insert_by_perm x l). constructor; assumption.
Qed.

Lemma sorted_by_sorted (l : list A) :
  StronglySorted (fun a b => key a <= key b) (sorted_by key l).
Proof.
  induction l as [| x l IH]; simpl; [constructor | now apply insert_by_sorted].
Qed.

End Sorting.

(** The part of the ranking rule the code does implement: the output holds
    the input pairs, in descending order of adjusted score. *)
Lemma rank_descending (pairs : list (JobOpportunity * ScoringResult)) :
  Permutation pairs (rank_opportunities pairs)
  /\ StronglySorted
       (fun a b => adjusted_score b <= adjusted_score a)
       (rank_opportunities pairs).
Proof.
  split; [apply sorted_by_perm |].
  unfold rank_opportunities.
  eapply StronglySorted_weaken; [| apply sorted_by_sorted].
  intros a b H; cbn beta in H.
  rewrite !ranking_key_adjusted in H. lra.
Qed.

(** The example of the design document: equal overall scores, two red flags
    against none. *)
Lemma rank_red_flags_example :
  rank_opportunities
    [ (Samples.older_job, Samples.score_with 7.0 ["unpaid"; "toxic"]);
      (Samples.newer_job, Samples.score_with 7.0 []) ]
  = [ (Samples.newer_job, Samples.score_with 7.0 []);
      (Samples.older_job, Samples.score_with 7.0 ["unpaid"; "toxic"]) ].
Proof. vm_compute. reflexivity. Qed.

(** C6, where the code departs from it.  Two postings with the same
    adjusted score, the older one first in the input: the ranking returns
    them in input order, the older one first, although the newer one was
    discovered later.  The recency term of the key is the constant 0.01. *)
Theorem rank_tie_keeps_input_order :
  String.ltb (discovered_at Samples.older_job) (discovered_at Samples.newer_job) = true
  /\ ranking_key (Samples.older_job, Samples.score_with 7.0 [])
     == ranking_key (Samples.newer_job, Samples.score_with 7.0 [])
  /\ rank_opportunities
       [ (Samples.older_job, Samples.score_with 7.0 []);
         (Samples.newer_job, Samples.score_with 7.0 []) ]
     = [ (Samples.older_job, Samples.score_with 7.0 []);
         (Samples.newer_job, Samples.score_with 7.0 []) ].
Proof. repeat split; vm_compute; reflexivity. Qed.

End FilterFacts.

(** ** Discovery: identity, deduplication, persistence *)

Module DiscoveryFacts.

Import Job Discovery Props.

(** *** Identity *)

(** C5, in the form that holds of the code.
    The job id is a function of the lower-cased title, the
    lower-cased company and the source: two records that agree on those
    three get the same id.  The source is part of the hashed text, so the id
    is not independent of it. *)
Theorem job_id_same_source (title1 title2 company1 company2 source : string) :
  Text.lower title1 = Text.lower title2 ->
  Text.lower company1 = Text.lower company2 ->
  _generate_job_id title1 company1 source = _generate_job_id title2 company2 source.
Proof.
  intros Ht Hc. unfold _generate_job_id, unique_string. now rewrite Ht, Hc.
Qed.

Lemma job_id_same_source_witness :
  Text.lower "Engineer" = Text.lower "ENGINEER"
  /\ Text.lower "Acme" = Text.lower "ACME"
  /\ _generate_job_id "Engineer" "Acme" "linkedin"
     = _generate_job_id "ENGINEER" "ACME" "linkedin".
Proof.
  assert (Ht : Text.lower "Engineer" = Text.lower "ENGINEER") by (vm_compute; reflexivity).
  assert (Hc : Text.lower "Acme" = Text.lower "ACME") by (vm_compute; reflexivity).
  split; [exact Ht |]. split; [exact Hc |].
  exact (job_id_same_source "Engineer" "ENGINEER" "Acme" "ACME" "linkedin" Ht Hc).
Defined.

(** C5, as the design document states it, fails: the same title and company
    from two sources get two different ids. *)
Lemma job_id_depends_on_source :
  _generate_job_id "Engineer" "Acme" "linkedin" = "0db3c0801e5e"
  /\ _generate_job_id "Engineer" "Acme" "indeed" = "f25eced23650"
  /\ _generate_job_id "Engineer" "Acme" "linkedin"
     <> _generate_job_id "Engineer" "Acme" "indeed".
Proof.
  split; [vm_compute; reflexivity |]. split; [vm_compute; reflexivity |].
  vm_compute. discriminate.
Qed.

(** *** Deduplication *)

Lemma list_eqb_refl {A : Type} (eqb : A -> A -> bool) (l : list A) :
  (forall x, eqb x x = true) -> Job.list_eqb eqb l l = true.
Proof.
  intros H; induction l as [| x l IH]; [reflexivity |].
  cbn. now rewrite H, IH.
Qed.

Lemma option_eqb_refl {A : Type} (eqb : A -> A -> bool) (o : option A) :
  (forall x, eqb x x = true) -> Job.option_eqb eqb o o = true.
Proof. intros H; destruct o; cbn; auto. Qed.

Lemma pair_eqb_refl (p : string * string) : Job.pair_eqb p p = true.
Proof. unfold Job.pair_eqb. now rewrite !String.eqb_refl. Qed.

Lemma Qeq_bool_refl (q : Q) : Qeq_bool q q = true.
Proof. apply Qeq_bool_iff. reflexivity. Qed.

Lemma job_eqb_refl (x : JobOpportunity) : Job.eqb x x = true.
Proof.
  unfold Job.eqb.
  rewrite !String.eqb_refl, !Qeq_bool_refl.
  rewrite !(option_eqb_refl String.eqb) by apply String.eqb_refl.
  rewrite !(list_eqb_refl String.eqb) by apply String.eqb_refl.
  rewrite (option_eqb_refl (Job.list_eqb Job.pair_eqb))
    by (intros l; apply list_eqb_refl, pair_eqb_refl).
  reflexivity.
Qed.

Lemma job_eqb_key (y x : JobOpportunity) :
  Job.eqb y x = true -> dedup_key y = dedup_key x.
Proof.
  unfold Job.eqb. intros H.
  repeat (apply andb_true_iff in H as [H ?]).
  apply String.eqb_eq in H.
  match goal with Hc : String.eqb (company y) (company x) = true |- _ =>
    apply String.eqb_eq in Hc; unfold dedup_key; now rewrite H, Hc end.
Qed.

Lemma key_injective (l : list JobOpportunity) (a b : JobOpportunity) :
  List.NoDup (map dedup_key l) -> In a l -> In b l -> dedup_key a = dedup_key b -> a = b.
Proof.
  induction l as [| x l IH]; cbn [map]; intros Hnd Ha Hb Hk; [destruct Ha |].
  apply List.NoDup_cons_iff in Hnd as [Hx Hnd].
  destruct Ha as [<- | Ha], Hb as [<- | Hb].
  - reflexivity.
  - exfalso; apply Hx. rewrite Hk. now apply List.in_map.
  - exfalso; apply Hx. rewrite <- Hk. now apply List.in_map.
  - now apply IH.
Qed.

Lemma list_remove_split (x : JobOpportunity) (l : list JobOpportunity) :
  In x l ->
  (forall y, In y l -> Job.eqb y x = true -> y = x) ->
  exists l1 l2, l = (l1 ++ x :: l2)%list /\ list_remove x l = Some (l1 ++ l2)%list.
Proof.
  induction l as [| y l IH]; intros Hin Huniq; [destruct Hin |].
  cbn [list_remove]. destruct (Job.eqb y x) eqn:E.
  - assert (y = x) as -> by (apply Huniq; [now left | exact E]).
    now exists [], l.
  - assert (Hin' : In x l).
    { destruct Hin as [-> | H]; [| exact H]. rewrite job_eqb_refl in E. discriminate. }
    destruct (IH Hin') as (l1 & l2 & -> & Hr).
    { intros z Hz. apply Huniq. now right. }
    rewrite Hr. now exists (y :: l1), l2.
Qed.

Lemma nodup_snoc (keys : list string) (k : string) :
  List.NoDup keys -> ~ In k keys -> List.NoDup (keys ++ [k])%list.
Proof.
  intros Hnd Hk.
  apply (Permutation_NoDup (Permutation_cons_append keys k)).
  now constructor.
Qed.

Lemma dedup_inv_empty : dedup_inv [] {| seen_jobs := ∅; unique_jobs := [] |}.
Proof.
  unfold dedup_inv; cbn [seen_jobs unique_jobs map].
  refine (conj _ (conj _ (conj _ (conj _ _)))).
  - intros k j H. rewrite lookup_empty in H. discriminate.
  - intros j [].
  - constructor.
  - intros p [].
  - intros r [].
Qed.

Lemma dedup_step_inv (processed : list JobOpportunity) (st : dedup_state)
    (job : JobOpportunity) :
  dedup_inv processed st ->
  exists st', dedup_step st job = Ok st' /\ dedup_inv (processed ++ [job])%list st'.
Proof.
  intros (I1 & I2 & I3 & I4 & I5). unfold dedup_step.
  set (key := dedup_key job).
  destruct (seen_jobs st !! key) as [existing |] eqn:Hseen.
  - destruct (I1 _ _ Hseen) as [Hin Hkey].
    destruct (Nat.ltb_spec (source_priority (source existing))
                (source_priority (source job))) as [Hlt | Hge].
    + (* the new job replaces the one kept so far *)
      destruct (list_remove_split existing (unique_jobs st) Hin) as (l1 & l2 & Hl & Hr).
      { intros y Hy E. apply (key_injective (unique_jobs st)); auto.
        now apply job_eqb_key. }
      rewrite Hr. eexists; split; [reflexivity |].
      rewrite Hl in I3. rewrite List.map_app in I3. cbn [map] in I3.
      pose proof (List.NoDup_remove_1 _ _ _ I3) as Hnd.
      pose proof (List.NoDup_remove_2 _ _ _ I3) as Hnot.
      rewrite <- List.map_app in Hnd, Hnot.
      assert (Hrest : forall j, In j (l1 ++ l2)%list ->
                        In j (unique_jobs st) /\ dedup_key j <> key).
      { intros j Hj. split.
        - rewrite Hl. apply List.in_app_iff in Hj as [Hj | Hj];
            apply List.in_app_iff; [left | right; right]; exact Hj.
        - intros E. apply Hnot. rewrite Hkey, <- E. now apply List.in_map. }
      unfold dedup_inv; cbn [seen_jobs unique_jobs].
      refine (conj _ (conj _ (conj _ (conj _ _)))).
      * intros k j H. destruct (decide (key = k)) as [<- | Hne].
        -- rewrite lookup_insert_eq in H. injection H as <-.
           split; [| reflexivity].
           apply List.in_app_iff. right. now left.
        -- rewrite lookup_insert_ne in H by exact Hne.
           destruct (I1 _ _ H) as [Hj Hk]. split; [| exact Hk].
           apply List.in_app_iff. left.
           rewrite Hl in Hj. apply List.in_app_iff in Hj as [Hj | [Hj | Hj]].
           ++ apply List.in_app_iff; now left.
           ++ subst j. congruence.
           ++ apply List.in_app_iff; now right.
      * intros j Hj. apply List.in_app_iff in Hj as [Hj | [<- | []]].
        -- destruct (Hrest _ Hj) as [Hu Hk].
           rewrite lookup_insert_ne by (intros E; apply Hk; now rewrite E).
           now apply I2.
        -- apply lookup_insert_eq.
      * rewrite List.map_app. cbn [map]. apply nodup_snoc; [exact Hnd |].
        fold key. now rewrite <- Hkey.
      * intros p Hp. apply List.in_app_iff in Hp as [Hp | [<- | []]].
        -- destruct (I4 _ Hp) as (r & Hr' & Hle).
           destruct (decide (key = dedup_key p)) as [E | Hne].
           ++ exists job. rewrite <- E, lookup_insert_eq. split; [reflexivity |].
              rewrite <- E, Hseen in Hr'. injection Hr' as <-.
              unfold priority in *. lia.
           ++ exists r. rewrite lookup_insert_ne by exact Hne. now split.
        -- exists job. fold key. rewrite lookup_insert_eq. split; [reflexivity | lia].
      * intros r Hr'. apply List.in_app_iff in Hr' as [Hr' | [<- | []]].
        -- apply List.in_app_iff. left. apply I5. now apply Hrest.
        -- apply List.in_app_iff. right. now left.
    + (* the job kept so far stays *)
      eexists; split; [reflexivity |].
      unfold dedup_inv.
      refine (conj I1 (conj I2 (conj I3 (conj _ _)))).
      * intros p Hp. apply List.in_app_iff in Hp as [Hp | [<- | []]]; [now apply I4 |].
        exists existing. split; [exact Hseen |]. unfold priority; lia.
      * intros r Hr. apply List.in_app_iff. left. now apply I5.
  - (* first job with this key *)
    eexists; split; [reflexivity |].
    assert (Hfresh : forall j, In j (unique_jobs st) -> dedup_key j <> key).
    { intros j Hj E. apply I2 in Hj. rewrite E, Hseen in Hj. discriminate. }
    unfold dedup_inv; cbn [seen_jobs unique_jobs].
    refine (conj _ (conj _ (conj _ (conj _ _)))).
    + intros k j H. destruct (decide (key = k)) as [<- | Hne].
      * rewrite lookup_insert_eq in H. injection H as <-.
        split; [| reflexivity].
        apply List.in_app_iff. right. now left.
      * rewrite lookup_insert_ne in H by exact Hne.
        destruct (I1 _ _ H) as [Hj Hk]. split; [| exact Hk].
        apply List.in_app_iff. now left.
    + intros j Hj. apply List.in_app_iff in Hj as [Hj | [<- | []]].
      * rewrite lookup_insert_ne by (intros E; apply (Hfresh _ Hj); now rewrite E).
        now apply I2.
      * apply lookup_insert_eq.
    + rewrite List.map_app. cbn [map]. apply nodup_snoc; [exact I3 |].
      intros Hk. apply List.in_map_iff in Hk as (j & E & Hj).
      now apply (Hfresh _ Hj).
    + intros p Hp. apply List.in_app_iff in Hp as [Hp | [<- | []]].
      * destruct (I4 _ Hp) as (r & Hr & Hle).
        exists r. split; [| exact Hle].
        rewrite lookup_insert_ne; [exact Hr |].
        intros E. rewrite <- E, Hseen in Hr. discriminate.
      * exists job. fold key. rewrite lookup_insert_eq. split; [reflexivity | lia].
    + intros r Hr. apply List.in_app_iff in Hr as [Hr | [<- | []]].
      * apply List.in_app_iff. left. now apply I5.
      * apply List.in_app_iff. right. now left.
Qed.

Lemma dedup_loop_inv (jobs processed : list JobOpportunity) (st : dedup_state) :
  dedup_inv processed st ->
  exists st', dedup_loop st jobs = Ok st' /\ dedup_inv (processed ++ jobs)%list st'.
Proof.
  revert processed st. induction jobs as [| job jobs IH]; intros processed st Hinv.
  - exists st. rewrite List.app_nil_r. now split.
  - cbn [dedup_loop].
    destruct (dedup_step_inv processed st job Hinv) as (st1 & -> & Hinv1).
    destruct (IH _ _ Hinv1) as (st' & Hloop & Hinv').
    exists st'. split; [exact Hloop |].
    now rewrite <- List.app_assoc in Hinv'.
Qed.

Lemma dedup_pair_first_wins (a b : JobOpportunity) :
  dedup_key a = dedup_key b ->
  (priority b <= priority a)%nat ->
  _deduplicate_jobs [a; b] = Ok [a].
Proof.
  intros Hk Hp. unfold _deduplicate_jobs. cbn [dedup_loop].
  unfold dedup_step at 1. cbn [seen_jobs unique_jobs]. rewrite lookup_empty.
  unfold dedup_step. cbn [seen_jobs unique_jobs].
  rewrite <- Hk, lookup_insert_eq.
  destruct (Nat.ltb_spec (source_priority (source a)) (source_priority (source b)))
    as [Hlt | _]; [unfold priority in Hp; lia | reflexivity].
Qed.

Lemma dedup_pair_second_wins (a b : JobOpportunity) :
  dedup_key a = dedup_key b ->
  (priority b < priority a)%nat ->
  _deduplicate_jobs [b; a] = Ok [a].
Proof.
  intros Hk Hp. unfold _deduplicate_jobs. cbn [dedup_loop].
  unfold dedup_step at 1. cbn [seen_jobs unique_jobs]. rewrite lookup_empty.
  unfold dedup_step. cbn [seen_jobs unique_jobs].
  rewrite Hk, lookup_insert_eq.
  destruct (Nat.ltb_spec (source_priority (source b)) (source_priority (source a)))
    as [_ | Hge]; [| unfold priority in Hp; lia].
  cbn [app list_remove]. rewrite job_eqb_refl. reflexivity.
Qed.

(** C8.  Deduplication never raises; its result holds one record per
    similarity key, each of them an input record; for every input record
    the retained record of its key comes from a source of at least the same
    priority, so of two colliding records from sources of different
    priority the lower one is not retained.  In particular, of a linkedin
    record and an indeed record with the same key, in either input order,
    the linkedin record is the one retained. *)
Theorem dedup_keeps_higher_priority (jobs : list JobOpportunity) :
  exists out,
    _deduplicate_jobs jobs = Ok out
    /\ List.NoDup (map dedup_key out)
    /\ (forall r, In r out -> In r jobs)
    /\ (forall j, In j jobs ->
          exists r, In r out /\ dedup_key r = dedup_key j
                    /\ (priority j <= priority r)%nat)
    /\ (forall a b, In a jobs -> In b jobs -> dedup_key a = dedup_key b ->
          (priority a < priority b)%nat -> ~ In a out)
    /\ (forall a b, source a = "linkedin" -> source b = "indeed" ->
          dedup_key a = dedup_key b ->
          _deduplicate_jobs [a; b] = Ok [a] /\ _deduplicate_jobs [b; a] = Ok [a]).
Proof.
  destruct (dedup_loop_inv jobs [] _ dedup_inv_empty)
    as (st & Hloop & I1 & I2 & I3 & I4 & I5).
  cbn [app] in I4, I5.
  exists (unique_jobs st). unfold _deduplicate_jobs. rewrite Hloop.
  assert (Hmax : forall j, In j jobs ->
            exists r, In r (unique_jobs st) /\ dedup_key r = dedup_key j
                      /\ (priority j <= priority r)%nat).
  { intros j Hj. destruct (I4 _ Hj) as (r & Hr & Hle).
    destruct (I1 _ _ Hr) as [Hin Hk]. now exists r. }
  refine (conj eq_refl (conj I3 (conj I5 (conj Hmax (conj _ _))))).
  - intros a b Ha Hb Hk Hlt Hout.
    destruct (Hmax _ Hb) as (r & Hr & Hkr & Hle).
    assert (a = r).
    { apply (key_injective (unique_jobs st)); auto. congruence. }
    subst r. lia.
  - intros a b Ha Hb Hk.
    assert (Hpa : priority a = 3%nat) by (unfold priority; now rewrite Ha).
    assert (Hpb : priority b = 2%nat) by (unfold priority; now rewrite Hb).
    split; [apply dedup_pair_first_wins | apply dedup_pair_second_wins]; auto; lia.
Qed.

(** The two orders of the example, evaluated. *)
Lemma dedup_linkedin_indeed_example :
  dedup_key Samples.from_linkedin = dedup_key Samples.from_indeed
  /\ _deduplicate_jobs [ Samples.from_indeed; Samples.from_linkedin ]
     = Ok [ Samples.from_linkedin ]
  /\ _deduplicate_jobs [ Samples.from_linkedin; Samples.from_indeed ]
     = Ok [ Samples.from_linkedin ].
Proof.
  assert (Hk : dedup_key Samples.from_linkedin = dedup_key Samples.from_indeed)
    by (vm_compute; reflexivity).
  split; [exact Hk |].
  destruct (dedup_keeps_higher_priority []) as (_ & _ & _ & _ & _ & _ & H).
  destruct (H Samples.from_linkedin Samples.from_indeed eq_refl eq_refl Hk) as [H1 H2].
  now split.
Defined.


(** *** Persistence *)

Lemma filter_other_rows (id : string) (db : table) :
  rows_with id (List.filter (fun r => negb (String.eqb (job_id r) id)) db) = [].
Proof.
  unfold rows_with. induction db as [| r db IH]; [reflexivity |].
  cbn [List.filter]. destruct (String.eqb (job_id r) id) eqn:E; cbn [negb].
  - exact IH.
  - cbn [List.filter]. now rewrite E.
Defined.

Lemma filter_filter_other (id : string) (db : table) :
  List.filter (fun r => negb (String.eqb (job_id r) id))
    (List.filter (fun r => negb (String.eqb (job_id r) id)) db)
  = List.filter (fun r => negb (String.eqb (job_id r) id)) db.
Proof.
  induction db as [| r db IH]; [reflexivity |].
  cbn [List.filter]. destruct (negb (String.eqb (job_id r) id)) eqn:E.
  - cbn [List.filter]. now rewrite E, IH.
  - exact IH.
Qed.

Lemma row_of_job_id (job : JobOpportunity) : job_id (row_of_job job) = job_id job.
Proof. reflexivity. Qed.

Lemma rows_with_insert (row : JobOpportunity) (db : table) :
  rows_with (job_id row) (insert_or_replace row db) = [row].
Proof.
  unfold insert_or_replace, rows_with.
  rewrite List.filter_app.
  fold (rows_with (job_id row)
          (List.filter (fun r => negb (String.eqb (job_id r) (job_id row))) db)).
  rewrite filter_other_rows. cbn [List.filter app].
  now rewrite String.eqb_refl.
Qed.

Lemma insert_twice (row1 row2 : JobOpportunity) (db : table) :
  job_id row1 = job_id row2 ->
  insert_or_replace row2 (insert_or_replace row1 db) = insert_or_replace row2 db.
Proof.
  intros Hid. unfold insert_or_replace.
  rewrite List.filter_app, <- Hid, filter_filter_other.
  cbn [List.filter]. rewrite String.eqb_refl. cbn [negb].
  now rewrite List.app_nil_r.
Qed.

(** C9.  Two successful saves with the same job id leave exactly one row
    with that id, the one of the second save; the table is the one a single
    save of the second record gives, so saving the same record twice equals
    saving it once. *)
Theorem save_twice_one_row (db : table) (job1 job2 : JobOpportunity) (u1 u2 : unit) :
  job_id job1 = job_id job2 ->
  let db1 := fst (save_job (Ok u1) db job1) in
  let db2 := fst (save_job (Ok u2) db1 job2) in
  snd (save_job (Ok u1) db job1) = true
  /\ snd (save_job (Ok u2) db1 job2) = true
  /\ rows_with (job_id job1) db1 = [row_of_job job1]
  /\ rows_with (job_id job1) db2 = [row_of_job job2]
  /\ db2 = fst (save_job (Ok u2) db job2)
  /\ List.length db2 = List.length db1.
Proof.
  intros Hid db1 db2. subst db1 db2. cbn [save_job fst snd].
  split; [reflexivity |]. split; [reflexivity |].
  assert (Hrow : job_id (row_of_job job1) = job_id (row_of_job job2))
    by (now rewrite !row_of_job_id).
  split.
  { rewrite <- (row_of_job_id job1). apply rows_with_insert. }
  split.
  { rewrite <- (row_of_job_id job1), Hrow. apply rows_with_insert. }
  split.
  { now apply insert_twice. }
  rewrite (insert_twice _ _ _ Hrow).
  unfold insert_or_replace. rewrite !List.length_app, <- Hrow. reflexivity.
Qed.

Lemma save_twice_one_row_witness :
  job_id Samples.older_job = job_id Samples.older_job
  /\ rows_with (job_id Samples.older_job)
       (fst (save_job (Ok tt) (fst (save_job (Ok tt) Samples.two_rows Samples.older_job))
               Samples.older_job))
     = [row_of_job Samples.older_job].
Proof.
  split; [reflexivity |].
  exact (proj1 (proj2 (proj2 (proj2
    (save_twice_one_row Samples.two_rows Samples.older_job Samples.older_job tt tt
       eq_refl))))).
Defined.

(** *** Query order *)

Local Open Scope Q_scope.

Lemma ascii_compare_N (a b : ascii) :
  Ascii.compare a b = N.compare (N_of_ascii a) (N_of_ascii b).
Proof. reflexivity. Qed.

Lemma ascii_compare_eq (a b : ascii) : Ascii.compare a b = Eq -> a = b.
Proof.
  rewrite ascii_compare_N. intros H. apply N.compare_eq in H.
  rewrite <- (ascii_N_embedding a), <- (ascii_N_embedding b). now rewrite H.
Qed.

Lemma text_leb_total (a b : string) :
  text_leb a b = false -> text_leb b a = true.
Proof.
  unfold text_leb. rewrite (String.compare_antisym b a).
  destruct (String.compare a b); simpl; congruence.
Qed.

Lemma string_compare_cons (c1 c2 : ascii) (s1 s2 : string) :
  String.compare (String c1 s1) (String c2 s2)
  = match Ascii.compare c1 c2 with
    | Eq => String.compare s1 s2
    | ne => ne
    end.
Proof. reflexivity. Qed.

Lemma text_leb_trans (a b c : string) :
  text_leb a b = true -> text_leb b c = true -> text_leb a c = true.
Proof.
  unfold text_leb. revert b c.
  induction a as [| x a IH]; intros [| y b] [| z c]; try (cbn; congruence).
  rewrite !string_compare_cons, !ascii_compare_N.
  destruct (N.compare_spec (N_of_ascii x) (N_of_ascii y)) as [Exy | Lxy | Gxy];
    destruct (N.compare_spec (N_of_ascii y) (N_of_ascii z)) as [Eyz | Lyz | Gyz];
    try congruence.
  - rewrite Exy, Eyz, N.compare_refl. apply IH.
  - rewrite Exy. apply N.compare_lt_iff in Lyz. now rewrite Lyz.
  - rewrite <- Eyz. apply N.compare_lt_iff in Lxy. now rewrite Lxy.
  - assert (L : (N_of_ascii x < N_of_ascii z)%N) by lia.
    apply N.compare_lt_iff in L. now rewrite L.
Qed.

Lemma order_by_true (a b : JobOpportunity) : order_by a b = true -> coded_order a b.
Proof.
  unfold order_by, coded_order.
  destruct (Qcompare_spec (relevance_score a) (relevance_score b)) as [E | L | G];
    intros H; try discriminate.
  - right; split; assumption.
  - left; assumption.
Qed.

Lemma order_by_false (a b : JobOpportunity) : order_by a b = false -> coded_order b a.
Proof.
  unfold order_by, coded_order.
  destruct (Qcompare_spec (relevance_score a) (relevance_score b)) as [E | L | G];
    intros H; try discriminate.
  - right; split; [now symmetry | now apply text_leb_total].
  - left; assumption.
Qed.

Lemma coded_order_trans (a b c : JobOpportunity) :
  coded_order a b -> coded_order b c -> coded_order a c.
Proof.
  unfold coded_order. intros [L1 | [E1 T1]] [L2 | [E2 T2]].
  - left; lra.
  - left; lra.
  - left; lra.
  - right; split; [lra | eapply text_leb_trans; eassumption].
Qed.

Lemma insert_row_perm (x : JobOpportunity) (l : list JobOpportunity) :
  Permutation (x :: l) (insert_row x l).
Proof.
  induction l as [| y l IH]; cbn [insert_row]; [reflexivity |].
  destruct (order_by x y); [reflexivity |].
  rewrite perm_swap. now apply perm_skip.
Qed.

Lemma sort_rows_perm (l : list JobOpportunity) : Permutation l (sort_rows l).
Proof.
  induction l as [| x l IH]; cbn [sort_rows]; [reflexivity |].
  rewrite <- insert_row_perm. now apply perm_skip.
Qed.

Lemma insert_row_sorted (x : JobOpportunity) (l : list JobOpportunity) :
  StronglySorted coded_order l -> StronglySorted coded_order (insert_row x l).
Proof.
  induction 1 as [| y l Hs IH Hall]; cbn [insert_row].
  - constructor; constructor.
  - destruct (order_by x y) eqn:E.
    + apply order_by_true in E.
      constructor; [constructor; assumption |].
      constructor; [assumption |].
      eapply List.Forall_impl; [| exact Hall].
      intros b Hb. eapply coded_order_trans; eassumption.
    + apply order_by_false in E.
      constructor; [assumption |].
      rewrite <- (insert_row_perm x l). constructor; assumption.
Qed.

Lemma sort_rows_sorted (l : list JobOpportunity) : StronglySorted coded_order (sort_rows l).
Proof.
  induction l as [| x l IH]; cbn [sort_rows]; [constructor | now apply insert_row_sorted].
Qed.

Lemma In_firstn (n : nat) (l : list JobOpportunity) (x : JobOpportunity) :
  In x (firstn n l) -> In x l.
Proof.
  revert n; induction l as [| y l IH]; intros [| n]; simpl; try tauto.
  intros H; destruct H as [E | H]; [now left | right; eauto].
Qed.

Lemma firstn_sorted (n : nat) (l : list JobOpportunity) :
  StronglySorted coded_order l -> StronglySorted coded_order (firstn n l).
Proof.
  intros H; revert n. induction H as [| y l Hs IH Hall]; intros [| n]; cbn [firstn];
    try constructor.
  - apply IH.
  - apply List.Forall_forall. intros b Hb.
    apply (proj1 (List.Forall_forall _ _) Hall). eapply In_firstn; eauto.
Qed.

Lemma map_row_to_job (rows : list JobOpportunity) : map _row_to_job rows = rows.
Proof. induction rows as [| r rows IH]; cbn [map]; [reflexivity | now rewrite IH]. Qed.

Lemma apply_limit_sorted (limit : option Z) (rows : list JobOpportunity) :
  StronglySorted coded_order rows -> StronglySorted coded_order (apply_limit limit rows).
Proof.
  intros H. unfold apply_limit. destruct limit as [n |]; [| exact H].
  destruct (n =? 0)%Z; [exact H |]. destruct (n <? 0)%Z; [exact H |].
  now apply firstn_sorted.
Qed.

Lemma apply_limit_In (limit : option Z) (rows : list JobOpportunity) (r : JobOpportunity) :
  In r (apply_limit limit rows) -> In r rows.
Proof.
  unfold apply_limit. destruct limit as [n |]; [| tauto].
  destruct (n =? 0)%Z; [tauto |]. destruct (n <? 0)%Z; [tauto |].
  apply In_firstn.
Qed.

(** C10, in the form that holds of the code.
    For every status and limit the query returns stored
    records of that status ordered by score descending, with the discovery
    time in descending order (newest first) as the tiebreak among records
    of equal score.  Without a limit it returns all of them; a positive
    limit keeps the first [limit] of that order. *)
Theorem query_by_status_order (io : outcome unit) (db : table) (status_ : string)
    (limit : option Z) :
  let matching := List.filter (fun r => String.eqb (status r) status_) db in
  let out := get_jobs_by_status io db status_ limit in
  StronglySorted coded_order out
  /\ Forall (fun r => In r db /\ status r = status_) out
  /\ match io, limit with
     | Raise _, _ => out = []
     | Ok _, None => Permutation matching out
     | Ok _, Some n =>
         if (0 <? n)%Z then out = firstn (Z.to_nat n) (sort_rows matching)
         else Permutation matching out
     end.
Proof.
  intros matching out. subst out. unfold get_jobs_by_status.
  destruct io as [u | x].
  2: { split; [constructor |]. split; [constructor | reflexivity]. }
  rewrite map_row_to_job. fold matching.
  split; [apply apply_limit_sorted, sort_rows_sorted |].
  split.
  { apply List.Forall_forall. intros r Hr.
    apply apply_limit_In in Hr.
    apply (Permutation_in _ (Permutation_sym (sort_rows_perm matching))) in Hr.
    subst matching. apply List.filter_In in Hr as [Hin Hst].
    split; [exact Hin |]. now apply String.eqb_eq. }
  unfold apply_limit. destruct limit as [n |]; [| apply sort_rows_perm].
  destruct (Z.ltb_spec 0 n) as [Hpos | Hneg].
  - destruct (Z.eqb_spec n 0) as [E | _]; [exfalso; clear - Hpos E; lia |].
    destruct (Z.ltb_spec n 0) as [L | _]; [exfalso; clear - Hpos L; lia | reflexivity].
  - destruct (Z.eqb_spec n 0) as [_ | N]; [apply sort_rows_perm |].
    destruct (Z.ltb_spec n 0) as [_ | G];
      [apply sort_rows_perm | exfalso; clear - Hneg N G; lia].
Qed.

(** C10, as the design document words it, fails: of two stored records with
    the same status and the same score the query returns the newer one
    first, so equal scores are not in ascending order of discovery time. *)
Lemma query_ties_newest_first :
  relevance_score Samples.older_job == relevance_score Samples.newer_job
  /\ String.ltb (discovered_at Samples.older_job) (discovered_at Samples.newer_job) = true
  /\ get_jobs_by_status (Ok tt) Samples.two_rows "discovered" None
     = [ Samples.newer_job; Samples.older_job ]
  /\ ~ StronglySorted claimed_order
        (get_jobs_by_status (Ok tt) Samples.two_rows "discovered" None).
Proof.
  split; [vm_compute; reflexivity |]. split; [vm_compute; reflexivity |].
  assert (E : get_jobs_by_status (Ok tt) Samples.two_rows "discovered" None
              = [ Samples.newer_job; Samples.older_job ]) by (vm_compute; reflexivity).
  split; [exact E |]. rewrite E. intros H.
  apply StronglySorted_inv in H as [_ H].
  apply List.Forall_inv in H. destruct H as [L | [_ T]].
  - vm_compute in L. discriminate.
  - vm_compute in T. discriminate.
Qed.

End DiscoveryFacts.

(** ** Parallel generation *)

Module ParallelFacts.

Import Effects Progress Parallel Props.

(** Unfolding of the monad operations. *)
Ltac run :=
  unfold mbind, mret, SE_bind, SE_ret, bind, ret, throw, lift, try_except in *.

Section WithWorld.

Variable w : World.

Lemma heartbeat_run (msg : string) (e : Engine) :
  with_tracker (fun tr => update_progress (console w) tr msg) e
  = (match progress_tracker e with
     | None => Raise (AttributeError "NoneType")
     | Some tr => if is_active tr then console w msg else Ok tt
     end, e).
Proof.
  unfold with_tracker, update_progress. destruct e as [n [tr |] lg]; cbn; [| reflexivity].
  destruct (is_active tr); reflexivity.
Qed.

Lemma on_failure_run (t : Task) (x : exn) (e : Engine) :
  exists e', on_failure t x e = (Ok (fallback_text (task_name t)), e')
             /\ same_tracker e e'.
Proof. unfold on_failure, log; run. eexists; split; reflexivity. Qed.

Lemma call_begin_run (t : Task) (e : Engine) :
  exists e',
    call_begin w t e
    = (Ok (if heartbeat_fails w (progress_tracker e) t
           then Some (fallback_text (task_name t)) else None), e')
    /\ same_tracker e e'.
Proof.
  unfold call_begin. run. rewrite heartbeat_run. unfold heartbeat_fails.
  destruct (progress_tracker e) as [tr |] eqn:Htr.
  - destruct (is_active tr); cbn [andb].
    + destruct (console w _) as [u | x]; cbn [raises].
      * exists e. now split.
      * destruct (on_failure_run t x e) as (e' & -> & H). now exists e'.
    + exists e. now split.
  - destruct (on_failure_run t (AttributeError "NoneType") e) as (e' & -> & H).
    now exists e'.
Qed.

Lemma call_resume_run (t : Task) (e : Engine) :
  exists e', call_resume w t e = (Ok (task_result w t), e') /\ same_tracker e e'.
Proof.
  unfold call_resume, task_result. run.
  destruct (completion w (prompt t) (max_tokens t)) as [[text |] | x].
  - unfold count_call, log. eexists; split; reflexivity.
  - unfold count_call, log.
    match goal with |- context [on_failure t ?x ?s] =>
      destruct (on_failure_run t x s) as (e' & -> & H) end.
    exists e'. split; [reflexivity | exact H].
  - destruct (on_failure_run t x e) as (e' & -> & H). now exists e'.
Qed.

Lemma begin_all_run (tasks : list Task) (e : Engine) :
  exists e',
    begin_all w tasks e = (Ok (map (started w (progress_tracker e)) tasks), e')
    /\ same_tracker e e'.
Proof.
  revert e. induction tasks as [| t tasks IH]; intros e; cbn [begin_all map].
  - exists e. now split.
  - run. destruct (call_begin_run t e) as (e1 & -> & H1).
    destruct (IH e1) as (e2 & -> & H2).
    exists e2. unfold same_tracker in *. rewrite H1. split; [reflexivity | congruence].
Qed.

Lemma lookup_map {A B : Type} (f : A -> B) (l : list A) (i : nat) :
  map f l !! i = option_map f (l !! i).
Proof.
  revert i; induction l as [| x l IH]; intros [| i]; cbn; auto.
Qed.

Lemma gathering_started (tr : option ProgressTracker) (tasks : list Task) :
  gathering w tr tasks (map (started w tr) tasks).
Proof.
  split; [apply List.length_map |].
  intros i t Ht. rewrite lookup_map, Ht. cbn [option_map].
  unfold started, call_result.
  destruct (heartbeat_fails w tr t); [now left | now right].
Qed.

Lemma resume_at_run (tasks : list Task) (i : nat) (results : list (option string))
    (e : Engine) :
  gathering w (progress_tracker e) tasks results ->
  exists results' e',
    resume_at w tasks i results e = (Ok results', e')
    /\ same_tracker e e'
    /\ gathering w (progress_tracker e) tasks results'
    /\ (forall j, results !! j <> Some None -> results' !! j <> Some None)
    /\ results' !! i <> Some None.
Proof.
  intros [Hlen Hres]. unfold resume_at.
  destruct (tasks !! i) as [t |] eqn:Ht.
  - destruct (Hres _ _ Ht) as [Hdone | [Hwait Hhb]].
    + rewrite Hdone. exists results, e. run.
      repeat split; auto; try (rewrite Hdone; discriminate).
    + rewrite Hwait. run.
      destruct (call_resume_run t e) as (e' & -> & Hsame).
      exists (<[i := Some (task_result w t)]> results), e'.
      assert (Hi : (i < List.length results)%nat)
        by (apply lookup_lt_is_Some; eauto).
      split; [reflexivity |]. split; [exact Hsame |]. split; [| split].
      * split; [now rewrite length_insert |].
        intros j t' Ht'. destruct (decide (i = j)) as [<- | Hne].
        -- left. rewrite list_lookup_insert_eq by exact Hi.
           assert (t' = t) as -> by congruence.
           unfold call_result. now rewrite Hhb.
        -- rewrite list_lookup_insert_ne by exact Hne. now apply Hres.
      * intros j Hj. destruct (decide (i = j)) as [<- | Hne].
        -- rewrite list_lookup_insert_eq by exact Hi. discriminate.
        -- now rewrite list_lookup_insert_ne by exact Hne.
      * rewrite list_lookup_insert_eq by exact Hi. discriminate.
  - exists results, e. run.
    assert (Hnone : results !! i = None).
    { apply lookup_ge_None. rewrite Hlen. now apply lookup_ge_None in Ht. }
    rewrite Hnone. repeat split; auto; try discriminate.
Qed.

Lemma resume_in_order_run (tasks : list Task) (order : list nat)
    (results : list (option string)) (e : Engine) :
  gathering w (progress_tracker e) tasks results ->
  exists results' e',
    resume_in_order w tasks order results e = (Ok results', e')
    /\ same_tracker e e'
    /\ gathering w (progress_tracker e) tasks results'
    /\ (forall j, results !! j <> Some None -> results' !! j <> Some None)
    /\ (forall j, In j order -> results' !! j <> Some None).
Proof.
  revert results e. induction order as [| i order IH]; intros results e Hg.
  - exists results, e. cbn [resume_in_order]. run.
    repeat split; auto; try apply Hg; try (intros j []).
  - cbn [resume_in_order]. run.
    destruct (resume_at_run tasks i results e Hg) as (r1 & e1 & -> & S1 & G1 & K1 & D1).
    unfold same_tracker in S1. rewrite <- S1 in G1.
    destruct (IH r1 e1 G1) as (r2 & e2 & -> & S2 & G2 & K2 & D2).
    exists r2, e2. unfold same_tracker in *.
    split; [reflexivity |]. split; [congruence |]. split; [now rewrite <- S1 |].
    split.
    + intros j Hj. now apply K2, K1.
    + intros j [<- | Hj]; [now apply K2 | now apply D2].
Qed.

Lemma gathering_done (tr : option ProgressTracker) (tasks : list Task)
    (results : list (option string)) :
  gathering w tr tasks results ->
  (forall j, (j < List.length tasks)%nat -> results !! j <> Some None) ->
  map result_text results = map (call_result w tr) tasks.
Proof.
  intros [Hlen Hres] Hdone. apply list_eq. intros i.
  rewrite !lookup_map.
  destruct (tasks !! i) as [t |] eqn:Ht.
  - destruct (Hres _ _ Ht) as [-> | [Hwait _]]; [reflexivity |].
    exfalso. apply (Hdone i); [| exact Hwait].
    apply lookup_lt_is_Some; eauto.
  - assert (Hnone : results !! i = None).
    { apply lookup_ge_None. rewrite Hlen. now apply lookup_ge_None in Ht. }
    now rewrite Hnone.
Qed.

(** [gather] returns, in task order, what each call hands over. *)
Lemma gather_run (schedule : list nat) (tasks : list Task) (e : Engine) :
  exists e',
    gather w schedule tasks e
    = (Ok (map (call_result w (progress_tracker e)) tasks), e')
    /\ same_tracker e e'.
Proof.
  unfold gather. run.
  destruct (begin_all_run tasks e) as (e1 & -> & S1).
  unfold same_tracker in S1.
  pose proof (gathering_started (progress_tracker e) tasks) as G0.
  rewrite <- S1 in G0 at 1.
  destruct (resume_in_order_run tasks (schedule ++ seq 0 (List.length tasks))%list
              _ e1 G0) as (r & e2 & -> & S2 & G2 & _ & D2).
  exists e2. unfold same_tracker in *. split; [| congruence].
  rewrite S1 in G2. f_equal. f_equal.
  apply gathering_done; [exact G2 |].
  intros j Hj. apply D2. apply List.in_app_iff. right.
  apply List.in_seq. lia.
Qed.

(** *** The run as a whole, when the console takes every write *)

Hypothesis console_ok : forall msg, console w msg = Ok tt.

Lemma call_result_console_ok (tr : ProgressTracker) (t : Task) :
  call_result w (Some tr) t = task_result w t.
Proof.
  unfold call_result, heartbeat_fails. rewrite console_ok. cbn [raises].
  now rewrite andb_false_r.
Qed.

Lemma tracker_call_run (f : ProgressTracker -> outcome unit * ProgressTracker)
    (e : Engine) :
  (forall tr, fst (f tr) = Ok tt) ->
  has_tracker e ->
  exists e', with_tracker f e = (Ok tt, e') /\ has_tracker e'.
Proof.
  intros Hf [tr Htr]. unfold with_tracker. rewrite Htr.
  specialize (Hf tr). destruct (f tr) as [r tr']. cbn [fst] in Hf. subst r.
  eexists; split; [reflexivity |]. now exists tr'.
Qed.

Lemma update_stage_ok (s : ProgressStage) (msg : string) (det : option string)
    (tr : ProgressTracker) :
  fst (update_stage (console w) tr s msg det) = Ok tt.
Proof.
  unfold update_stage. destruct (negb (is_active tr)); cbn [fst]; auto.
Qed.

Lemma update_progress_ok (msg : string) (tr : ProgressTracker) :
  fst (update_progress (console w) tr msg) = Ok tt.
Proof.
  unfold update_progress. destruct (negb (is_active tr)); cbn [fst]; auto.
Qed.

(** One tracker call of the goal, run from a state that has a tracker. *)
Ltac tracker_step :=
  match goal with
  | He : has_tracker ?e |- context [with_tracker ?f ?e] =>
      let e' := fresh "e" in
      let H' := fresh "He" in
      destruct (tracker_call_run f e) as (e' & -> & H');
      [ intros ?;
        first [ apply update_progress_ok
              | apply update_stage_ok
              | unfold Progress.start, Progress.complete; cbn [fst]; apply console_ok ]
      | exact He
      | clear He ]
  end.

Lemma gather_ok (schedule : list nat) (tasks : list Task) (e : Engine) :
  has_tracker e ->
  exists e', gather w schedule tasks e = (Ok (map (task_result w) tasks), e')
             /\ has_tracker e'.
Proof.
  intros [tr Htr].
  destruct (gather_run schedule tasks e) as (e' & -> & S).
  exists e'. unfold same_tracker in S. split.
  - f_equal. f_equal. rewrite Htr. apply List.map_ext. intros t.
    apply call_result_console_ok.
  - exists tr. congruence.
Qed.

Lemma research_phase_ok (schedule : list nat) (company job description : string)
    (e : Engine) :
  has_tracker e ->
  exists e',
    _parallel_deep_research_phase w schedule company job description e
    = (Ok (research_of w company job description), e')
    /\ has_tracker e'.
Proof.
  intros He. unfold _parallel_deep_research_phase. run.
  tracker_step.
  destruct (gather_ok schedule (research_tasks company job description) _ He0)
    as (e2 & -> & H2).
  exists e2. split; [reflexivity | exact H2].
Qed.

Lemma content_phase_ok (schedule : list nat) (company job description : string)
    (e : Engine) :
  has_tracker e ->
  exists e',
    _parallel_sophisticated_content_generation w schedule job company description
      (research_of w company job description) e
    = (Ok (content_of w company job description), e')
    /\ has_tracker e'.
Proof.
  intros He. unfold _parallel_sophisticated_content_generation. run.
  tracker_step.
  destruct (gather_ok schedule
              (content_tasks (_build_sophisticated_context job company description
                                (research_of w company job description))) _ He0)
    as (e2 & -> & H2).
  exists e2. split; [reflexivity | exact H2].
Qed.

Lemma generate_ok (schedule1 schedule2 : list nat)
    (job company description job_url : string) (e : Engine) :
  exists p e',
    generate_sophisticated_application w schedule1 schedule2 job company description
      job_url e = (Ok p, e')
    /\ carries p (research_of w company job description)
         (content_of w company job description).
Proof.
  unfold generate_sophisticated_application. run.
  unfold set_tracker at 1.
  assert (H0 : has_tracker {| calls_made := calls_made e;
                              progress_tracker := Some Progress.new;
                              logged := logged e |}) by (now eexists).
  tracker_step. tracker_step.
  match goal with He : has_tracker _ |- _ =>
    destruct (research_phase_ok schedule1 company job description _ He)
      as (? & -> & ?); clear He end.
  tracker_step.
  match goal with He : has_tracker _ |- _ =>
    destruct (content_phase_ok schedule2 company job description _ He)
      as (? & -> & ?); clear He end.
  tracker_step.
  unfold _integrate_sophisticated_application.
  tracker_step.
  eexists; eexists. split; [reflexivity |].
  unfold carries; cbn. repeat split.
Qed.

End WithWorld.

Lemma failed_call_result (w : World) (tr : option ProgressTracker) (t : Task) (x : exn) :
  completion w (prompt t) (max_tokens t) = Raise x ->
  call_result w tr t = fallback_text (task_name t).
Proof.
  intros H. unfold call_result, task_result. rewrite H.
  now destruct (heartbeat_fails w tr t).
Qed.

(** *** The fallback text names its task *)

Lemma prefix_app_self (kw rest : string) : String.prefix kw (kw ++ rest) = true.
Proof.
  induction kw as [| k kw IH]; [now destruct rest |].
  change (String k kw ++ rest)%string with (String k (kw ++ rest)).
  cbn [String.prefix]. destruct (Ascii.ascii_dec k k) as [_ | N]; [exact IH | now destruct N].
Qed.

Lemma contains_prefix (kw s : string) :
  String.prefix kw s = true -> Text.contains kw s = true.
Proof. intros H. destruct s; cbn [Text.contains]; now rewrite H. Qed.

Lemma contains_middle (kw before after : string) :
  Text.contains kw (before ++ kw ++ after) = true.
Proof. apply FilterFacts.contains_app_r, contains_prefix, prefix_app_self. Qed.

Lemma string_app_inv_tail (a b tail : string) :
  (a ++ tail)%string = (b ++ tail)%string -> a = b.
Proof.
  revert b. induction a as [| x a IH]; intros [| y b] H.
  - reflexivity.
  - apply (f_equal String.length) in H.
    rewrite !FilterFacts.string_length_app in H. cbn [String.length] in H. lia.
  - apply (f_equal String.length) in H.
    rewrite !FilterFacts.string_length_app in H. cbn [String.length] in H. lia.
  - change (String x (a ++ tail) = String y (b ++ tail)) in H.
    injection H as -> H. f_equal. now apply IH.
Qed.

Lemma fallback_text_inj (a b : string) : fallback_text a = fallback_text b -> a = b.
Proof.
  unfold fallback_text. intros H.
  change ("[" ++ a ++ " generation failed - implementing fallback strategy]")%string
    with (String "[" (a ++ " generation failed - implementing fallback strategy]")) in H.
  change ("[" ++ b ++ " generation failed - implementing fallback strategy]")%string
    with (String "[" (b ++ " generation failed - implementing fallback strategy]")) in H.
  injection H as H. exact (string_app_inv_tail _ _ _ H).
Qed.

(** C3.  In every world, for every order in which the worker threads
    finish and every list of tasks, [gather] returns: position by position
    it holds what that task's own call hands over, so a call that raises
    leaves the results of the other tasks as they are.  A task whose
    completion call raises hands over the bracketed text
    "[<task name> generation failed - implementing fallback strategy]": it
    contains the name of the task, and no task of another name gets the
    same text.  And when the console accepts every write, the whole run
    returns a package whatever the completion calls do: phase 2 is issued
    on the results of phase 1 and the package carries the results of all
    nine tasks. *)
Theorem task_failure_is_contained (w : World) :
  (forall schedule tasks e,
     exists e', gather w schedule tasks e
                = (Ok (map (call_result w (progress_tracker e)) tasks), e'))
  /\ (forall tr t x,
        completion w (prompt t) (max_tokens t) = Raise x ->
        call_result w tr t
        = ("[" ++ task_name t
           ++ " generation failed - implementing fallback strategy]")%string
        /\ Text.contains (task_name t) (call_result w tr t) = true
        /\ forall t', call_result w tr t = call_result w tr t' ->
                      completion w (prompt t') (max_tokens t') = Raise x ->
                      task_name t' = task_name t)
  /\ ((forall msg, console w msg = Ok tt) ->
      forall schedule1 schedule2 job company description job_url e,
        exists p e',
          generate_sophisticated_application w schedule1 schedule2 job company
            description job_url e = (Ok p, e')
          /\ carries p (research_of w company job description)
               (content_of w company job description)).
Proof.
  split; [| split].
  - intros schedule tasks e.
    destruct (gather_run w schedule tasks e) as (e' & H & _). now exists e'.
  - intros tr t x Hx.
    pose proof (failed_call_result w tr t x Hx) as E.
    split; [exact E |]. split.
    + rewrite E. unfold fallback_text.
      exact (contains_middle (task_name t) "["
               " generation failed - implementing fallback strategy]").
    + intros t' Heq Hx'.
      rewrite E, (failed_call_result w tr t' x Hx') in Heq.
      symmetry. exact (fallback_text_inj _ _ Heq).
  - intros Hc schedule1 schedule2 job company description job_url e.
    now apply generate_ok.
Qed.

Lemma task_failure_is_contained_witness :
  (forall msg, console Samples.one_task_fails msg = Ok tt)
  /\ exists p e',
       generate_sophisticated_application Samples.one_task_fails [3; 1; 0; 2]%nat []
         "ML Engineer" "Acme" "Build ML systems" EmptyString new_engine = (Ok p, e')
       /\ competitive_analysis p
          = "[competitive_analysis generation failed - implementing fallback strategy]"
       /\ company_intelligence p = "Answer to company"
       /\ technical_alignment p = "Answer to technical_alignment"
       /\ strategic_positioning p = "Answer to strategic_positioning"
       /\ cover_letter p = "Answer to cover_letter"
       /\ career_narrative p = "Answer to career_narrative".
Proof.
  assert (Hc : forall msg, console Samples.one_task_fails msg = Ok tt)
    by (intros msg; reflexivity).
  split; [exact Hc |].
  destruct (proj2 (proj2 (task_failure_is_contained Samples.one_task_fails)) Hc
              [3; 1; 0; 2]%nat [] "ML Engineer" "Acme" "Build ML systems" EmptyString
              new_engine)
    as (p & e' & E & C1 & C2 & C3 & C4 & C5 & _ & _ & _ & C9).
  exists p, e'. split; [exact E |].
  rewrite C1, C2, C3, C4, C5, C9.
  repeat split; vm_compute; reflexivity.
Defined.

End ParallelFacts.

(** ** Application engine: mode selection and fallback *)

Module EngineFacts.

Import Effects Engine Props.

Ltac run :=
  unfold mbind, mret, SE_bind, SE_ret, bind, ret, throw, lift, try_except in *.

Lemma print_run (line : string) (e : ApplicationEngine) :
  print line e = (Ok tt, printing [line] e).
Proof. reflexivity. Qed.

Lemma printing_printing (l1 l2 : list string) (e : ApplicationEngine) :
  printing l2 (printing l1 e) = printing (l1 ++ l2) e.
Proof. unfold printing; cbn. now rewrite <- List.app_assoc. Qed.

Lemma parallel_mode_run (w : World) (d : JobData) (e : ApplicationEngine) :
  _process_with_parallel_ai_engine w d e
  = match parallel_attempt w d
            (printing [ "USING SOPHISTICATED PARALLEL AI MODE - Maximum quality + speed" ] e)
    with
    | (Ok p, e1) => (Ok p, e1)
    | (Raise x, e1) =>
        _process_with_ai_engine w d
          (printing [ ("Parallel AI processing failed: " ++ exn_text x)%string;
                      "Falling back to standard AI mode..." ] e1)
    end.
Proof.
  unfold _process_with_parallel_ai_engine. run. rewrite print_run.
  destruct (parallel_attempt w d _) as [[p | x] e1]; [reflexivity |].
  unfold parallel_fallback. run. rewrite !print_run, printing_printing. reflexivity.
Qed.

Lemma process_with_job_data (w : World) (d : JobData) (e : ApplicationEngine)
    (job_url company_name job_title : option string) :
  nonempty d = true ->
  process_job_application w job_url (Some d) company_name job_title e
  = (let r := if ai_mode e && parallel_mode e then _process_with_parallel_ai_engine w d e
              else if ai_mode e then _process_with_ai_engine w d e
              else _process_with_template_mode w d e in
     (as_result (fst r), snd r)).
Proof.
  intros Hd. unfold process_job_application, gather_job_data, is_falsy. run.
  rewrite Hd. cbn beta iota. rewrite Hd. cbn [negb].
  destruct (ai_mode e), (parallel_mode e); cbn [andb fst snd];
    match goal with |- context [?f w d e] => destruct (f w d e) as [[p | x] e'] end;
    reflexivity.
Qed.

(** C1, where the code departs from it.  On the engine that [__init__]
    builds from a key, the parallel attempt raises when the console refuses
    a progress line, and also when the engine is called while an event loop
    is running.  In both cases the caller prints that it falls back to the
    standard AI mode and reads [self.ai_engine], which [__init__] never
    assigns: the run ends with [AttributeError].  TEMPLATE mode is not
    entered, although in the same world it returns a package, and no
    aggregated error is raised. *)
Theorem no_template_retry :
  init Samples.engine_world (Some "sk-test") "applications" = Ok Samples.keyed_engine
  /\ init Samples.engine_world None "applications" = Ok Samples.keyless_engine
  /\ fst (parallel_attempt Samples.engine_world Samples.acme_job
            (printing [ "USING SOPHISTICATED PARALLEL AI MODE - Maximum quality + speed" ]
               Samples.keyed_engine))
     = Raise (ExternalError "console closed")
  /\ fst (process_job_application Samples.engine_world None None
            (Some "Acme") (Some "ML Engineer") Samples.keyed_engine)
     = Raise (AttributeError "ai_engine")
  /\ printed (snd (process_job_application Samples.engine_world None None
                     (Some "Acme") (Some "ML Engineer") Samples.keyed_engine))
     = [ "AI Job Hunt Commander ready - AI-POWERED MODE";
         "USING SOPHISTICATED PARALLEL AI MODE - Maximum quality + speed";
         "Parallel AI processing failed: console closed";
         "Falling back to standard AI mode...";
         "USING AI-POWERED MODE - Deep research in progress..." ]
  /\ raises (fst (_process_with_template_mode Samples.engine_world Samples.acme_job
                    Samples.keyless_engine)) = false
  /\ init Samples.inside_event_loop (Some "sk-test") "applications"
     = Ok Samples.keyed_engine
  /\ fst (parallel_attempt Samples.inside_event_loop Samples.acme_job
            (printing [ "USING SOPHISTICATED PARALLEL AI MODE - Maximum quality + speed" ]
               Samples.keyed_engine))
     = Raise (RuntimeError "Cannot run the event loop while another loop is running")
  /\ process_job_application Samples.inside_event_loop None None
       (Some "Acme") (Some "ML Engineer") Samples.keyed_engine
     = (Raise (AttributeError "ai_engine"),
        printing
          [ "USING SOPHISTICATED PARALLEL AI MODE - Maximum quality + speed";
            "Parallel AI processing failed: Cannot run the event loop while another loop is running";
            "Falling back to standard AI mode...";
            "USING AI-POWERED MODE - Deep research in progress..." ]
          Samples.keyed_engine).
Proof. repeat split; vm_compute; reflexivity. Qed.

(** *** Template mode *)






Lemma engine_world_ok : template_world_ok Samples.engine_world.
Proof.
  unfold template_world_ok; cbn.
  repeat split; intros; try reflexivity; eexists; reflexivity.
Qed.



End EngineFacts.

(** ** Scoring: further properties of the rule-based and AI paths *)

Module FilterMore.

Import Job Filter Props FilterFacts.
Local Open Scope Q_scope.

Lemma growth_values (job_text : string) :
  let v := _score_growth_potential job_text in v = 9.0 \/ v = 7.0 \/ v = 5.0.
Proof.
  unfold _score_growth_potential; cbv zeta.
  destruct (3 <=? _)%nat; [now left |].
  destruct (1 <=? _)%nat; [now right; left | now right; right].
Qed.

(** X1.  Every dimension score of the rule-based path stays in the range
    its heuristic can produce: technical in [0, 10], transition one of 3, 6,
    8, 9, culture in [1, 10], growth one of 5, 7, 9, compensation one of 2,
    4, 5, 6, 8; and the confidence is always 0.6.  The path returns such a
    result unless the salary text holds a digit run too long for [int]. *)
Theorem fallback_dimensions_in_range (job : JobOpportunity) :
  match _fallback_score_opportunity job with
  | Ok r =>
      0 <= technical_score r <= 10
      /\ (transition_score r == 3 \/ transition_score r == 6
          \/ transition_score r == 8 \/ transition_score r == 9)
      /\ 1 <= culture_score r <= 10
      /\ (growth_score r == 5 \/ growth_score r == 7 \/ growth_score r == 9)
      /\ (compensation_score r == 2 \/ compensation_score r == 4
          \/ compensation_score r == 5 \/ compensation_score r == 6
          \/ compensation_score r == 8)
      /\ confidence_level r == 0.6
  | Raise _ => readable_salary (salary_range job) = false
  end.
Proof.
  destruct (_fallback_score_opportunity job) as [r | x] eqn:Hr;
    [| exact (fallback_raise_unreadable job x Hr)].
  destruct (fallback_fields job r Hr) as (Et & Etr & Ec & Eg & Eco & Ecf & _).
  rewrite Et, Etr, Ec, Eg, Ecf.
  split; [apply technical_range |].
  split.
  { destruct (transition_values (job_text_of job) (title job)) as [E | [E | [E | E]]];
      cbv zeta in E; rewrite E; [left | right; right; right | right; right; left | right; left];
      reflexivity. }
  split; [apply culture_range |].
  split.
  { destruct (growth_values (job_text_of job)) as [E | [E | E]];
      cbv zeta in E; rewrite E; [right; right | right; left | left]; reflexivity. }
  split; [| reflexivity].
  assert (Hread : readable_salary (salary_range job) = true).
  { destruct (readable_salary (salary_range job)) eqn:E; [reflexivity |].
    rewrite (compensation_raises _ (job_text_of job) E) in Eco. discriminate. }
  destruct (compensation_returns (salary_range job) (job_text_of job) Hread)
    as (v & Ev & Hv).
  rewrite Ev in Eco. injection Eco as <-.
  destruct Hv as [E | [E | [E | [E | E]]]]; rewrite E;
    [ right; right; left | right; right; right; right | right; right; right; left
    | right; left | left ]; reflexivity.
Qed.

Lemma filter_none {A : Type} (f : A -> bool) (l : list A) :
  Forall (fun x => f x = false) l -> List.filter f l = [].
Proof.
  induction 1 as [| x l Hx _ IH]; [reflexivity |].
  cbn [List.filter]. now rewrite Hx.
Qed.

(** X2.  A salary text in which no run of digits (commas removed) has four
    digits or more, such as one written with a "k" suffix, gets the neutral
    compensation score 5.0, as a missing salary does. *)
Theorem salary_without_long_number (salary job_text : string) :
  Forall (fun num => (String.length num < 4)%nat)
         (Text.findall_digits (Text.remove_char "," salary)) ->
  _score_compensation (Some salary) job_text = Ok 5.0
  /\ _score_compensation None job_text = Ok 5.0.
Proof.
  intros H. split; [| reflexivity].
  unfold _score_compensation, salary_numbers. destruct salary as [| c s]; [reflexivity |].
  rewrite filter_none; [reflexivity |].
  eapply List.Forall_impl; [| exact H].
  intros num Hn; cbn beta in *. apply Nat.leb_gt. exact Hn.
Qed.

Lemma salary_without_long_number_witness :
  Forall (fun num => (String.length num < 4)%nat)
         (Text.findall_digits (Text.remove_char "," "$150k - $220k"))
  /\ _score_compensation (Some "$150k - $220k") "any text" = Ok 5.0.
Proof.
  assert (H : Forall (fun num => (String.length num < 4)%nat)
                     (Text.findall_digits (Text.remove_char "," "$150k - $220k"))).
  { vm_compute. repeat constructor. }
  split; [exact H |].
  exact (proj1 (salary_without_long_number "$150k - $220k" "any text" H)).
Defined.

(** X3.  The AI path degrades to the rule-based scoring: when the
    completion call raises, when the message has no content, when
    [json.loads] raises on the braced part of the response, or when the
    object it reads there has a score that cannot be multiplied by its
    weight, [score_opportunity] gives exactly what the rule-based scoring
    gives for that job. *)
Theorem ai_failure_gives_rule_based_result (w : World) (self : IntelligentFilter)
    (job : JobOpportunity) :
  raises (chat_completion w job) = true
  \/ chat_completion w job = Ok None
  \/ (exists response,
        chat_completion w job = Ok (Some response)
        /\ (raises (json_loads w (json_text response)) = true
            \/ exists d, json_loads w (json_text response) = Ok d /\ malformed d)) ->
  score_opportunity w self job = _fallback_score_opportunity job.
Proof.
  intros H. unfold score_opportunity.
  destruct (negb (fallback_mode self) && client self); [| reflexivity].
  unfold _ai_score_opportunity.
  assert (Hp : forall content,
             chat_completion w job = Ok content ->
             parsed_result w content = None).
  { intros content Hc. rewrite Hc in H.
    destruct H as [H | [H | (response & H & Hj)]]; [discriminate | |].
    - injection H as ->. reflexivity.
    - injection H as ->. cbn [parsed_result].
      destruct Hj as [Hj | (d & Hj & Hd)].
      + destruct (json_loads w (json_text response)); [discriminate | reflexivity].
      + rewrite Hj.
        destruct Hd as [E | [E | [E | [E | E]]]]; rewrite E;
          repeat match goal with
                 | |- context [match score_operand ?v with _ => _ end] =>
                     destruct (score_operand v)
                 end; reflexivity. }
  destruct (chat_completion w job) as [content | x] eqn:Hc; [| reflexivity].
  unfold _parse_ai_response. rewrite (Hp content eq_refl).
  now destruct (_fallback_score_opportunity job).
Qed.

Lemma ai_failure_gives_rule_based_result_witness :
  (exists d,
     json_loads (Samples.filter_world Samples.object_text Samples.ai_data_text)
       (json_text ("Here is my analysis: " ++ Samples.object_text ++ " Good luck."))
     = Ok d /\ malformed d)
  /\ score_opportunity (Samples.filter_world Samples.object_text Samples.ai_data_text)
       {| fallback_mode := false; client := true |} Samples.five_keywords
     = _fallback_score_opportunity Samples.five_keywords.
Proof.
  assert (H : exists d,
             json_loads (Samples.filter_world Samples.object_text Samples.ai_data_text)
               (json_text ("Here is my analysis: " ++ Samples.object_text ++ " Good luck."))
             = Ok d /\ malformed d).
  { exists Samples.ai_data_text. split; [vm_compute; reflexivity | left; reflexivity]. }
  split; [exact H |].
  apply ai_failure_gives_rule_based_result. right; right.
  exact (ex_intro _ _ (conj eq_refl (or_intror H))).
Defined.

Lemma In_firstn_any {A : Type} (n : nat) (l : list A) (x : A) :
  In x (firstn n l) -> In x l.
Proof.
  revert n; induction l as [| y l IH]; intros [| n]; simpl; try tauto.
  intros H; destruct H as [E | H]; [now left | right; eauto].
Qed.

(** X4.  The matched keywords of the rule-based result are at most ten,
    each of them is one of the AI or infrastructure keywords and occurs in
    the lower-cased job text; each red flag is one of the red-flag keywords
    and occurs in that text.  The path returns such a result unless the
    salary text holds a digit run too long for [int]. *)
Theorem fallback_keywords_come_from_text (job : JobOpportunity) :
  match _fallback_score_opportunity job with
  | Ok r =>
      (List.length (keywords_matched r) <= 10)%nat
      /\ Forall (fun kw => In kw (ai_keywords ++ infrastructure_keywords)%list
                           /\ Text.contains kw (job_text_of job) = true)
                (keywords_matched r)
      /\ Forall (fun flag => In flag red_flag_keywords
                             /\ Text.contains flag (job_text_of job) = true)
                (red_flags r)
  | Raise _ => readable_salary (salary_range job) = false
  end.
Proof.
  destruct (_fallback_score_opportunity job) as [r | x] eqn:Hr;
    [| exact (fallback_raise_unreadable job x Hr)].
  destruct (fallback_fields job r Hr) as (_ & _ & _ & _ & _ & _ & _ & _ & Ek & Ef).
  rewrite Ek, Ef. split; [apply List.firstn_le_length |]. split.
  - apply List.Forall_forall. intros kw Hkw.
    apply In_firstn_any in Hkw. apply List.filter_In in Hkw. exact Hkw.
  - apply List.Forall_forall. intros flag Hf.
    apply List.filter_In in Hf. exact Hf.
Qed.

(** *** Ranking as a stable sort *)

Section StableSort.

Context {A : Type} (key : A -> Q).

Lemma insert_by_filter (k : Q) (x : A) (l : list A) :
  List.filter (fun y => Qeq_bool (key y) k) (insert_by key x l)
  = List.filter (fun y => Qeq_bool (key y) k) (x :: l).
Proof.
  induction l as [| y l IH]; [reflexivity |].
  cbn [insert_by]. destruct (Qle_bool (key x) (key y)) eqn:E; [reflexivity |].
  assert (Hlt : key y < key x).
  { apply Qnot_le_lt. intros L. apply Qle_bool_iff in L. congruence. }
  cbn [List.filter] in *. rewrite IH.
  destruct (Qeq_bool (key y) k) eqn:Ey; destruct (Qeq_bool (key x) k) eqn:Ex;
    try reflexivity.
  apply Qeq_bool_iff in Ey, Ex. lra.
Qed.

Lemma sorted_by_filter (k : Q) (l : list A) :
  List.filter (fun y => Qeq_bool (key y) k) (sorted_by key l)
  = List.filter (fun y => Qeq_bool (key y) k) l.
Proof.
  induction l as [| x l IH]; [reflexivity |].
  cbn [sorted_by]. rewrite insert_by_filter. cbn [List.filter]. now rewrite IH.
Qed.

Lemma sorted_by_fixed (l : list A) :
  StronglySorted (fun a b => key a <= key b) l -> sorted_by key l = l.
Proof.
  induction 1 as [| x l Hs IH Hall]; [reflexivity |].
  cbn [sorted_by]. rewrite IH.
  destruct l as [| y l']; [reflexivity |].
  cbn [insert_by]. apply List.Forall_inv in Hall.
  apply Qle_bool_iff in Hall. now rewrite Hall.
Qed.

End StableSort.

Lemma Qeq_bool_opp (a q : Q) : Qeq_bool (- a) (- q) = Qeq_bool a q.
Proof.
  destruct (Qeq_bool a q) eqn:E.
  - apply Qeq_bool_iff in E. apply Qeq_bool_iff. lra.
  - destruct (Qeq_bool (- a) (- q)) eqn:E'; [| reflexivity].
    apply Qeq_bool_iff in E'. assert (H : a == q) by lra.
    apply Qeq_bool_iff in H. congruence.
Qed.

(** X5.  [rank_opportunities] is a stable sort by the adjusted score the
    code computes in float arithmetic: its output is a permutation of its
    input in descending order of adjusted score, pairs of equal adjusted
    score keep the order they had in the input, and ranking a ranked list
    changes nothing.  Rounding decides ties: an overall score of 7.4 ranks
    before an overall score of 7.1 with the transition boost of 0.3,
    whichever comes first in the input. *)
Theorem rank_is_a_stable_sort (pairs : list (JobOpportunity * ScoringResult)) :
  Permutation pairs (rank_opportunities pairs)
  /\ StronglySorted (fun a b => adjusted_score b <= adjusted_score a)
       (rank_opportunities pairs)
  /\ (forall q,
        List.filter (fun p => Qeq_bool (adjusted_score p) q)
                    (rank_opportunities pairs)
        = List.filter (fun p => Qeq_bool (adjusted_score p) q) pairs)
  /\ rank_opportunities (rank_opportunities pairs) = rank_opportunities pairs
  /\ adjusted_score (Samples.older_job, Samples.boosted 7.1)
     < adjusted_score (Samples.newer_job, Samples.score_with 7.4 [])
  /\ rank_opportunities [ (Samples.older_job, Samples.boosted 7.1);
                          (Samples.newer_job, Samples.score_with 7.4 []) ]
     = [ (Samples.newer_job, Samples.score_with 7.4 []);
         (Samples.older_job, Samples.boosted 7.1) ].
Proof.
  destruct (rank_descending pairs) as [Hperm Hsorted].
  split; [exact Hperm |]. split; [exact Hsorted |]. split; [| split; [| split]].
  - intros q.
    assert (Hext : forall p : JobOpportunity * ScoringResult,
              Qeq_bool (adjusted_score p) q = Qeq_bool (ranking_key p) (- q)).
    { intros p. rewrite ranking_key_adjusted. now rewrite Qeq_bool_opp. }
    rewrite !(List.filter_ext _ _ Hext).
    apply sorted_by_filter.
  - unfold rank_opportunities. apply sorted_by_fixed, sorted_by_sorted.
  - vm_compute. reflexivity.
  - vm_compute. reflexivity.
Qed.

(** *** The text handed to the JSON parser *)

Lemma find_char_from_skip (c : ascii) (pre rest : string) (i : Z) :
  no_char c pre ->
  Text.find_char_from c (pre ++ String c rest) i
  = (i + Z.of_nat (String.length pre))%Z.
Proof.
  revert i. induction pre as [| a pre IH]; intros i Hno.
  - change (EmptyString ++ String c rest)%string with (String c rest).
    cbn [Text.find_char_from String.length]. rewrite Ascii.eqb_refl. lia.
  - destruct Hno as [Ha Hno].
    change (String a pre ++ String c rest)%string
      with (String a (pre ++ String c rest)).
    cbn [Text.find_char_from String.length].
    destruct (Ascii.eqb_spec a c) as [E | _]; [contradiction |].
    rewrite IH by exact Hno. lia.
Qed.

Lemma rfind_char_from_none (c : ascii) (post : string) (i last : Z) :
  no_char c post -> Text.rfind_char_from c post i last = last.
Proof.
  revert i. induction post as [| a post IH]; intros i Hno; [reflexivity |].
  destruct Hno as [Ha Hno]. cbn [Text.rfind_char_from].
  destruct (Ascii.eqb_spec a c) as [E | _]; [contradiction |].
  now apply IH.
Qed.

Lemma rfind_char_from_last (c : ascii) (s post : string) (i last : Z) :
  no_char c post ->
  Text.rfind_char_from c (s ++ String c post) i last
  = (i + Z.of_nat (String.length s))%Z.
Proof.
  revert i last. induction s as [| a s IH]; intros i last Hno.
  - change (EmptyString ++ String c post)%string with (String c post).
    cbn [Text.rfind_char_from String.length]. rewrite Ascii.eqb_refl.
    rewrite rfind_char_from_none by exact Hno. lia.
  - change (String a s ++ String c post)%string with (String a (s ++ String c post)).
    cbn [Text.rfind_char_from String.length]. rewrite IH by exact Hno. lia.
Qed.

Lemma substring_prefix (mid post : string) :
  String.substring 0 (String.length mid) (mid ++ post) = mid.
Proof.
  induction mid as [| b mid IH]; simpl.
  - now destruct post.
  - now rewrite IH.
Qed.

Lemma substring_middle (pre mid post : string) :
  String.substring (String.length pre) (String.length mid) (pre ++ mid ++ post) = mid.
Proof.
  induction pre as [| a pre IH].
  - exact (substring_prefix mid post).
  - exact IH.
Qed.

Lemma string_app_assoc (a b c : string) : ((a ++ b) ++ c = a ++ (b ++ c))%string.
Proof.
  induction a as [| x a IH]; [reflexivity |].
  change (String x ((a ++ b) ++ c) = String x (a ++ (b ++ c)))%string.
  now rewrite IH.
Qed.

(** X6.  The text [_parse_ai_response] hands to the JSON parser runs from
    the first opening brace of the response to its last closing brace: for
    a response made of a prefix without an opening brace, an object in
    braces, and a suffix without a closing brace, it is exactly the object,
    whatever surrounds it. *)
Theorem json_text_is_the_braced_object (pre body post : string) :
  no_char "{" pre ->
  no_char "}" post ->
  let response := (pre ++ String "{" (body ++ String "}" post))%string in
  Text.slice response (Text.find_char "{" response)
             (Text.rfind_char "}" response + 1)
  = String "{" (body ++ String "}" EmptyString).
Proof.
  intros Hpre Hpost response.
  set (object := String "{" (body ++ String "}" EmptyString)).
  assert (Hresp : response = (pre ++ object ++ post)%string).
  { subst response object. f_equal.
    change (String "{" (body ++ String "}" EmptyString) ++ post)%string
      with (String "{" ((body ++ String "}" EmptyString) ++ post)).
    now rewrite string_app_assoc. }
  assert (Hfind : Text.find_char "{" response = Z.of_nat (String.length pre)).
  { subst response. unfold Text.find_char.
    rewrite find_char_from_skip by exact Hpre. lia. }
  assert (Hrfind : Text.rfind_char "}" response
                   = Z.of_nat (String.length pre + String.length body + 1)).
  { subst response. unfold Text.rfind_char.
    change (pre ++ String "{" (body ++ String "}" post))%string
      with (pre ++ (String "{" EmptyString ++ (body ++ String "}" post)))%string.
    rewrite <- !string_app_assoc.
    rewrite rfind_char_from_last by exact Hpost.
    rewrite !string_length_app. cbn [String.length]. lia. }
  assert (Hlen : String.length response
                 = (String.length pre + String.length object + String.length post)%nat).
  { rewrite Hresp, !string_length_app. lia. }
  assert (Hobj : String.length object = (String.length body + 2)%nat).
  { subst object. cbn [String.length]. rewrite string_length_app.
    cbn [String.length]. lia. }
  unfold Text.slice, Text.slice_bound. rewrite Hfind, Hrfind, Hlen, Hobj.
  destruct (Z.ltb_spec (Z.of_nat (String.length pre)) 0) as [L | _]; [lia |].
  destruct (Z.ltb_spec (Z.of_nat (String.length pre + String.length body + 1) + 1) 0)
    as [L | _]; [lia |].
  rewrite !Z.min_l by lia.
  destruct (Z.ltb_spec (Z.of_nat (String.length pre))
              (Z.of_nat (String.length pre + String.length body + 1) + 1))
    as [_ | G]; [| lia].
  rewrite Nat2Z.id.
  replace (Z.to_nat (Z.of_nat (String.length pre + String.length body + 1) + 1
                     - Z.of_nat (String.length pre)))
    with (String.length object) by (rewrite Hobj; lia).
  rewrite Hresp. apply substring_middle.
Qed.

Lemma json_text_is_the_braced_object_witness :
  no_char "{" "Here is my analysis: "
  /\ no_char "}" " I hope this helps."
  /\ Text.slice "Here is my analysis: {x} I hope this helps."
       (Text.find_char "{" "Here is my analysis: {x} I hope this helps.")
       (Text.rfind_char "}" "Here is my analysis: {x} I hope this helps." + 1)
     = "{x}".
Proof.
  assert (H1 : no_char "{" "Here is my analysis: ")
    by (cbn; repeat split; discriminate).
  assert (H2 : no_char "}" " I hope this helps.")
    by (cbn; repeat split; discriminate).
  split; [exact H1 |]. split; [exact H2 |].
  exact (json_text_is_the_braced_object "Here is my analysis: " "x"
           " I hope this helps." H1 H2).
Defined.

End FilterMore.

(** * Discovery and persistence: further properties of the code *)

Module DiscoveryMore.

Import Job Discovery Props DiscoveryFacts.

(** *** The job id *)

Lemma le_bytes_length (n : nat) (x : Z) : List.length (MD5.le_bytes n x) = n.
Proof. unfold MD5.le_bytes. now rewrite List.length_map, List.length_seq. Qed.

Lemma le_bytes_range (n : nat) (x : Z) :
  Forall (fun b => (0 <= b < 256)%Z) (MD5.le_bytes n x).
Proof.
  unfold MD5.le_bytes. apply List.Forall_forall. intros b Hb.
  apply List.in_map_iff in Hb as (i & <- & _).
  change 255%Z with (Z.ones 8). rewrite Z.land_ones by lia.
  change (2 ^ 8)%Z with 256%Z. apply Z.mod_pos_bound. lia.
Qed.

Lemma digest_length (msg : list Z) : List.length (MD5.digest msg) = 16%nat.
Proof.
  unfold MD5.digest. cbv zeta. rewrite !List.length_app, !le_bytes_length. reflexivity.
Qed.

Lemma digest_range (msg : list Z) : Forall (fun b => (0 <= b < 256)%Z) (MD5.digest msg).
Proof.
  unfold MD5.digest. cbv zeta.
  repeat (apply List.Forall_app; split); apply le_bytes_range.
Qed.

Lemma hex_length (bytes : list Z) :
  String.length (MD5.hex bytes) = (2 * List.length bytes)%nat.
Proof.
  induction bytes as [| b bytes IH]; [reflexivity |].
  cbn [MD5.hex String.length List.length]. rewrite IH. lia.
Qed.

Lemma hex_digit_is_hex (n : Z) : (0 <= n < 16)%Z -> is_hex (MD5.hex_digit n) = true.
Proof.
  intros Hn. rewrite <- (Z2Nat.id n) by lia.
  assert (Hm : (Z.to_nat n < 16)%nat) by lia.
  revert Hm. generalize (Z.to_nat n) as m. intros m Hm.
  do 16 (destruct m as [| m]; [reflexivity |]).
  exfalso. lia.
Qed.

Lemma hex_all_hex (bytes : list Z) :
  Forall (fun b => (0 <= b < 256)%Z) bytes -> all_chars is_hex (MD5.hex bytes) = true.
Proof.
  induction 1 as [| b bytes Hb _ IH]; [reflexivity |].
  cbn [MD5.hex all_chars]. rewrite IH, !hex_digit_is_hex; [reflexivity | |].
  - apply Z.mod_pos_bound. lia.
  - split; [apply Z.div_pos; lia | apply Z.div_lt_upper_bound; lia].
Qed.

Lemma substring_length (n : nat) (s : string) :
  (n <= String.length s)%nat -> String.length (String.substring 0 n s) = n.
Proof.
  revert s. induction n as [| n IH]; intros s Hn.
  - destruct s; reflexivity.
  - destruct s as [| c s]; cbn [String.length] in Hn; [lia |].
    cbn [String.substring String.length]. rewrite IH; [reflexivity | lia].
Qed.

Lemma substring_all_chars (p : ascii -> bool) (n : nat) (s : string) :
  all_chars p s = true -> all_chars p (String.substring 0 n s) = true.
Proof.
  revert s. induction n as [| n IH]; intros s Hs.
  - destruct s; reflexivity.
  - destruct s as [| c s]; [reflexivity |].
    cbn [all_chars] in Hs. apply andb_prop in Hs as [Hc Hs].
    cbn [String.substring all_chars]. now rewrite Hc, IH.
Qed.

Lemma job_id_is_prefix (title company source : string) :
  _generate_job_id title company source
  = String.substring 0 12 (MD5.hexdigest (unique_string title company source)).
Proof.
  unfold _generate_job_id, Text.slice, MD5.hexdigest.
  rewrite hex_length, digest_length. reflexivity.
Qed.

(** X7.  Whatever the title, company and source are, the job id is made of
    exactly twelve characters, each of them a lower-case hexadecimal
    digit. *)
Theorem job_id_is_twelve_hex_digits (title company source : string) :
  String.length (_generate_job_id title company source) = 12%nat
  /\ all_chars is_hex (_generate_job_id title company source) = true.
Proof.
  rewrite job_id_is_prefix. unfold MD5.hexdigest. split.
  - apply substring_length. rewrite hex_length, digest_length. lia.
  - apply substring_all_chars, hex_all_hex, digest_range.
Qed.

(** *** Deduplication *)

Lemma dedup_loop_fresh (jobs : list JobOpportunity) (st : dedup_state) :
  List.NoDup (map dedup_key jobs) ->
  (forall j, In j jobs -> seen_jobs st !! dedup_key j = None) ->
  exists st', dedup_loop st jobs = Ok st'
              /\ unique_jobs st' = (unique_jobs st ++ jobs)%list.
Proof.
  revert st. induction jobs as [| job jobs IH]; intros st Hnd Hfresh.
  - exists st. now rewrite List.app_nil_r.
  - cbn [map] in Hnd. apply List.NoDup_cons_iff in Hnd as [Hnotin Hnd].
    cbn [dedup_loop]. unfold dedup_step.
    rewrite (Hfresh job (or_introl eq_refl)).
    destruct (IH {| seen_jobs := <[dedup_key job := job]> (seen_jobs st);
                    unique_jobs := (unique_jobs st ++ [job])%list |} Hnd)
      as (st' & Hloop & Hout).
    { intros j Hj. cbn [seen_jobs].
      rewrite lookup_insert_ne; [apply Hfresh; now right |].
      intros E. apply Hnotin. rewrite E. now apply List.in_map. }
    exists st'. split; [exact Hloop |].
    rewrite Hout. cbn [unique_jobs]. now rewrite <- List.app_assoc.
Qed.

Lemma dedup_distinct_keys (jobs : list JobOpportunity) :
  List.NoDup (map dedup_key jobs) -> _deduplicate_jobs jobs = Ok jobs.
Proof.
  intros Hnd. unfold _deduplicate_jobs.
  destruct (dedup_loop_fresh jobs {| seen_jobs := ∅; unique_jobs := [] |} Hnd)
    as (st' & -> & Hout).
  { intros j _. apply lookup_empty. }
  now rewrite Hout.
Qed.

Lemma dedup_result_distinct (jobs : list JobOpportunity) :
  exists out, _deduplicate_jobs jobs = Ok out /\ List.NoDup (map dedup_key out)
              /\ (forall r, In r out -> In r jobs).
Proof.
  destruct (dedup_loop_inv jobs [] _ dedup_inv_empty)
    as (st & Hloop & _ & _ & I3 & _ & I5).
  exists (unique_jobs st). unfold _deduplicate_jobs. now rewrite Hloop.
Qed.

(** X8.  A list in which no two records share a similarity key comes back
    from the deduplication unchanged, in the same order; and running the
    deduplication on its own result changes nothing. *)
Theorem dedup_keeps_distinct_records (jobs : list JobOpportunity) :
  (List.NoDup (map dedup_key jobs) -> _deduplicate_jobs jobs = Ok jobs)
  /\ (forall out, _deduplicate_jobs jobs = Ok out -> _deduplicate_jobs out = Ok out).
Proof.
  split; [apply dedup_distinct_keys |].
  intros out Hout. destruct (dedup_result_distinct jobs) as (out' & Hout' & Hnd & _).
  rewrite Hout in Hout'. injection Hout' as <-. now apply dedup_distinct_keys.
Qed.

Lemma dedup_keeps_distinct_records_witness :
  _deduplicate_jobs [ Samples.older_job; Samples.other_posting ]
  = Ok [ Samples.older_job; Samples.other_posting ].
Proof.
  apply (proj1 (dedup_keeps_distinct_records [ Samples.older_job; Samples.other_posting ])).
  vm_compute.
  constructor; [simpl; intros [H | []]; discriminate |].
  constructor; [intros [] | constructor].
Defined.

(** *** Saving *)

Lemma ids_filter_in (id : string) (p : JobOpportunity -> bool) (db : table) :
  In id (ids (List.filter p db)) -> In id (ids db).
Proof.
  unfold ids. intros H. apply List.in_map_iff in H as (r & <- & Hr).
  apply List.filter_In in Hr as [Hr _]. now apply List.in_map.
Qed.

Lemma ids_filter_nodup (p : JobOpportunity -> bool) (db : table) :
  List.NoDup (ids db) -> List.NoDup (ids (List.filter p db)).
Proof.
  unfold ids. induction db as [| r db IH]; cbn [List.filter map]; [constructor |].
  intros Hnd. apply List.NoDup_cons_iff in Hnd as [Hnotin Hnd].
  destruct (p r); [| now apply IH].
  cbn [map]. constructor; [| now apply IH].
  intros Hin. apply Hnotin. now apply (ids_filter_in _ p).
Qed.

Lemma insert_nodup (row : JobOpportunity) (db : table) :
  List.NoDup (ids db) -> List.NoDup (ids (insert_or_replace row db)).
Proof.
  intros Hnd. unfold insert_or_replace, ids. rewrite List.map_app. cbn [map].
  apply nodup_snoc; [now apply ids_filter_nodup |].
  intros Hin. apply List.in_map_iff in Hin as (r & Hid & Hr).
  apply List.filter_In in Hr as [_ Hr]. rewrite Hid, String.eqb_refl in Hr. discriminate.
Qed.

Lemma rows_with_other (id : string) (row : JobOpportunity) (db : table) :
  id <> job_id row -> rows_with id (insert_or_replace row db) = rows_with id db.
Proof.
  intros Hid. unfold insert_or_replace, rows_with.
  rewrite List.filter_app. cbn [List.filter].
  destruct (String.eqb_spec (job_id row) id) as [E | _]; [now subst id |].
  rewrite List.app_nil_r.
  induction db as [| r db IH]; [reflexivity |].
  cbn [List.filter].
  destruct (String.eqb_spec (job_id r) (job_id row)) as [E | N]; cbn [negb List.filter].
  - destruct (String.eqb_spec (job_id r) id) as [E' | _]; [congruence | exact IH].
  - destruct (String.eqb (job_id r) id); [now rewrite IH | exact IH].
Qed.

Lemma save_job_nodup (io : outcome unit) (db : table) (job : JobOpportunity) :
  List.NoDup (ids db) -> List.NoDup (ids (fst (save_job io db job))).
Proof.
  intros Hnd. destruct io; cbn [save_job fst]; [now apply insert_nodup | exact Hnd].
Qed.

Lemma save_job_other (io : outcome unit) (db : table) (job : JobOpportunity) (id : string) :
  id <> job_id job -> rows_with id (fst (save_job io db job)) = rows_with id db.
Proof.
  intros Hid. destruct io; cbn [save_job fst]; [| reflexivity].
  apply rows_with_other. now rewrite row_of_job_id.
Qed.

Lemma save_job_stored (io : outcome unit) (db : table) (job : JobOpportunity) (id : string) :
  stored id db -> stored id (fst (save_job io db job)).
Proof.
  intros (row & Hin & Hid). destruct io; cbn [save_job fst]; [| now exists row].
  unfold insert_or_replace.
  destruct (String.eqb_spec id (job_id job)) as [E | N].
  - exists (row_of_job job). split; [apply List.in_app_iff; right; now left |].
    now rewrite row_of_job_id.
  - exists row. split; [| exact Hid].
    apply List.in_app_iff. left. apply List.filter_In. split; [exact Hin |].
    rewrite row_of_job_id, Hid.
    destruct (String.eqb_spec id (job_id job)); [contradiction | reflexivity].
Qed.

(** X9.  Saving a record, whether the statement succeeds or fails, keeps
    the primary key unique, leaves the rows of every other id as they
    were, and adds at most one row; a successful save stores exactly the
    row of the record, a failed one changes nothing and returns False. *)
Theorem save_keeps_primary_key (io : outcome unit) (db : table) (job : JobOpportunity) :
  List.NoDup (ids db) ->
  let db' := fst (save_job io db job) in
  List.NoDup (ids db')
  /\ (forall id, id <> job_id job -> rows_with id db' = rows_with id db)
  /\ (List.length db' <= S (List.length db))%nat
  /\ match io with
     | Ok _ => rows_with (job_id job) db' = [row_of_job job]
               /\ snd (save_job io db job) = true
     | Raise _ => db' = db /\ snd (save_job io db job) = false
     end.
Proof.
  intros Hnd db'. subst db'.
  split; [now apply save_job_nodup |].
  split; [intros id Hid; now apply save_job_other |].
  destruct io as [u | e]; cbn [save_job fst snd].
  - split.
    + unfold insert_or_replace. rewrite List.length_app. cbn [List.length].
      pose proof (List.filter_length_le
                    (fun r => negb (String.eqb (job_id r) (job_id (row_of_job job)))) db).
      lia.
    + split; [| reflexivity].
      rewrite <- (row_of_job_id job). apply rows_with_insert.
  - split; [lia | now split].
Qed.

Lemma save_keeps_primary_key_witness :
  List.NoDup (ids (fst (save_job (Ok tt) Samples.two_rows Samples.from_linkedin))).
Proof.
  apply (save_keeps_primary_key (Ok tt) Samples.two_rows Samples.from_linkedin).
  vm_compute.
  constructor; [simpl; intros [H | []]; discriminate |].
  constructor; [intros [] | constructor].
Defined.

(** *** Reading back *)

Lemma In_sort_rows (r : JobOpportunity) (l : list JobOpportunity) :
  In r (sort_rows l) <-> In r l.
Proof.
  split; intros H.
  - now apply (Permutation_in _ (Permutation_sym (sort_rows_perm l))).
  - now apply (Permutation_in _ (sort_rows_perm l)).
Qed.

(** X10.  After a successful save the record is found by a query for its
    status without a limit, and what is read back is the record itself
    unless its [ai_analysis] is an empty dict, which reads back as None.
    No query for another status returns a row with its id. *)
Theorem saved_job_is_read_back (db : table) (job : JobOpportunity) (u u' : unit) :
  let db' := fst (save_job (Ok u) db job) in
  In (row_of_job job) (get_jobs_by_status (Ok u') db' (status job) None)
  /\ (ai_analysis job <> Some [] -> row_of_job job = job)
  /\ (forall status_ limit r,
        In r (get_jobs_by_status (Ok u') db' status_ limit) ->
        job_id r = job_id job -> r = row_of_job job /\ status_ = status job).
Proof.
  intros db'. subst db'. cbn [save_job fst]. unfold get_jobs_by_status.
  split.
  { rewrite map_row_to_job. cbn [apply_limit]. apply In_sort_rows.
    apply List.filter_In. split.
    - unfold insert_or_replace. apply List.in_app_iff. right. now left.
    - apply String.eqb_refl. }
  split.
  { intros Hai. destruct job as [t c l sr jt so da ur ji de rq te rs ps ts st ai ap].
    unfold row_of_job. cbn [ai_analysis] in Hai. cbn.
    destruct ai as [[| p a] |]; [now destruct Hai | reflexivity | reflexivity]. }
  intros status_ limit r Hr Hid. rewrite map_row_to_job in Hr.
  apply apply_limit_In, In_sort_rows, List.filter_In in Hr as [Hin Hst].
  assert (Hrow : In r (rows_with (job_id (row_of_job job))
                         (insert_or_replace (row_of_job job) db))).
  { unfold rows_with. apply List.filter_In. split; [exact Hin |].
    rewrite row_of_job_id, Hid. apply String.eqb_refl. }
  rewrite rows_with_insert in Hrow. destruct Hrow as [<- | []].
  split; [reflexivity |]. apply String.eqb_eq in Hst. now symmetry.
Qed.

(** *** The top opportunities *)

Local Open Scope Q_scope.

Lemma order_top_true (a b : JobOpportunity) : order_top a b = true -> top_order a b.
Proof.
  unfold order_top, top_order.
  destruct (Qcompare_spec (relevance_score a) (relevance_score b)) as [E | L | G];
    intros H; try discriminate.
  - right. split; [assumption | now apply Qle_bool_iff].
  - left; assumption.
Qed.

Lemma order_top_false (a b : JobOpportunity) : order_top a b = false -> top_order b a.
Proof.
  unfold order_top, top_order.
  destruct (Qcompare_spec (relevance_score a) (relevance_score b)) as [E | L | G];
    intros H; try discriminate.
  - right. split; [now symmetry |].
    destruct (Qlt_le_dec (priority_score a) (priority_score b)) as [Hlt | Hle].
    + now apply Qlt_le_weak.
    + apply Qle_bool_iff in Hle. congruence.
  - left; assumption.
Qed.

Lemma top_order_trans (a b c : JobOpportunity) :
  top_order a b -> top_order b c -> top_order a c.
Proof.
  unfold top_order. intros [L1 | [E1 T1]] [L2 | [E2 T2]].
  - left; lra.
  - left; lra.
  - left; lra.
  - right; split; lra.
Qed.

Lemma insert_with_perm (before : JobOpportunity -> JobOpportunity -> bool)
    (x : JobOpportunity) (l : list JobOpportunity) :
  Permutation (x :: l) (insert_with before x l).
Proof.
  induction l as [| y l IH]; cbn [insert_with]; [reflexivity |].
  destruct (before x y); [reflexivity |].
  rewrite perm_swap. now apply perm_skip.
Qed.

Lemma sort_with_perm (before : JobOpportunity -> JobOpportunity -> bool)
    (l : list JobOpportunity) :
  Permutation l (sort_with before l).
Proof.
  induction l as [| x l IH]; cbn [sort_with]; [reflexivity |].
  rewrite <- insert_with_perm. now apply perm_skip.
Qed.

Lemma insert_top_sorted (x : JobOpportunity) (l : list JobOpportunity) :
  StronglySorted top_order l -> StronglySorted top_order (insert_with order_top x l).
Proof.
  induction 1 as [| y l Hs IH Hall]; cbn [insert_with].
  - constructor; constructor.
  - destruct (order_top x y) eqn:E.
    + apply order_top_true in E.
      constructor; [constructor; assumption |].
      constructor; [assumption |].
      eapply List.Forall_impl; [| exact Hall].
      intros b Hb. eapply top_order_trans; eassumption.
    + apply order_top_false in E.
      constructor; [assumption |].
      rewrite <- (insert_with_perm order_top x l). constructor; assumption.
Qed.

Lemma sort_top_sorted (l : list JobOpportunity) :
  StronglySorted top_order (sort_with order_top l).
Proof.
  induction l as [| x l IH]; cbn [sort_with]; [constructor | now apply insert_top_sorted].
Qed.

Lemma firstn_top_sorted (n : nat) (l : list JobOpportunity) :
  StronglySorted top_order l -> StronglySorted top_order (firstn n l).
Proof.
  intros H; revert n. induction H as [| y l Hs IH Hall]; intros [| n]; cbn [firstn];
    try constructor.
  - apply IH.
  - apply List.Forall_forall. intros b Hb.
    apply (proj1 (List.Forall_forall _ _) Hall). eapply In_firstn; eauto.
Qed.

Lemma bind_limit_In (limit : Z) (rows : list JobOpportunity) (r : JobOpportunity) :
  In r (bind_limit limit rows) -> In r rows.
Proof. unfold bind_limit. destruct (limit <? 0)%Z; [tauto | apply In_firstn]. Qed.

(** X11.  The top opportunities are stored records with status discovered
    and a positive relevance score, ordered by relevance descending and,
    among equal relevance, by priority score descending.  A limit that is
    not negative bounds their number, and a negative limit returns all of
    them.  A failed query gives the empty list. *)
Theorem top_opportunities_are_the_best (io : outcome unit) (db : table) (limit : Z) :
  let out := get_top_opportunities io db limit in
  Forall (fun r => In r db /\ status r = "discovered"%string /\ 0 < relevance_score r) out
  /\ StronglySorted top_order out
  /\ match io with
     | Raise _ => out = []
     | Ok _ =>
         if (limit <? 0)%Z then Permutation (List.filter is_top_candidate db) out
         else out = firstn (Z.to_nat limit) (sort_with order_top (List.filter is_top_candidate db))
              /\ (Z.of_nat (List.length out) <= limit)%Z
     end.
Proof.
  intros out. subst out. unfold get_top_opportunities.
  destruct io as [u | e].
  2: { split; [constructor |]. split; [constructor | reflexivity]. }
  rewrite map_row_to_job. split.
  { apply List.Forall_forall. intros r Hr. apply bind_limit_In in Hr.
    apply (Permutation_in _ (Permutation_sym (sort_with_perm _ _))) in Hr.
    apply List.filter_In in Hr as [Hin Hc]. split; [exact Hin |].
    unfold is_top_candidate in Hc. apply andb_prop in Hc as [Hs Hq].
    split; [now apply String.eqb_eq |].
    destruct (Qlt_le_dec 0 (relevance_score r)) as [Hlt | Hle]; [exact Hlt |].
    apply Qle_bool_iff in Hle. rewrite Hle in Hq. discriminate. }
  unfold bind_limit. destruct (Z.ltb_spec limit 0) as [Hneg | Hpos].
  - split; [apply sort_top_sorted | apply sort_with_perm].
  - split; [apply firstn_top_sorted, sort_top_sorted |].
    split; [reflexivity |].
    pose proof (List.firstn_le_length (Z.to_nat limit)
                  (sort_with order_top (List.filter is_top_candidate db))).
    lia.
Qed.

(** X12.  The two listings read a limit of zero differently: the top
    opportunities with limit 0 are empty, whereas the discovered jobs with
    limit 0 are all the stored records with status discovered. *)
Theorem limit_zero_is_read_two_ways (db : table) (u : unit) :
  get_top_opportunities (Ok u) db 0 = []
  /\ Permutation (List.filter (fun r => String.eqb (status r) "discovered") db)
       (get_discovered_jobs (Ok u) db 0)
  /\ (forall r, In r db -> status r = "discovered"%string ->
        In r (get_discovered_jobs (Ok u) db 0)).
Proof.
  split; [reflexivity |].
  assert (E : get_discovered_jobs (Ok u) db 0
              = sort_rows (List.filter (fun r => String.eqb (status r) "discovered") db)).
  { unfold get_discovered_jobs, get_jobs_by_status. now rewrite map_row_to_job. }
  rewrite E. split; [apply sort_rows_perm |].
  intros r Hin Hst. apply In_sort_rows, List.filter_In. split; [exact Hin |].
  rewrite Hst. reflexivity.
Qed.

(** *** Discovery *)

Lemma save_all_nodup (jobs : list JobOpportunity) (save_io : nat -> outcome unit)
    (db : table) :
  List.NoDup (ids db) -> List.NoDup (ids (save_all save_io db jobs)).
Proof.
  revert save_io db. induction jobs as [| job jobs IH]; intros save_io db Hnd;
    cbn [save_all]; [exact Hnd |].
  apply IH. now apply save_job_nodup.
Qed.

Lemma save_all_other (jobs : list JobOpportunity) (save_io : nat -> outcome unit)
    (db : table) (id : string) :
  ~ In id (map job_id jobs) -> rows_with id (save_all save_io db jobs) = rows_with id db.
Proof.
  revert save_io db. induction jobs as [| job jobs IH]; intros save_io db Hid;
    cbn [save_all]; [reflexivity |].
  cbn [map] in Hid. rewrite IH by (intros H; apply Hid; now right).
  apply save_job_other. intros E. apply Hid. now left.
Qed.

Lemma save_all_stored (jobs : list JobOpportunity) (save_io : nat -> outcome unit)
    (db : table) (id : string) :
  stored id db -> stored id (save_all save_io db jobs).
Proof.
  revert save_io db. induction jobs as [| job jobs IH]; intros save_io db Hst;
    cbn [save_all]; [exact Hst |].
  apply IH. now apply save_job_stored.
Qed.

Lemma save_all_saved (jobs : list JobOpportunity) (save_io : nat -> outcome unit)
    (db : table) (i : nat) (job : JobOpportunity) (u : unit) :
  nth_error jobs i = Some job -> save_io i = Ok u ->
  stored (job_id job) (save_all save_io db jobs).
Proof.
  revert save_io db i. induction jobs as [| j jobs IH]; intros save_io db i Hi Hio.
  - destruct i; discriminate.
  - destruct i as [| i]; cbn [nth_error save_all] in *.
    + injection Hi as ->. apply save_all_stored. rewrite Hio. cbn [save_job fst].
      exists (row_of_job job). split; [| apply row_of_job_id].
      unfold insert_or_replace. apply List.in_app_iff. right. now left.
    + now apply (IH (fun i => save_io (S i)) _ i).
Qed.

Lemma In_collect (r : JobOpportunity) (results : list (outcome (list JobOpportunity))) :
  In r (collect_results results) <-> exists jobs, In (Ok jobs) results /\ In r jobs.
Proof.
  unfold collect_results. rewrite List.in_flat_map. split.
  - intros ([jobs | e] & Hin & Hr); [now exists jobs | destruct Hr].
  - intros (jobs & Hin & Hr). now exists (Ok jobs).
Qed.

(** X13.  Discovery returns a list whatever fails: a scraper that raised
    contributes nothing and the others' records are still deduplicated,
    and a save that fails does not change the returned list.  Every
    returned record was found by a scraper that returned.  In the
    database the primary key stays unique, a returned record whose save
    succeeded has a row with its id, and the rows of ids that are not
    among the returned records are untouched. *)
Theorem discovery_survives_failures (results : list (outcome (list JobOpportunity)))
    (save_io : nat -> outcome unit) (db : table) :
  exists unique,
    discover_jobs results save_io db = (Ok unique, save_all save_io db unique)
    /\ _deduplicate_jobs (collect_results results) = Ok unique
    /\ (forall r, In r unique -> exists jobs, In (Ok jobs) results /\ In r jobs)
    /\ (List.NoDup (ids db) -> List.NoDup (ids (snd (discover_jobs results save_io db))))
    /\ (forall i job u, nth_error unique i = Some job -> save_io i = Ok u ->
          stored (job_id job) (snd (discover_jobs results save_io db)))
    /\ (forall id, ~ In id (map job_id unique) ->
          rows_with id (snd (discover_jobs results save_io db)) = rows_with id db).
Proof.
  destruct (dedup_result_distinct (collect_results results)) as (unique & Hd & _ & Hin).
  exists unique. unfold discover_jobs. rewrite Hd. cbn [snd].
  split; [reflexivity |]. split; [reflexivity |].
  split; [intros r Hr; now apply In_collect, Hin |].
  split; [apply save_all_nodup |].
  split; [intros i job u; apply save_all_saved | intros id; apply save_all_other].
Qed.

End DiscoveryMore.

(** * Progress tracking and parallel generation: further properties *)

Module GenerationMore.

Import Effects Progress Parallel Props ParallelFacts.

(** *** The progress tracker *)

Local Open Scope Q_scope.

(** X14.  The percentage shown for a stage lies between 0 and 100 and grows
    with the position of the stage; it never reaches 100: the last stage,
    Complete, is shown at eleven twelfths. *)
Theorem progress_never_reaches_100 (s1 s2 : ProgressStage) :
  0 <= percent_of s1
  /\ percent_of s1 <= percent_of COMPLETE
  /\ percent_of COMPLETE == 1100 # 12
  /\ percent_of COMPLETE < 100
  /\ ((stage_index s1 < stage_index s2)%nat -> percent_of s1 < percent_of s2).
Proof.
  split; [destruct s1; vm_compute; discriminate |].
  split; [destruct s1; vm_compute; discriminate |].
  split; [vm_compute; reflexivity |].
  split; [vm_compute; reflexivity |].
  destruct s1, s2; cbn [stage_index]; intros H;
    first [ vm_compute; reflexivity | exfalso; lia ].
Qed.

Lemma progress_never_reaches_100_witness :
  (stage_index FINALIZING < stage_index COMPLETE)%nat
  /\ percent_of FINALIZING < percent_of COMPLETE.
Proof.
  split; [cbn; lia |].
  apply (proj2 (proj2 (proj2 (proj2 (progress_never_reaches_100 FINALIZING COMPLETE))))).
  cbn; lia.
Defined.

Local Close Scope Q_scope.

(** *** The tracker over a run *)

Lemma keeps_bind {A B : Type} (m : M A) (k : A -> M B) :
  keeps_tracker m -> (forall a, keeps_tracker (k a)) -> keeps_tracker (Effects.bind m k).
Proof.
  intros Hm Hk e He. unfold Effects.bind. specialize (Hm e He).
  destruct (m e) as [[a | x] e1]; cbn [snd] in *; [now apply Hk | exact Hm].
Qed.

Lemma stops_bind {A B : Type} (m : M A) (k : A -> M B) :
  keeps_tracker m -> (forall a, stops_tracker (k a)) -> stops_tracker (Effects.bind m k).
Proof.
  intros Hm Hk e He. unfold Effects.bind. specialize (Hm e He).
  destruct (m e) as [[a | x] e1]; cbn [snd] in *; [now apply Hk | exact Hm].
Qed.

Lemma keeps_ret {A : Type} (a : A) : keeps_tracker (Effects.ret a : M A).
Proof. intros e He. exact He. Qed.

Lemma keeps_throw {A : Type} (x : exn) : keeps_tracker (Effects.throw x : M A).
Proof. intros e He. exact He. Qed.

Lemma keeps_with_tracker (f : ProgressTracker -> outcome unit * ProgressTracker) :
  keeps_tracker (with_tracker f).
Proof.
  intros e [tr Htr]. unfold with_tracker. rewrite Htr.
  destruct (f tr) as [r tr']. now exists tr'.
Qed.

Lemma keeps_gather (w : World) (schedule : list nat) (tasks : list Task) :
  keeps_tracker (gather w schedule tasks).
Proof.
  intros e [tr Htr]. destruct (gather_run w schedule tasks e) as (e' & -> & S).
  exists tr. unfold same_tracker in S. cbn [snd]. congruence.
Qed.

Lemma keeps_research (w : World) (schedule : list nat) (company job description : string) :
  keeps_tracker (_parallel_deep_research_phase w schedule company job description).
Proof.
  unfold _parallel_deep_research_phase, mbind, SE_bind.
  apply keeps_bind; [apply keeps_with_tracker | intros _].
  apply keeps_bind; [apply keeps_gather | intros results].
  destruct results as [| a [| b [| c [| d [| x results]]]]];
    first [apply keeps_throw | apply keeps_ret].
Qed.

Lemma keeps_content (w : World) (schedule : list nat) (job company description : string)
    (research : Research) :
  keeps_tracker (_parallel_sophisticated_content_generation w schedule job company
                   description research).
Proof.
  unfold _parallel_sophisticated_content_generation, mbind, SE_bind. cbv zeta.
  apply keeps_bind; [apply keeps_with_tracker | intros _].
  apply keeps_bind; [apply keeps_gather | intros results].
  destruct results as [| a [| b [| c [| d [| x [| y results]]]]]];
    first [apply keeps_throw | apply keeps_ret].
Qed.

Lemma keeps_integrate (w : World) (job company : string) (research : Research)
    (content : Content) :
  keeps_tracker (_integrate_sophisticated_application w job company research content).
Proof. intros e He. exact He. Qed.

Lemma stops_complete {A : Type} (console : string -> outcome unit) (msg : string) (a : A) :
  stops_tracker
    (Effects.bind (with_tracker (fun tr => Progress.complete console tr msg))
                  (fun _ => Effects.ret a)).
Proof.
  intros e [tr Htr]. unfold Effects.bind, with_tracker, Progress.complete, Effects.ret.
  rewrite Htr. destruct (console msg); eexists; [split |]; reflexivity.
Qed.

Lemma handler_stops (w : World) (x : exn) (e : Engine) :
  has_tracker e -> stopped (snd (on_generation_error w x e)).
Proof.
  intros [tr Htr]. unfold on_generation_error, mbind, SE_bind, Effects.bind.
  rewrite Htr. unfold with_tracker. rewrite Htr. unfold Progress.error.
  destruct (console w _); cbn; eexists; split; reflexivity.
Qed.

(** X15.  In every world, whatever the console and the completion calls do
    and whatever the order in which the worker threads finish, a
    generation run ends with its progress tracker stopped, so that the
    activity monitor leaves its loop, whether the run returns a package or
    raises.  The one exception is a run whose very first console write, in
    [start], raises: that exception leaves the run at once and the tracker
    stays active. *)
Theorem run_stops_its_tracker (w : World) (schedule1 schedule2 : list nat)
    (job company description job_url : string) (e : Engine) :
  let run := generate_sophisticated_application w schedule1 schedule2 job company
               description job_url e in
  match console w "AI APPLICATION GENERATION - LIVE PROGRESS TRACKING" with
  | Ok _ => stopped (snd run)
  | Raise x =>
      fst run = Raise x
      /\ exists tr, progress_tracker (snd run) = Some tr /\ is_active tr = true
  end.
Proof.
  intros run. destruct run as [r e'] eqn:E. subst run. cbn [fst snd].
  unfold generate_sophisticated_application in E.
  unfold mbind at 1 2, SE_bind at 1 2 in E. unfold Effects.bind at 1 2 in E.
  unfold set_tracker at 1 in E. unfold with_tracker at 1 in E.
  cbn [progress_tracker Progress.start] in E.
  destruct (console w "AI APPLICATION GENERATION - LIVE PROGRESS TRACKING") as [u | x].
  2: { injection E as <- <-. split; [reflexivity |]. eexists. split; reflexivity. }
  unfold Effects.try_except in E.
  match type of E with match ?body ?s with _ => _ end = _ =>
    assert (Hbody : stops_tracker body);
    [| assert (Hs : has_tracker s) by (eexists; reflexivity);
       specialize (Hbody s Hs); destruct (body s) as [[p | x] e1] ]
  end.
  - unfold mbind, SE_bind.
    apply stops_bind; [apply keeps_with_tracker | intros _].
    apply stops_bind; [apply keeps_research | intros research].
    apply stops_bind; [apply keeps_with_tracker | intros _].
    apply stops_bind; [apply keeps_content | intros content].
    apply stops_bind; [apply keeps_with_tracker | intros _].
    apply stops_bind; [apply keeps_integrate | intros application].
    apply stops_complete.
  - injection E as <- <-. exact Hbody.
  - pose proof (handler_stops w x e1 Hbody) as H. rewrite E in H. exact H.
Qed.

Lemma run_stops_its_tracker_witness :
  stopped (snd (generate_sophisticated_application Samples.console_fails [] []
                  "ML Engineer" "Acme" "Build ML systems" EmptyString new_engine)).
Proof.
  exact (run_stops_its_tracker Samples.console_fails [] []
           "ML Engineer" "Acme" "Build ML systems" EmptyString new_engine).
Defined.

(** *** The call counter *)

Section WithWorld.

Variable w : World.

Lemma on_failure_calls (t : Task) (x : exn) (e : Engine) :
  calls_made (snd (on_failure t x e)) = calls_made e.
Proof. reflexivity. Qed.

Lemma call_begin_calls (t : Task) (e : Engine) :
  calls_made (snd (call_begin w t e)) = calls_made e.
Proof.
  unfold call_begin. run. rewrite heartbeat_run.
  destruct (progress_tracker e) as [tr |]; [| reflexivity].
  destruct (is_active tr); [| reflexivity].
  destruct (console w _); reflexivity.
Qed.

Lemma begin_all_state (tasks : list Task) (e : Engine) :
  exists e',
    begin_all w tasks e = (Ok (map (started w (progress_tracker e)) tasks), e')
    /\ same_tracker e e' /\ calls_made e' = calls_made e.
Proof.
  revert e. induction tasks as [| t tasks IH]; intros e; cbn [begin_all map].
  - exists e. now split.
  - run. pose proof (call_begin_calls t e) as Hc.
    destruct (call_begin_run w t e) as (e1 & E1 & S1).
    rewrite E1 in Hc |- *. cbn [snd] in Hc.
    destruct (IH e1) as (e2 & -> & S2 & C2).
    exists e2. unfold same_tracker in *. rewrite S1.
    split; [reflexivity |]. split; congruence.
Qed.

Lemma call_resume_calls (t : Task) (e : Engine) :
  calls_made (snd (call_resume w t e)) = (calls_made e + Nat.b2n (returns w t))%nat.
Proof.
  unfold call_resume, returns. run.
  destruct (completion w (prompt t) (max_tokens t)) as [[text |] | x];
    cbn [negb raises Nat.b2n].
  - cbn. lia.
  - unfold count_call, log. rewrite on_failure_calls. cbn. lia.
  - rewrite on_failure_calls. lia.
Qed.

Lemma pending_insert (tasks : list Task) (results : list (option string)) (i : nat)
    (t : Task) (r : string) :
  tasks !! i = Some t -> results !! i = Some None ->
  (pending w tasks (<[i := Some r]> results) + Nat.b2n (returns w t))%nat
  = pending w tasks results.
Proof.
  revert results i. induction tasks as [| t0 tasks IH]; intros results i Ht Hr.
  - destruct i; discriminate.
  - destruct results as [| r0 results]; [destruct i; discriminate |].
    destruct i as [| i]; cbn in Ht, Hr.
    + injection Ht as ->. injection Hr as ->. cbn. lia.
    + cbn [pending]. change (<[S i := Some r]> (r0 :: results))
        with (r0 :: <[i := Some r]> results).
      cbn [pending]. rewrite <- (IH results i Ht Hr). lia.
Qed.

Lemma resume_at_calls (tasks : list Task) (i : nat) (results : list (option string))
    (e : Engine) :
  exists results' e',
    resume_at w tasks i results e = (Ok results', e')
    /\ (calls_made e' + pending w tasks results'
        = calls_made e + pending w tasks results)%nat.
Proof.
  unfold resume_at.
  destruct (tasks !! i) as [t |] eqn:Ht; [| exists results, e; now split].
  destruct (results !! i) as [[r |] |] eqn:Hr; try (exists results, e; now split).
  run. pose proof (call_resume_calls t e) as Hc.
  destruct (call_resume_run w t e) as (e' & E & _).
  rewrite E in Hc |- *. cbn [snd] in Hc.
  eexists; eexists. split; [reflexivity |].
  rewrite <- (pending_insert tasks results i t (task_result w t) Ht Hr). lia.
Qed.

Lemma resume_in_order_calls (tasks : list Task) (order : list nat)
    (results : list (option string)) (e : Engine) :
  exists results' e',
    resume_in_order w tasks order results e = (Ok results', e')
    /\ (calls_made e' + pending w tasks results'
        = calls_made e + pending w tasks results)%nat.
Proof.
  revert results e. induction order as [| i order IH]; intros results e.
  - exists results, e. now split.
  - cbn [resume_in_order]. run.
    destruct (resume_at_calls tasks i results e) as (r1 & e1 & -> & H1).
    destruct (IH r1 e1) as (r2 & e2 & -> & H2).
    exists r2, e2. split; [reflexivity | lia].
Qed.

Lemma pending_done (tasks : list Task) (results : list (option string)) :
  List.length results = List.length tasks ->
  (forall j, (j < List.length tasks)%nat -> results !! j <> Some None) ->
  pending w tasks results = 0%nat.
Proof.
  revert results. induction tasks as [| t tasks IH]; intros results Hlen Hdone;
    [reflexivity |].
  destruct results as [| r results]; [discriminate |].
  cbn [pending]. rewrite IH.
  - destruct r as [r |]; [reflexivity |].
    exfalso. apply (Hdone 0%nat); [cbn; lia | reflexivity].
  - cbn in Hlen. lia.
  - intros j Hj. apply (Hdone (S j)). cbn. lia.
Qed.

Lemma pending_started (tr : option ProgressTracker) (tasks : list Task) :
  pending w tasks (map (started w tr) tasks)
  = List.length (List.filter (counted w tr) tasks).
Proof.
  induction tasks as [| t tasks IH]; [reflexivity |].
  cbn [map pending List.filter]. rewrite IH. unfold started, counted.
  destruct (heartbeat_fails w tr t); cbn [negb andb]; [reflexivity |].
  destruct (returns w t); reflexivity.
Qed.

(** [gather] counts the tasks whose call is counted, whatever the order in
    which the worker threads finish. *)
Lemma gather_calls (schedule : list nat) (tasks : list Task) (e : Engine) :
  exists e',
    gather w schedule tasks e
    = (Ok (map (call_result w (progress_tracker e)) tasks), e')
    /\ same_tracker e e'
    /\ calls_made e'
       = (calls_made e
          + List.length (List.filter (counted w (progress_tracker e)) tasks))%nat.
Proof.
  unfold gather. run.
  destruct (begin_all_state tasks e) as (e1 & -> & S1 & C1).
  unfold same_tracker in S1.
  pose proof (gathering_started w (progress_tracker e) tasks) as G0.
  rewrite <- S1 in G0 at 1.
  destruct (resume_in_order_run w tasks (schedule ++ seq 0 (List.length tasks))%list
              _ e1 G0) as (r & e2 & E & S2 & G2 & _ & D2).
  destruct (resume_in_order_calls tasks (schedule ++ seq 0 (List.length tasks))%list
              (map (started w (progress_tracker e)) tasks) e1)
    as (r' & e2' & E' & Hc).
  rewrite E in E'. injection E' as <- <-. rewrite E.
  assert (Hdone : forall j, (j < List.length tasks)%nat -> r !! j <> Some None).
  { intros j Hj. apply D2. apply List.in_app_iff. right. apply List.in_seq. lia. }
  exists e2. unfold same_tracker in *. rewrite S1 in G2.
  split; [| split; [congruence |]].
  - f_equal. f_equal. now apply gathering_done.
  - rewrite (pending_done tasks r (proj1 G2) Hdone), pending_started in Hc. lia.
Qed.

(** *** The run as a whole, when the console takes every write *)

Hypothesis console_ok : forall msg, console w msg = Ok tt.

Lemma counted_console_ok (tr : ProgressTracker) (t : Task) :
  counted w (Some tr) t = returns w t.
Proof.
  unfold counted, heartbeat_fails. rewrite console_ok. cbn [raises].
  now rewrite andb_false_r.
Qed.

Lemma gather_state (schedule : list nat) (tasks : list Task) (e : Engine)
    (tr : ProgressTracker) :
  progress_tracker e = Some tr ->
  exists e',
    gather w schedule tasks e = (Ok (map (task_result w) tasks), e')
    /\ progress_tracker e' = Some tr
    /\ calls_made e' = (calls_made e + returned w tasks)%nat.
Proof.
  intros Htr. destruct (gather_calls schedule tasks e) as (e' & -> & S & C).
  exists e'. unfold same_tracker in S. rewrite Htr in *.
  split; [| split; [exact S |]].
  - f_equal. f_equal. apply List.map_ext. intros t.
    now apply call_result_console_ok.
  - rewrite C. unfold returned. f_equal. f_equal.
    apply List.filter_ext. intros t. apply counted_console_ok.
Qed.

(** A tracker call that returns leaves the counter and puts the tracker
    the call gives in place. *)
Lemma tracker_state (f : ProgressTracker -> outcome unit * ProgressTracker)
    (e : Engine) (tr : ProgressTracker) :
  progress_tracker e = Some tr ->
  fst (f tr) = Ok tt ->
  exists e', with_tracker f e = (Ok tt, e')
             /\ progress_tracker e' = Some (snd (f tr))
             /\ calls_made e' = calls_made e.
Proof.
  intros Htr Hf. unfold with_tracker. rewrite Htr.
  destruct (f tr) as [r tr']. cbn [fst snd] in *. subst r.
  eexists. split; [reflexivity |]. now split.
Qed.

Lemma heartbeat_state (msg : string) (e : Engine) (tr : ProgressTracker) :
  progress_tracker e = Some tr ->
  exists e', with_tracker (fun tr => update_progress (console w) tr msg) e = (Ok tt, e')
             /\ progress_tracker e' = Some tr
             /\ calls_made e' = calls_made e.
Proof.
  intros Htr.
  destruct (tracker_state (fun tr => update_progress (console w) tr msg) e tr Htr)
    as (e' & E & T & C); [apply update_progress_ok, console_ok |].
  exists e'. split; [exact E |]. split; [| exact C].
  rewrite T. unfold update_progress. now destruct (negb (is_active tr)).
Qed.

Lemma research_state (schedule : list nat) (company job description : string)
    (e : Engine) (tr : ProgressTracker) :
  progress_tracker e = Some tr ->
  exists e',
    _parallel_deep_research_phase w schedule company job description e
    = (Ok (research_of w company job description), e')
    /\ progress_tracker e' = Some tr
    /\ calls_made e'
       = (calls_made e + returned w (research_tasks company job description))%nat.
Proof.
  intros Htr. unfold _parallel_deep_research_phase. run.
  destruct (heartbeat_state "Executing parallel deep research with GPT-4..." e tr Htr)
    as (e1 & -> & T1 & C1).
  destruct (gather_state schedule (research_tasks company job description) e1 tr T1)
    as (e2 & -> & T2 & C2).
  exists e2. split; [reflexivity |]. split; [exact T2 | congruence].
Qed.

Lemma content_state (schedule : list nat) (company job description : string)
    (e : Engine) (tr : ProgressTracker) :
  progress_tracker e = Some tr ->
  exists e',
    _parallel_sophisticated_content_generation w schedule job company description
      (research_of w company job description) e
    = (Ok (content_of w company job description), e')
    /\ progress_tracker e' = Some tr
    /\ calls_made e'
       = (calls_made e + returned w (content_tasks_of w company job description))%nat.
Proof.
  intros Htr. unfold _parallel_sophisticated_content_generation. run.
  destruct (heartbeat_state "Generating sophisticated content with parallel GPT-4..."
              e tr Htr) as (e1 & -> & T1 & C1).
  destruct (gather_state schedule
              (content_tasks (_build_sophisticated_context job company description
                                (research_of w company job description))) e1 tr T1)
    as (e2 & -> & T2 & C2).
  exists e2. split; [reflexivity |]. split; [exact T2 |].
  unfold content_tasks_of. congruence.
Qed.

(** One stage update of the goal, run from a state whose tracker is known. *)
Ltac stage_step T C :=
  match goal with
  | Htr : progress_tracker ?e = Some ?tr |- context [with_tracker ?f ?e] =>
      let e' := fresh "e" in
      destruct (tracker_state f e tr Htr) as (e' & -> & T & C);
      [ first [ apply update_stage_ok
              | unfold Progress.start, Progress.complete; cbn [fst] ];
        apply console_ok
      | clear Htr ]
  end.

(** The run returns the integration of the nine task results; the counter
    has grown by the calls that returned; the tracker is stopped and has
    recorded the three stages the run announces. *)
Lemma generate_state (schedule1 schedule2 : list nat)
    (job company description job_url : string) (e : Engine) :
  exists e' tr,
    generate_sophisticated_application w schedule1 schedule2 job company description
      job_url e
    = (package_with w job company description
         (calls_made e + calls_of_run w job company description), e')
    /\ calls_made e' = (calls_made e + calls_of_run w job company description)%nat
    /\ progress_tracker e' = Some tr
    /\ is_active tr = false
    /\ current_stage tr = FINALIZING
    /\ map stage (progress_updates tr)
       = [ COMPANY_RESEARCH; COVER_LETTER_GENERATION; FINALIZING ].
Proof.
  unfold generate_sophisticated_application. run.
  unfold set_tracker at 1.
  assert (T0 : progress_tracker {| calls_made := calls_made e;
                                   progress_tracker := Some Progress.new;
                                   logged := logged e |} = Some Progress.new)
    by reflexivity.
  stage_step T1 C1. stage_step T2 C2.
  destruct (research_state schedule1 company job description _ _ T2)
    as (e3 & -> & T3 & C3).
  stage_step T4 C4.
  destruct (content_state schedule2 company job description _ _ T4)
    as (e5 & -> & T5 & C5).
  stage_step T6 C6.
  unfold _integrate_sophisticated_application at 1.
  stage_step T7 C7.
  eexists; eexists. split; [| split; [| split; [exact T7 |]]].
  - unfold package_with, _integrate_sophisticated_application, calls_of_run.
    cbn [fst calls_made] in *. repeat f_equal. lia.
  - unfold calls_of_run. cbn [calls_made] in *. lia.
  - repeat split.
Qed.

End WithWorld.

Lemma returned_le (w : World) (tasks : list Task) :
  (returned w tasks <= List.length tasks)%nat.
Proof. unfold returned. apply List.filter_length_le. Qed.

(** X16.  The engine counts a completion call exactly when the heartbeat
    of the call went through and the completion returned, whatever the
    order in which the worker threads finish.  The counter is never reset:
    when the console takes every write, the package of a run reports the
    count the engine had before the run plus the number of the nine
    completion calls that returned, so at most nine more. *)
Theorem calls_counter_counts_returned_calls (w : World) :
  (forall schedule tasks e,
     calls_made (snd (gather w schedule tasks e))
     = (calls_made e
        + List.length (List.filter (counted w (progress_tracker e)) tasks))%nat)
  /\ ((forall msg, console w msg = Ok tt) ->
      forall schedule1 schedule2 job company description job_url e,
        exists p e',
          generate_sophisticated_application w schedule1 schedule2 job company
            description job_url e = (Ok p, e')
          /\ api_calls_made p
             = (calls_made e + calls_of_run w job company description)%nat
          /\ calls_made e' = api_calls_made p
          /\ (calls_made e <= api_calls_made p <= calls_made e + 9)%nat).
Proof.
  split.
  - intros schedule tasks e.
    destruct (gather_calls w schedule tasks e) as (e' & -> & _ & C). exact C.
  - intros Hc schedule1 schedule2 job company description job_url e.
    destruct (generate_state w Hc schedule1 schedule2 job company description job_url e)
      as (e' & tr & E & C & _).
    eexists; exists e'. split; [exact E |].
    cbn [api_calls_made]. split; [reflexivity |]. split; [exact C |].
    unfold calls_of_run.
    pose proof (returned_le w (research_tasks company job description)) as H1.
    pose proof (returned_le w (content_tasks_of w company job description)) as H2.
    cbn [List.length research_tasks content_tasks_of content_tasks] in H1, H2.
    unfold content_tasks_of in *. cbn [List.length content_tasks] in H2.
    cbn [calls_made]. lia.
Qed.

Lemma calls_counter_counts_returned_calls_witness :
  (forall msg, console Samples.one_task_fails msg = Ok tt)
  /\ exists p e',
       generate_sophisticated_application Samples.one_task_fails [3; 1; 0; 2]%nat []
         "ML Engineer" "Acme" "Build ML systems" EmptyString new_engine = (Ok p, e')
       /\ api_calls_made p = 8%nat.
Proof.
  assert (Hc : forall msg, console Samples.one_task_fails msg = Ok tt)
    by (intros msg; reflexivity).
  split; [exact Hc |].
  destruct (proj2 (calls_counter_counts_returned_calls Samples.one_task_fails) Hc
              [3; 1; 0; 2]%nat [] "ML Engineer" "Acme" "Build ML systems" EmptyString
              new_engine)
    as (p & e' & E & C & _).
  exists p, e'. split; [exact E |]. rewrite C. vm_compute. reflexivity.
Defined.

(** X17.  When the console takes every write, the package a run returns
    and the count it leaves do not depend on the order in which the worker
    threads of either phase finish. *)
Theorem package_is_independent_of_schedule (w : World)
    (schedule1 schedule2 schedule1' schedule2' : list nat)
    (job company description job_url : string) (e : Engine) :
  (forall msg, console w msg = Ok tt) ->
  let run := generate_sophisticated_application w schedule1 schedule2 job company
               description job_url e in
  let run' := generate_sophisticated_application w schedule1' schedule2' job company
                description job_url e in
  fst run = fst run'
  /\ raises (fst run) = false
  /\ calls_made (snd run) = calls_made (snd run').
Proof.
  intros Hc run run'. subst run run'.
  destruct (generate_state w Hc schedule1 schedule2 job company description job_url e)
    as (e1 & tr1 & -> & C1 & _).
  destruct (generate_state w Hc schedule1' schedule2' job company description job_url e)
    as (e2 & tr2 & -> & C2 & _).
  cbn [fst snd].
  split; [reflexivity |]. split; [reflexivity | congruence].
Qed.

Lemma package_is_independent_of_schedule_witness :
  fst (generate_sophisticated_application Samples.one_task_fails [3; 1; 0; 2]%nat [4]%nat
         "ML Engineer" "Acme" "Build ML systems" EmptyString new_engine)
  = fst (generate_sophisticated_application Samples.one_task_fails [] [2; 0]%nat
           "ML Engineer" "Acme" "Build ML systems" EmptyString new_engine).
Proof.
  assert (Hc : forall msg, console Samples.one_task_fails msg = Ok tt)
    by (intros msg; reflexivity).
  exact (proj1 (package_is_independent_of_schedule Samples.one_task_fails
                  [3; 1; 0; 2]%nat [4]%nat [] [2; 0]%nat
                  "ML Engineer" "Acme" "Build ML systems" EmptyString new_engine Hc)).
Defined.

(** X18.  When the console takes every write, a run leaves the tracker
    stopped, and the tracker has recorded three stage updates: company
    research, cover letter generation and finalizing.  The stages in
    between are never announced, and the last percentage recorded is below
    100. *)
Theorem run_announces_three_stages (w : World) (schedule1 schedule2 : list nat)
    (job company description job_url : string) (e : Engine) :
  (forall msg, console w msg = Ok tt) ->
  exists tr,
    progress_tracker
      (snd (generate_sophisticated_application w schedule1 schedule2 job company
              description job_url e)) = Some tr
    /\ is_active tr = false
    /\ current_stage tr = FINALIZING
    /\ map stage (progress_updates tr)
       = [ COMPANY_RESEARCH; COVER_LETTER_GENERATION; FINALIZING ]
    /\ (percent_of (current_stage tr) < 100)%Q.
Proof.
  intros Hc.
  destruct (generate_state w Hc schedule1 schedule2 job company description job_url e)
    as (e1 & tr & -> & _ & T & A & S & U).
  exists tr. cbn [snd].
  refine (conj T (conj A (conj S (conj U _)))).
  rewrite S. vm_compute. reflexivity.
Qed.

Lemma run_announces_three_stages_witness :
  exists tr,
    progress_tracker
      (snd (generate_sophisticated_application Samples.one_task_fails [] []
              "ML Engineer" "Acme" "Build ML systems" EmptyString new_engine)) = Some tr
    /\ is_active tr = false.
Proof.
  destruct (run_announces_three_stages Samples.one_task_fails [] []
              "ML Engineer" "Acme" "Build ML systems" EmptyString new_engine)
    as (tr & T & A & _); [intros msg; reflexivity |].
  exact (ex_intro _ tr (conj T A)).
Defined.

End GenerationMore.

(** * Keys and the application engine: further properties *)

Module EngineMore.

Import Effects Engine Props EngineFacts.

(** *** Finding the key *)

Lemma truthy_nonempty (k : string) : Keys.truthy (Some k) = true -> k <> EmptyString.
Proof. destruct k; [discriminate | discriminate]. Qed.

Lemma from_file_truthy (file : option (outcome (list string))) (k : string) :
  Keys.from_file file = Some k -> Keys.truthy (Some k) = true.
Proof.
  unfold Keys.from_file. destruct file as [f |]; [| discriminate].
  destruct (Keys.truthy (Keys._load_from_env_file f)) eqn:E; [| discriminate].
  intros H. now rewrite H in E.
Qed.

Lemma find_truthy (env : Keys.Environment) (k : string) :
  Keys.find_openai_api_key env = Some k -> Keys.truthy (Some k) = true.
Proof.
  unfold Keys.find_openai_api_key.
  destruct (Keys.truthy (Keys.env_var env)) eqn:E.
  - intros H. now rewrite H in E.
  - destruct (Keys.from_file (Keys.project_env env)) as [k1 |] eqn:E1.
    + intros H. injection H as <-. now apply (from_file_truthy _ _ E1).
    + apply from_file_truthy.
Qed.

(** X19.  The key is resolved in a fixed order: the argument given to the
    engine, then the environment variable, then the project env file,
    then the home env file; an empty value at one place passes the search
    on to the next.  The key found is never the empty string, and the
    engine is in AI mode, with the parallel mode on, exactly when a key
    was found; otherwise it holds the template components. *)
Theorem key_resolution_order (w : World) (key : option string) (dir : string)
    (e : ApplicationEngine) :
  init w key dir = Ok e ->
  let env := environment w in
  (Keys.truthy key = true -> api_key e = key)
  /\ (Keys.truthy key = false -> Keys.truthy (Keys.env_var env) = true ->
      api_key e = Keys.env_var env)
  /\ (Keys.truthy key = false -> Keys.truthy (Keys.env_var env) = false ->
      api_key e = match Keys.from_file (Keys.project_env env) with
                  | Some k => Some k
                  | None => Keys.from_file (Keys.home_env env)
                  end)
  /\ (forall k, api_key e = Some k -> k <> EmptyString)
  /\ ai_mode e = Keys.truthy (api_key e)
  /\ parallel_mode e = ai_mode e
  /\ template_components e = negb (ai_mode e).
Proof.
  intros Hinit env. subst env. unfold init in Hinit.
  destruct (file_io w dir) as [u | x]; [| discriminate].
  set (k := if Keys.truthy key then key
            else Keys.find_openai_api_key (environment w)) in *.
  assert (Hk : api_key e = k /\ ai_mode e = Keys.truthy k
               /\ parallel_mode e = ai_mode e
               /\ template_components e = negb (ai_mode e)).
  { destruct (Keys.truthy k) eqn:E; injection Hinit as <-; cbn; now rewrite ?E. }
  destruct Hk as (Hkey & Hai & Hpar & Htc).
  split; [intros Ht; rewrite Hkey; subst k; now rewrite Ht |].
  split.
  { intros Ht Hv. rewrite Hkey. subst k. rewrite Ht.
    unfold Keys.find_openai_api_key. now rewrite Hv. }
  split.
  { intros Ht Hv. rewrite Hkey. subst k. rewrite Ht.
    unfold Keys.find_openai_api_key. now rewrite Hv. }
  split.
  { intros k0 Hk0. apply truthy_nonempty. rewrite Hkey in Hk0. subst k.
    destruct (Keys.truthy key) eqn:Ht; [now rewrite <- Hk0 |].
    now apply (find_truthy (environment w)). }
  split; [now rewrite Hkey |]. now split.
Qed.

Lemma key_resolution_order_witness :
  api_key Samples.keyed_engine = Some "sk-test"
  /\ ai_mode Samples.keyed_engine = true.
Proof.
  assert (Hinit : init Samples.engine_world (Some "sk-test") "applications"
                  = Ok Samples.keyed_engine) by reflexivity.
  destruct (key_resolution_order Samples.engine_world (Some "sk-test") "applications"
              Samples.keyed_engine Hinit) as (H1 & _ & _ & _ & H5 & _).
  split; [exact (H1 eq_refl) |]. rewrite H5, (H1 eq_refl). reflexivity.
Defined.

Lemma first_key_line_skip (pre : list string) (rest : list string) :
  Forall (fun l => key_line l = false) pre ->
  Keys.first_key_line (pre ++ rest) = Keys.first_key_line rest.
Proof.
  induction 1 as [| l pre Hl _ IH]; [reflexivity |].
  cbn [app Keys.first_key_line]. unfold key_line in Hl. now rewrite Hl.
Qed.

(** X20.  An env file is read up to its first line that starts with
    OPENAI_API_KEY=: the lines before it that do not start so are passed
    over, and the lines after it are never looked at.  So when the value
    on that line is empty the file gives no key, whatever follows; and a
    file that cannot be read gives no key. *)
Theorem env_file_first_key_line_wins (pre rest : list string) (line : string) :
  Forall (fun l => key_line l = false) pre ->
  key_line line = true ->
  Keys._load_from_env_file (Ok (pre ++ line :: rest)%list)
  = Keys._load_from_env_file (Ok [line])
  /\ (Keys._load_from_env_file (Ok [line]) = Some EmptyString ->
      Keys.from_file (Some (Ok (pre ++ line :: rest)%list)) = None)
  /\ (forall x, Keys.from_file (Some (Raise x)) = None).
Proof.
  intros Hpre Hline.
  assert (E : Keys._load_from_env_file (Ok (pre ++ line :: rest)%list)
              = Keys._load_from_env_file (Ok [line])).
  { unfold Keys._load_from_env_file. rewrite first_key_line_skip by exact Hpre.
    cbn [Keys.first_key_line]. unfold key_line in Hline. now rewrite Hline. }
  split; [exact E |]. split; [| reflexivity].
  intros Hempty. unfold Keys.from_file. rewrite E, Hempty. reflexivity.
Qed.

Lemma env_file_first_key_line_wins_witness :
  Keys.from_file
    (Some (Ok [ "# keys"; "OPENAI_API_KEY="; "OPENAI_API_KEY=sk-live" ])) = None.
Proof.
  refine (proj1 (proj2 (env_file_first_key_line_wins [ "# keys" ]
                          [ "OPENAI_API_KEY=sk-live" ] "OPENAI_API_KEY=" _ _)) _).
  - repeat constructor.
  - reflexivity.
  - reflexivity.
Defined.

(** *** The application id *)

Lemma clean_company_chars (s : string) : all_chars id_char (clean_company s) = true.
Proof.
  induction s as [| c s IH]; [reflexivity |].
  cbn [clean_company]. cbv zeta.
  set (c' := if Ascii.eqb c " " || Ascii.eqb c "-" then "_"%char else c).
  destruct (is_alnum c' || Ascii.eqb c' "_") eqn:E; [| exact IH].
  cbn [all_chars]. unfold id_char at 1. now rewrite E, IH.
Qed.

(** X21.  The application id is the cleaned company name, an underscore
    and the minute of the clock.  The cleaned name holds only
    alphanumeric characters and underscores, so no path separator, no dot
    and no space; and the id does not depend on the title, the
    description or the URL of the job. *)
Theorem application_id_is_path_safe (w : World) (d : JobData) :
  _generate_application_id w d
  = (clean_company (get (jd_company d) "unknown") ++ "_" ++ stamp_minute w)%string
  /\ all_chars id_char (clean_company (get (jd_company d) "unknown")) = true
  /\ (forall d', jd_company d' = jd_company d ->
        _generate_application_id w d' = _generate_application_id w d).
Proof.
  split; [reflexivity |]. split; [apply clean_company_chars |].
  intros d' H. unfold _generate_application_id. now rewrite H.
Qed.

Lemma application_id_is_path_safe_witness :
  _generate_application_id Samples.engine_world
    (manual_job_data (Some "Acme") (Some "SRE"))
  = _generate_application_id Samples.engine_world Samples.acme_job.
Proof.
  apply (proj2 (proj2 (application_id_is_path_safe Samples.engine_world Samples.acme_job))).
  reflexivity.
Defined.

(** *** Tracking *)

Lemma save_application_tracks (w : World) (p : Package) (e : ApplicationEngine) :
  (forall path, file_io w path = Ok tt) ->
  exists e', _save_application w p e = (Ok tt, e')
             /\ applications e' = <[application_id p := p]> (applications e)
             /\ template_components e' = template_components e
             /\ output_dir e' = output_dir e.
Proof.
  intros Hio. unfold _save_application, set_application. run.
  rewrite Hio. eexists. split; [reflexivity |]. now split.
Qed.

Lemma export_if_id {A : Type} (w : World) (x : option A) (file : string) (p : Package)
    (e : ApplicationEngine) :
  (forall path, file_io w path = Ok tt) ->
  exists p', export_if w x file p e = (Ok p', e)
             /\ application_id p' = application_id p.
Proof.
  intros Hio. unfold export_if. destruct x; run.
  - rewrite Hio. eexists; split; reflexivity.
  - eexists; split; reflexivity.
Qed.

Lemma create_package_id (w : World) (d : JobData) (ci : option CompanyIntelligence)
    (rc : option ResumeCustomization) (cl : option CoverLetterGeneration)
    (e : ApplicationEngine) :
  (forall path, file_io w path = Ok tt) ->
  exists p, _create_application_package w d ci rc cl e = (Ok p, e)
            /\ application_id p = _generate_application_id w d.
Proof.
  intros Hio. unfold _create_application_package. run. rewrite Hio.
  match goal with |- context [export_if w rc ?f ?p e] =>
    destruct (export_if_id w rc f p e Hio) as (p1 & -> & J1) end.
  match goal with |- context [export_if w cl ?f p1 e] =>
    destruct (export_if_id w cl f p1 e Hio) as (p2 & -> & J2) end.
  match goal with |- context [export_if w ci ?f p2 e] =>
    destruct (export_if_id w ci f p2 e Hio) as (p3 & -> & J3) end.
  rewrite Hio. eexists. split; [reflexivity |].
  unfold with_file. cbn [application_id] in *. congruence.
Qed.

Lemma template_mode_tracks (w : World) (d : JobData) (e : ApplicationEngine) :
  template_world_ok w ->
  template_components e = true ->
  exists p e',
    _process_with_template_mode w d e = (Ok p, e')
    /\ application_id p = _generate_application_id w d
    /\ applications e' = <[application_id p := p]> (applications e)
    /\ template_components e' = true.
Proof.
  intros (Hio & Hresearch & Hresume & Hcover) Htc.
  unfold _process_with_template_mode, read_template_components. run.
  rewrite print_run. cbn [template_components printing]. rewrite Htc.
  destruct (Hresearch (get (jd_company d) "Unknown") (jd_title d)) as [ci ->].
  destruct (Hresume d ci) as [rc ->].
  destruct (Hcover d ci) as [cl ->].
  match goal with |- context [_create_application_package w d ci rc cl ?s] =>
    destruct (create_package_id w d ci rc cl s Hio) as (p & -> & J) end.
  match goal with |- context [_save_application w p ?s] =>
    destruct (save_application_tracks w p s Hio) as (e1 & -> & A & T & _) end.
  rewrite print_run.
  exists p. eexists. split; [reflexivity |]. split; [exact J |].
  cbn [applications template_components printing] in *.
  split; [exact A | congruence].
Qed.

(** X22.  Two applications to the same company within the same minute get
    the same id, whatever their titles are, and the tracking dict then
    holds the second one only: it is the dict before the two runs with one
    entry set, the package of the second run. *)
Theorem same_company_same_minute_overwrites (w : World) (d1 d2 : JobData)
    (e : ApplicationEngine) :
  template_world_ok w ->
  template_components e = true ->
  jd_company d1 = jd_company d2 ->
  exists p1 e1 p2 e2,
    _process_with_template_mode w d1 e = (Ok p1, e1)
    /\ _process_with_template_mode w d2 e1 = (Ok p2, e2)
    /\ application_id p1 = application_id p2
    /\ applications e1 !! application_id p1 = Some p1
    /\ applications e2 !! application_id p1 = Some p2
    /\ applications e2 = <[application_id p2 := p2]> (applications e).
Proof.
  intros Hw Htc Hco.
  destruct (template_mode_tracks w d1 e Hw Htc) as (p1 & e1 & E1 & I1 & A1 & T1).
  destruct (template_mode_tracks w d2 e1 Hw T1) as (p2 & e2 & E2 & I2 & A2 & T2).
  assert (Hid : application_id p1 = application_id p2).
  { rewrite I1, I2. unfold _generate_application_id. now rewrite Hco. }
  exists p1, e1, p2, e2.
  split; [exact E1 |]. split; [exact E2 |]. split; [exact Hid |].
  split; [rewrite A1; apply lookup_insert_eq |].
  split; [rewrite A2, Hid; apply lookup_insert_eq |].
  rewrite A2, A1, Hid. apply insert_insert_eq.
Qed.

Lemma same_company_same_minute_overwrites_witness :
  exists p1 e1 p2 e2,
    _process_with_template_mode Samples.engine_world Samples.acme_job
      Samples.keyless_engine = (Ok p1, e1)
    /\ _process_with_template_mode Samples.engine_world
         (manual_job_data (Some "Acme") (Some "SRE")) e1 = (Ok p2, e2)
    /\ application_id p1 = application_id p2
    /\ applications e2 !! application_id p1 = Some p2.
Proof.
  destruct (same_company_same_minute_overwrites Samples.engine_world Samples.acme_job
              (manual_job_data (Some "Acme") (Some "SRE")) Samples.keyless_engine
              engine_world_ok eq_refl eq_refl)
    as (p1 & e1 & p2 & e2 & E1 & E2 & Hid & _ & H2 & _).
  exact (ex_intro _ p1 (ex_intro _ e1 (ex_intro _ p2 (ex_intro _ e2
           (conj E1 (conj E2 (conj Hid H2))))))).
Defined.

(** *** The template score *)

Local Open Scope Q_scope.

Lemma float_zero : Num.float 0.0 = 0.
Proof. vm_compute. reflexivity. Qed.

Lemma float_ten : Num.float 10.0 = 10.
Proof. vm_compute. reflexivity. Qed.

Lemma clamp_range (x : Q) : 0 <= Qmin (Qmax x (Num.float 0.0)) (Num.float 10.0) <= 10.
Proof.
  rewrite float_zero, float_ten. split.
  - apply Q.min_glb; [| lra].
    eapply Qle_trans; [| apply Q.le_max_r]. lra.
  - eapply Qle_trans; [apply Q.le_min_r | lra].
Qed.

Lemma nonzero_zero : nonzero 0 = false.
Proof. vm_compute. reflexivity. Qed.

Lemma nonzero_five : nonzero 5 = true.
Proof. vm_compute. reflexivity. Qed.

(** A job-fit score of 5 adds exactly nothing to the base score. *)
Lemma fit_five_neutral :
  Num.fadd (Num.float 5.0)
    (Num.fmul (Num.fsub (Num.float 5) (Num.float 5.0)) (Num.float 0.3))
  = Num.float 5.0.
Proof. vm_compute. reflexivity. Qed.

(** X23.  The template score lies between 0 and 10, and is 5 when nothing
    is known.  A job-fit score of 0 is read as no score: it gives the same
    result as a job-fit score of 5, which is more than a job-fit score of 1
    gives.  The lower bound of the clamp is not what keeps scores between
    0 and 10 away from 0: a job-fit score of 1e-17 with a personalization
    score of 0 gives exactly 2.5. *)
Theorem template_score_facts (ci : option CompanyIntelligence)
    (rc : option ResumeCustomization) (cl : option CoverLetterGeneration) :
  in_range (_calculate_application_score ci rc cl)
  /\ _calculate_application_score None None None == 5
  /\ (forall c, _calculate_application_score (Some (with_fit c 0)) rc cl
                == _calculate_application_score (Some (with_fit c 5)) rc cl)
  /\ _calculate_application_score (Some (with_fit Samples.bare_research 1)) None None
     < _calculate_application_score (Some (with_fit Samples.bare_research 0)) None None
  /\ _calculate_application_score
       (Some (with_fit Samples.bare_research (1 # 100000000000000000)))
       None (Some {| personalization_score := 0 |}) == 2.5.
Proof.
  split; [apply clamp_range |].
  split; [vm_compute; reflexivity |].
  split; [| split; vm_compute; reflexivity].
  intros c. unfold _calculate_application_score. cbv zeta.
  cbn [with_fit job_fit_score recent_news application_recommendations].
  rewrite nonzero_zero, nonzero_five, fit_five_neutral. reflexivity.
Qed.

(** *** The parallel mode *)

Lemma parallel_attempt_run (w : World) (d : JobData) (e : ApplicationEngine)
    (pe : Parallel.Engine) :
  parallel_world_ok w ->
  synchronous_caller w ->
  parallel_ai_engine e = Some pe ->
  exists p e',
    parallel_attempt w d e = (Ok p, e')
    /\ mode p = Some "SOPHISTICATED_PARALLEL_AI"%string
    /\ application_score p == 9.5
    /\ application_id p = _generate_application_id w d
    /\ job_information p = d
    /\ List.length (files_generated p) = 1%nat
    /\ next_steps p = _generate_sophisticated_next_steps
    /\ applications e' !! application_id p = Some p.
Proof.
  intros [Hc Hio] [Hnew Hrun] Hpe. unfold parallel_attempt. run.
  unfold run_parallel. rewrite Hnew, Hpe, Hrun.
  match goal with
  | |- context [Parallel.generate_sophisticated_application ?pw ?s1 ?s2 ?j ?c ?ds ?u pe] =>
      destruct (GenerationMore.generate_state pw Hc s1 s2 j c ds u pe)
        as (pe' & tr & -> & _)
  end.
  unfold package_with, Parallel._integrate_sophisticated_application. cbn [fst].
  unfold set_parallel. cbn beta iota. cbn [output_dir].
  rewrite Hio. unfold _save_sophisticated_application. run. rewrite Hio.
  unfold _save_application, set_application. run. cbn [output_dir]. rewrite Hio.
  rewrite print_run.
  eexists; eexists. split; [reflexivity |].
  cbn [mode application_score application_id job_information files_generated
       next_steps with_file Parallel.sophistication_score applications
       printing app List.length].
  split; [reflexivity |]. split; [reflexivity |]. split; [reflexivity |].
  split; [reflexivity |]. split; [reflexivity |]. split; [reflexivity |].
  apply lookup_insert_eq.
Qed.

(** X24.  On an engine in parallel AI mode that is called from synchronous
    code (a new event loop can be created and no loop is running in the
    thread), when the console and the file system take every write, a run
    on job data returns a package whatever the nine completion calls do,
    also when every one of them fails.  The
    package is marked SOPHISTICATED_PARALLEL_AI, names one file, is
    entered in the tracking dict under its id, and its score is 9.5: the
    score is a constant of the code, not a measure of the content. *)
Theorem parallel_package_scores_nine_and_a_half (w : World) (e : ApplicationEngine)
    (pe : Parallel.Engine) (d : JobData) (job_url company_name job_title : option string) :
  parallel_world_ok w ->
  synchronous_caller w ->
  ai_mode e = true ->
  parallel_mode e = true ->
  parallel_ai_engine e = Some pe ->
  nonempty d = true ->
  exists p e',
    process_job_application w job_url (Some d) company_name job_title e
    = (Ok (Some p), e')
    /\ mode p = Some "SOPHISTICATED_PARALLEL_AI"%string
    /\ application_score p == 9.5
    /\ job_information p = d
    /\ List.length (files_generated p) = 1%nat
    /\ applications e' !! application_id p = Some p.
Proof.
  intros Hw Hsync Hai Hpar Hpe Hd.
  rewrite process_with_job_data by exact Hd.
  rewrite Hai, Hpar. cbn [andb]. cbv zeta. rewrite parallel_mode_run.
  destruct (parallel_attempt_run w d
              (printing [ "USING SOPHISTICATED PARALLEL AI MODE - Maximum quality + speed"%string ] e)
              pe Hw Hsync Hpe)
    as (p & e' & -> & M & S & _ & J & F & _ & A).
  exists p, e'. cbn [fst snd as_result].
  split; [reflexivity |].
  exact (conj M (conj S (conj J (conj F A)))).
Qed.

Lemma parallel_package_scores_nine_and_a_half_witness :
  parallel_world_ok Samples.all_calls_fail
  /\ synchronous_caller Samples.all_calls_fail
  /\ exists p e',
    process_job_application Samples.all_calls_fail None (Some Samples.acme_job) None None
      Samples.keyed_engine = (Ok (Some p), e')
    /\ application_score p == 9.5.
Proof.
  assert (Hw : parallel_world_ok Samples.all_calls_fail)
    by (split; intros; reflexivity).
  assert (Hs : synchronous_caller Samples.all_calls_fail)
    by (split; reflexivity).
  destruct (parallel_package_scores_nine_and_a_half Samples.all_calls_fail
              Samples.keyed_engine Parallel.new_engine Samples.acme_job None None None
              Hw Hs eq_refl eq_refl eq_refl eq_refl)
    as (p & e' & E & _ & S & _).
  exact (conj Hw (conj Hs (ex_intro _ p (ex_intro _ e' (conj E S))))).
Defined.

Local Close Scope Q_scope.

(** *** The input of a run *)

(** X25.  In every mode, a run that is given a URL and no job data returns
    None and leaves the engine as it was, also when a company name and a
    job title are given with it: the URL is looked at first and the
    scraper returns nothing.  The same call without the URL works on the
    company name and the title; and when job data is given, the URL, the
    company name and the title are not looked at. *)
Theorem url_without_job_data_gives_nothing (w : World) (e : ApplicationEngine)
    (job_url company_name job_title : option string) (job_data : option JobData) :
  Keys.truthy job_url = true ->
  is_falsy job_data = true ->
  process_job_application w job_url job_data company_name job_title e = (Ok None, e)
  /\ (Keys.truthy company_name = true -> Keys.truthy job_title = true ->
      gather_job_data None job_data company_name job_title
      = Ok (Some (manual_job_data company_name job_title)))
  /\ (forall d url' company' title', nonempty d = true ->
        gather_job_data url' (Some d) company' title' = Ok (Some d)).
Proof.
  intros Hurl Hdata.
  assert (Hno : match job_data with Some d => nonempty d | None => false end = false).
  { unfold is_falsy in Hdata. destruct job_data as [d |]; [| reflexivity].
    now destruct (nonempty d). }
  split; [| split].
  - unfold process_job_application, gather_job_data. run.
    rewrite Hno, Hurl. reflexivity.
  - intros Hc Ht. unfold gather_job_data. rewrite Hno, Hc, Ht. reflexivity.
  - intros d url' company' title' Hd. unfold gather_job_data. now rewrite Hd.
Qed.

Lemma url_without_job_data_gives_nothing_witness :
  process_job_application Samples.engine_world (Some "https://example.com/jobs/1") None
    (Some "Acme") (Some "ML Engineer") Samples.keyed_engine
  = (Ok None, Samples.keyed_engine).
Proof.
  exact (proj1 (url_without_job_data_gives_nothing Samples.engine_world
                  Samples.keyed_engine (Some "https://example.com/jobs/1")
                  (Some "Acme") (Some "ML Engineer") None eq_refl eq_refl)).
Defined.

(** *** The fallback of the parallel mode *)

Lemma save_application_keeps_ai_engine (w : World) (p : Package) (e : ApplicationEngine) :
  ai_engine (snd (_save_application w p e)) = ai_engine e.
Proof.
  unfold _save_application, set_application. run. cbn [output_dir].
  destruct (file_io w _); reflexivity.
Qed.

Lemma parallel_attempt_keeps_ai_engine (w : World) (d : JobData) (e : ApplicationEngine) :
  ai_engine (snd (parallel_attempt w d e)) = ai_engine e.
Proof.
  unfold parallel_attempt. run. unfold run_parallel.
  destruct (new_event_loop w) as [u0 | x0]; [| reflexivity].
  destruct (parallel_ai_engine e) as [pe |]; [| reflexivity].
  destruct (loop_running w); [reflexivity |].
  destruct (Parallel.generate_sophisticated_application _ _ _ _ _ _ _ pe) as [[a | x] pe'];
    unfold set_parallel; cbn beta iota; [| reflexivity].
  cbn [output_dir]. destruct (file_io w _); [| reflexivity].
  unfold _save_sophisticated_application. run.
  destruct (file_io w _); [| reflexivity].
  match goal with |- context [_save_application w ?p ?s] =>
    pose proof (save_application_keeps_ai_engine w p s) as Hs;
    destruct (_save_application w p s) as [[u | y] s'] end;
    cbn [snd] in Hs; rewrite print_run || idtac; cbn [snd printing ai_engine] in *;
    exact Hs.
Qed.

Lemma init_without_ai_engine (w : World) (key : option string) (dir : string)
    (e : ApplicationEngine) :
  init w key dir = Ok e -> ai_engine e = None.
Proof.
  unfold init. destruct (file_io w dir); [| discriminate].
  destruct (Keys.truthy _); intros H; injection H as <-; reflexivity.
Qed.

(** X26.  The engine never assigns the AI engine it falls back to.  So on
    an engine as the constructor builds it, the AI mode raises
    AttributeError as soon as it is entered; and when the parallel attempt
    raises, the run ends with that AttributeError: the error of the
    parallel attempt is printed and does not reach the caller. *)
Theorem fallback_raises_attribute_error (w : World) (key : option string) (dir : string)
    (e e1 : ApplicationEngine) (d : JobData) (x : exn)
    (job_url company_name job_title : option string) :
  init w key dir = Ok e ->
  ai_mode e = true ->
  nonempty d = true ->
  parallel_attempt w d
    (printing [ "USING SOPHISTICATED PARALLEL AI MODE - Maximum quality + speed" ] e)
  = (Raise x, e1) ->
  fst (_process_with_ai_engine w d e) = Raise (AttributeError "ai_engine")
  /\ fst (process_job_application w job_url (Some d) company_name job_title e)
     = Raise (AttributeError "ai_engine")
  /\ In ("Parallel AI processing failed: " ++ exn_text x)%string
        (printed (snd (process_job_application w job_url (Some d) company_name
                         job_title e))).
Proof.
  intros Hinit Hai Hd Hattempt.
  pose proof (init_without_ai_engine w key dir e Hinit) as Hnone.
  assert (Hpar : parallel_mode e = true).
  { unfold init in Hinit. destruct (file_io w dir); [| discriminate].
    destruct (Keys.truthy _); injection Hinit as <-; [reflexivity | discriminate]. }
  assert (Hrun : forall e0, ai_engine e0 = None ->
            _process_with_ai_engine w d e0
            = (Raise (AttributeError "ai_engine"),
               printing [ "USING AI-POWERED MODE - Deep research in progress..." ] e0)).
  { intros e0 H0. unfold _process_with_ai_engine, read_ai_engine. run.
    rewrite print_run. cbn [ai_engine printing]. now rewrite H0. }
  assert (Hnone1 : ai_engine e1 = None).
  { pose proof (parallel_attempt_keeps_ai_engine w d
                  (printing [ "USING SOPHISTICATED PARALLEL AI MODE - Maximum quality + speed" ] e))
      as H.
    rewrite Hattempt in H. cbn [snd printing ai_engine] in H. congruence. }
  split; [now rewrite Hrun |].
  rewrite process_with_job_data by exact Hd.
  rewrite Hai, Hpar. cbn [andb]. cbv zeta.
  rewrite parallel_mode_run, Hattempt, Hrun by exact Hnone1.
  cbn [fst snd as_result printed printing].
  split; [reflexivity |].
  apply List.in_app_iff. left. apply List.in_app_iff. right. now left.
Qed.

Lemma fallback_raises_attribute_error_witness :
  fst (process_job_application Samples.engine_world None (Some Samples.acme_job)
         None None Samples.keyed_engine)
  = Raise (AttributeError "ai_engine").
Proof.
  pose (attempt :=
    parallel_attempt Samples.engine_world Samples.acme_job
      (printing [ "USING SOPHISTICATED PARALLEL AI MODE - Maximum quality + speed" ]
         Samples.keyed_engine)).
  assert (Ha : attempt = (Raise (ExternalError "console closed"), snd attempt))
    by (vm_compute; reflexivity).
  assert (Hinit : init Samples.engine_world (Some "sk-test") "applications"
                  = Ok Samples.keyed_engine) by reflexivity.
  exact (proj1 (proj2 (fallback_raises_attribute_error Samples.engine_world
                         (Some "sk-test") "applications" Samples.keyed_engine
                         (snd attempt) Samples.acme_job (ExternalError "console closed")
                         None None None Hinit eq_refl eq_refl Ha))).
Defined.

End EngineMore.
